(** * EMLE tutorials: the notebooks' own logic, embedded and verified

    The two notebooks (ADP.ipynb, AbyU2.ipynb) are glue around NumPy,
    OpenMM and Sire.  This development embeds

    - the error-analysis helpers of ADP.ipynb ([get_rmse] and friends)
      over NumPy's one-dimensional arrays,
    - the force-constant unit conversion of AbyU2.ipynb,
    - the collective-variable restraint of AbyU2.ipynb, and
    - the context set-up and production-sampling cells of both notebooks
      over an explicit store of OpenMM objects.

    Numbers are exact: array entries, coordinates and energies are real
    numbers, unit factors are rationals.  Rounding of binary64 values is
    not part of the model; NumPy's [nan] for the mean of an empty array
    is. *)

From Stdlib Require Import Reals Lra Lia QArith Qreals Ascii String.
From stdpp Require Import base option list gmap strings.

Open Scope R_scope.

(** ** Python outcomes *)

Inductive exn : Type :=
| ValueError
| KeyError (key : string)
| TypeError
| OpenMMException.

Inductive py (A : Type) : Type :=
| Ret (a : A)
| Raise (e : exn).
Arguments Ret {A} a.
Arguments Raise {A} e.

Definition py_bind {A B : Type} (m : py A) (k : A -> py B) : py B :=
  match m with
  | Ret a => k a
  | Raise e => Raise e
  end.

Notation "'do' x <- m ; k" := (py_bind m (fun x => k))
  (at level 10, x name, m at level 100, k at level 200).

(** ** NumPy: one-dimensional float arrays *)

(** Entries are exact real numbers: the rounding of binary64, its
    overflow to [inf] and arrays that hold [nan] or [inf] are not
    modelled. *)

Module Numpy.

(** An array as [scipy.io.loadmat(..., squeeze_me=True)] hands it over:
    a flat sequence of numbers. *)
Abbreviation ndarray := (list R).

(** A NumPy scalar result: a number, or [nan]. *)
Inductive npfloat : Type :=
| Fin (r : R)
| NaN.

(** Binary ufuncs broadcast: equal shapes go elementwise, a length-one
    operand is stretched, anything else raises [ValueError]. *)
Definition broadcast2 (f : R -> R -> R) (a b : ndarray) : py ndarray :=
  if decide (length a = length b) then Ret (zip_with f a b)
  else match a, b with
       | [x], _ => Ret (map (f x) b)
       | _, [y] => Ret (map (fun x => f x y) a)
       | _, _ => Raise ValueError
       end.

Definition np_sub : ndarray -> ndarray -> py ndarray := broadcast2 Rminus.
Definition np_add : ndarray -> ndarray -> py ndarray := broadcast2 Rplus.

(** [x ** 2], elementwise. *)
Definition np_square (a : ndarray) : ndarray := map (fun x => x ^ 2) a.

Definition np_sum (a : ndarray) : R := foldr Rplus 0 a.

(** [np.mean]: the mean of an empty array is [nan]. *)
Definition np_mean (a : ndarray) : npfloat :=
  match a with
  | [] => NaN
  | _ :: _ => Fin (np_sum a / INR (length a))
  end.

(** [np.sqrt] on a scalar: [nan] below zero and on [nan]. *)
Definition np_sqrt (x : npfloat) : npfloat :=
  match x with
  | Fin r => if Rlt_dec r 0 then NaN else Fin (sqrt r)
  | NaN => NaN
  end.

(** ADP.ipynb:
<<
def get_rmse(a, b):
    return np.sqrt(np.mean((a-b)**2))
>> *)
Definition get_rmse (a b : ndarray) : py npfloat :=
  do d <- np_sub a b;
  Ret (np_sqrt (np_mean (np_square d))).

(** The table loaded from the [.mat] file: a dict from names to arrays. *)
Definition getitem (data : gmap string ndarray) (key : string) : py ndarray :=
  match data !! key with
  | Some v => Ret v
  | None => Raise (KeyError key)
  end.

Definition get_static_rmse (data : gmap string ndarray) : py npfloat :=
  do a <- getitem data "E_static_qm";
  do b <- getitem data "E_static_emle";
  get_rmse a b.

Definition get_induced_rmse (data : gmap string ndarray) : py npfloat :=
  do a <- getitem data "E_induced_qm";
  do b <- getitem data "E_induced_emle";
  get_rmse a b.

Definition get_total_rmse (data : gmap string ndarray) : py npfloat :=
  do sq <- getitem data "E_static_qm";
  do iq <- getitem data "E_induced_qm";
  do q <- np_add sq iq;
  do se <- getitem data "E_static_emle";
  do ie <- getitem data "E_induced_emle";
  do e <- np_add se ie;
  get_rmse q e.

(** Python's [x == y] on two outcomes evaluates to [True]: both calls
    returned, both results are numbers, and the numbers agree ([nan]
    compares unequal to everything). *)
Definition py_float_eq (x y : py npfloat) : Prop :=
  match x, y with
  | Ret (Fin r), Ret (Fin s) => r = s
  | _, _ => False
  end.

(** The formula of the specification, read index by index:
    the square root of the mean over [i < n] of [(a_i - b_i)^2]; the mean
    of no numbers is undefined ([nan]). *)
Definition sq_diff_at (a b : ndarray) (i : nat) : R :=
  (nth i a 0 - nth i b 0) ^ 2.

Definition rmse_formula (a b : ndarray) : npfloat :=
  match length a with
  | O => NaN
  | S _ as n => Fin (sqrt (np_sum (map (sq_diff_at a b) (seq 0 n)) / INR n))
  end.

End Numpy.

(** ** openmm.unit: dimensioned quantities *)

(** Values and unit sizes are exact rationals.  The check of the
    dimensions is the library's; the scaling is the number the library
    approximates: openmm.unit computes it in binary64, and its rounding
    is not modelled. *)

Module Units.

(** Exponents of the base dimensions that occur: length, mass, time and
    amount of substance. *)
Record Dim : Type := mkDim {
  d_length : Z; d_mass : Z; d_time : Z; d_amount : Z }.

Definition dim_eqb (d e : Dim) : bool :=
  (d_length d =? d_length e)%Z && (d_mass d =? d_mass e)%Z &&
  (d_time d =? d_time e)%Z && (d_amount d =? d_amount e)%Z.

(** A unit: its dimension and its size in SI base units. *)
Record Unit : Type := mkUnit { u_dim : Dim; u_factor : Q }.

Record Quantity : Type := mkQuantity { q_value : Q; q_unit : Unit }.

Definition unit_mul (u v : Unit) : Unit :=
  {| u_dim := {| d_length := d_length (u_dim u) + d_length (u_dim v);
                 d_mass := d_mass (u_dim u) + d_mass (u_dim v);
                 d_time := d_time (u_dim u) + d_time (u_dim v);
                 d_amount := d_amount (u_dim u) + d_amount (u_dim v) |};
     u_factor := u_factor u * u_factor v |}.

Definition unit_pow (u : Unit) (n : Z) : Unit :=
  {| u_dim := {| d_length := d_length (u_dim u) * n;
                 d_mass := d_mass (u_dim u) * n;
                 d_time := d_time (u_dim u) * n;
                 d_amount := d_amount (u_dim u) * n |};
     u_factor := u_factor u ^ n |}.

Definition unit_div (u v : Unit) : Unit := unit_mul u (unit_pow v (-1)).

(** [x * unit] and [quantity / unit]. *)
Definition scalar_times (x : Q) (u : Unit) : Quantity :=
  {| q_value := x; q_unit := u |}.

Definition quantity_div (q : Quantity) (u : Unit) : Quantity :=
  {| q_value := q_value q; q_unit := unit_div (q_unit q) u |}.

Definition length_dim : Dim := mkDim 1 0 0 0.
(** Energy per amount of substance: kg m^2 s^-2 mol^-1. *)
Definition molar_energy_dim : Dim := mkDim 2 1 (-2) (-1).

Definition nanometer : Unit := mkUnit length_dim (1 # 1000000000).
Definition angstrom : Unit := mkUnit length_dim (1 # 10000000000).
Definition kilojoule_per_mole : Unit := mkUnit molar_energy_dim 1000.
(** The thermochemical calorie: 4.184 J. *)
Definition kilocalorie_per_mole : Unit := mkUnit molar_energy_dim 4184.

(** [Quantity.value_in_unit]: [TypeError] on incompatible dimensions,
    otherwise the value scaled by the ratio of the unit sizes. *)
Definition value_in_unit (q : Quantity) (u : Unit) : py Q :=
  if dim_eqb (u_dim (q_unit q)) (u_dim u)
  then Ret (Qred (q_value q * (u_factor (q_unit q) / u_factor u)))
  else Raise TypeError.

(** The MD unit system (nanometre, dalton = gram per mole, picosecond):
    the size, in SI base units, of its unit of a given dimension. *)
Definition md_unit (d : Dim) : Unit :=
  {| u_dim := d;
     u_factor := (1 # 1000000000) ^ d_length d * (1 # 1000) ^ d_mass d *
                 (1 # 1000000000000) ^ d_time d |}.

(** What the OpenMM wrappers do with a [Quantity] argument: express it in
    the MD unit system and drop the unit. *)
Definition value_in_md_unit_system (q : Quantity) : py Q :=
  value_in_unit q (md_unit (u_dim (q_unit q))).

(** AbyU2.ipynb:
<<
k = (125*unit.kilocalorie_per_mole/unit.angstrom**2).value_in_unit(
        unit.kilojoule_per_mole/unit.nanometer**2)
r0 = 2.5*unit.angstroms
>> *)
Definition k : py Q :=
  value_in_unit
    (quantity_div (scalar_times 125 kilocalorie_per_mole) (unit_pow angstrom 2))
    (unit_div kilojoule_per_mole (unit_pow nanometer 2)).

Definition r0 : Quantity := scalar_times (5 # 2) angstrom.

End Units.

(** ** Lepton: the energy expressions OpenMM's custom forces take *)

Module Lepton.

Inductive expr : Type :=
| Var (name : string)
| Const (c : Z)
| Add (a b : expr)
| Sub (a b : expr)
| Mul (a b : expr)
| Div (a b : expr)
| Pow (a : expr) (n : nat).

Inductive token : Type :=
| TId (name : string)
| TNum (n : nat)
| TPlus | TMinus | TStar | TSlash | TCaret | TLParen | TRParen.

Definition is_letter (c : ascii) : bool :=
  let n := nat_of_ascii c in
  ((65 <=? n) && (n <=? 90) || (97 <=? n) && (n <=? 122) || (n =? 95))%nat.

Definition is_digit (c : ascii) : bool :=
  let n := nat_of_ascii c in ((48 <=? n) && (n <=? 57))%nat.

Definition is_space (c : ascii) : bool := (nat_of_ascii c =? 32)%nat.

(** What the lexer is in the middle of. *)
Inductive pending : Type :=
| PNone
| PId (rev_name : string)
| PNum (n : nat).

Fixpoint string_rev_append (s acc : string) : string :=
  match s with
  | EmptyString => acc
  | String c s' => string_rev_append s' (String c acc)
  end.

Definition flush (p : pending) : list token :=
  match p with
  | PNone => []
  | PId r => [TId (string_rev_append r EmptyString)]
  | PNum n => [TNum n]
  end.

Definition symbol (c : ascii) : option token :=
  match nat_of_ascii c with
  | 43%nat => Some TPlus
  | 45%nat => Some TMinus
  | 42%nat => Some TStar
  | 47%nat => Some TSlash
  | 94%nat => Some TCaret
  | 40%nat => Some TLParen
  | 41%nat => Some TRParen
  | _ => None
  end.

Fixpoint tokenize (p : pending) (s : string) : option (list token) :=
  match s with
  | EmptyString => Some (flush p)
  | String c s' =>
      if is_letter c then
        match p with
        | PId r => tokenize (PId (String c r)) s'
        | PNone => tokenize (PId (String c EmptyString)) s'
        | PNum _ => None
        end
      else if is_digit c then
        let d := (nat_of_ascii c - 48)%nat in
        match p with
        | PId r => tokenize (PId (String c r)) s'
        | PNone => tokenize (PNum d) s'
        | PNum n => tokenize (PNum (10 * n + d)) s'
        end
      else if is_space c then
        ts ← tokenize PNone s'; Some (flush p ++ ts)
      else
        t ← symbol c; ts ← tokenize PNone s'; Some (flush p ++ t :: ts)
  end.

(** Recursive descent, with the usual precedences: [^] over [*] and [/]
    over [+] and [-]; the binary operators associate to the left. *)
Fixpoint parse_sum (fuel : nat) (ts : list token)
  : option (expr * list token) :=
  match fuel with
  | O => None
  | S fuel =>
      '(lhs, ts) ← parse_product fuel ts; parse_sum_rest fuel lhs ts
  end
with parse_sum_rest (fuel : nat) (lhs : expr) (ts : list token)
  : option (expr * list token) :=
  match fuel with
  | O => None
  | S fuel =>
      match ts with
      | TPlus :: ts =>
          '(rhs, ts) ← parse_product fuel ts;
          parse_sum_rest fuel (Add lhs rhs) ts
      | TMinus :: ts =>
          '(rhs, ts) ← parse_product fuel ts;
          parse_sum_rest fuel (Sub lhs rhs) ts
      | _ => Some (lhs, ts)
      end
  end
with parse_product (fuel : nat) (ts : list token)
  : option (expr * list token) :=
  match fuel with
  | O => None
  | S fuel =>
      '(lhs, ts) ← parse_power fuel ts; parse_product_rest fuel lhs ts
  end
with parse_product_rest (fuel : nat) (lhs : expr) (ts : list token)
  : option (expr * list token) :=
  match fuel with
  | O => None
  | S fuel =>
      match ts with
      | TStar :: ts =>
          '(rhs, ts) ← parse_power fuel ts;
          parse_product_rest fuel (Mul lhs rhs) ts
      | TSlash :: ts =>
          '(rhs, ts) ← parse_power fuel ts;
          parse_product_rest fuel (Div lhs rhs) ts
      | _ => Some (lhs, ts)
      end
  end
with parse_power (fuel : nat) (ts : list token)
  : option (expr * list token) :=
  match fuel with
  | O => None
  | S fuel =>
      '(base, ts) ← parse_atom fuel ts;
      match ts with
      | TCaret :: TNum n :: ts => Some (Pow base n, ts)
      | TCaret :: _ => None
      | _ => Some (base, ts)
      end
  end
with parse_atom (fuel : nat) (ts : list token)
  : option (expr * list token) :=
  match fuel with
  | O => None
  | S fuel =>
      match ts with
      | TId x :: ts => Some (Var x, ts)
      | TNum n :: ts => Some (Const (Z.of_nat n), ts)
      | TLParen :: ts =>
          '(e, ts) ← parse_sum fuel ts;
          match ts with
          | TRParen :: ts => Some (e, ts)
          | _ => None
          end
      | _ => None
      end
  end.

(** The whole string must be one expression.  Every call consumes a
    token or moves to a tighter level, so six levels per token are
    enough fuel. *)
Definition parse (s : string) : option expr :=
  ts ← tokenize PNone s;
  '(e, rest) ← parse_sum (6 * S (length ts)) ts;
  match rest with
  | [] => Some e
  | _ :: _ => None
  end.

(** Evaluation under a variable binding; an unbound variable has no
    value. *)
Fixpoint eval (env : gmap string R) (e : expr) : option R :=
  match e with
  | Var x => env !! x
  | Const c => Some (IZR c)
  | Add a b => x ← eval env a; y ← eval env b; Some (x + y)
  | Sub a b => x ← eval env a; y ← eval env b; Some (x - y)
  | Mul a b => x ← eval env a; y ← eval env b; Some (x * y)
  | Div a b => x ← eval env a; y ← eval env b; Some (x / y)
  | Pow a n => x ← eval env a; Some (x ^ n)
  end.

End Lepton.

(** ** OpenMM: forces, systems, integrators, contexts, DCD files *)

Module OpenMM.

Record Vec3 : Type := mkVec3 { vx : R; vy : R; vz : R }.

Definition distance (p q : Vec3) : R :=
  sqrt ((vx p - vx q) ^ 2 + (vy p - vy q) ^ 2 + (vz p - vz q) ^ 2).

(** *** Custom forces *)

Record CustomBondForce : Type := mkCustomBondForce {
  cbf_energy : Lepton.expr;
  cbf_perBondParameters : list string;
  cbf_bonds : list (nat * nat * list R) }.

(** [CustomBondForce(energy)]: the expression is parsed on construction. *)
Definition CustomBondForce_new (energy : string) : py CustomBondForce :=
  match Lepton.parse energy with
  | Some e => Ret (mkCustomBondForce e [] [])
  | None => Raise OpenMMException
  end.

Definition addPerBondParameter (name : string) (f : CustomBondForce)
  : CustomBondForce :=
  mkCustomBondForce (cbf_energy f) (cbf_perBondParameters f ++ [name])
                    (cbf_bonds f).

Definition addBond (particle1 particle2 : nat) (parameters : list R)
    (f : CustomBondForce) : CustomBondForce :=
  mkCustomBondForce (cbf_energy f) (cbf_perBondParameters f)
                    (cbf_bonds f ++ [(particle1, particle2, parameters)]).

Record CustomCVForce : Type := mkCustomCVForce {
  cvf_energy : Lepton.expr;
  cvf_collectiveVariables : list (string * CustomBondForce);
  cvf_globalParameters : list (string * R) }.

Definition CustomCVForce_new (energy : string) : py CustomCVForce :=
  match Lepton.parse energy with
  | Some e => Ret (mkCustomCVForce e [] [])
  | None => Raise OpenMMException
  end.

Definition addCollectiveVariable (name : string) (variable : CustomBondForce)
    (f : CustomCVForce) : CustomCVForce :=
  mkCustomCVForce (cvf_energy f)
                  (cvf_collectiveVariables f ++ [(name, variable)])
                  (cvf_globalParameters f).

Definition addGlobalParameter (name : string) (defaultValue : R)
    (f : CustomCVForce) : CustomCVForce :=
  mkCustomCVForce (cvf_energy f) (cvf_collectiveVariables f)
                  (cvf_globalParameters f ++ [(name, defaultValue)]).

(** The energy of one bond: the expression under the bond's parameters
    and [r], the distance of its two particles. *)
Definition bond_energy (energy : Lepton.expr) (names : list string)
    (positions : list Vec3) (bond : nat * nat * list R) : option R :=
  let '(p1, p2, parameters) := bond in
  x1 ← positions !! p1;
  x2 ← positions !! p2;
  Lepton.eval (<["r" := distance x1 x2]> (list_to_map (zip names parameters)))
              energy.

(** The energy of a [CustomBondForce]: the sum over its bonds. *)
Fixpoint bonds_energy (energy : Lepton.expr) (names : list string)
    (positions : list Vec3) (bonds : list (nat * nat * list R)) : option R :=
  match bonds with
  | [] => Some 0
  | bond :: bonds =>
      e ← bond_energy energy names positions bond;
      rest ← bonds_energy energy names positions bonds;
      Some (e + rest)
  end.

Definition CustomBondForce_energy (f : CustomBondForce)
    (positions : list Vec3) : option R :=
  bonds_energy (cbf_energy f) (cbf_perBondParameters f) positions (cbf_bonds f).

(** The variable binding of a [CustomCVForce]: the context's parameters,
    with each collective variable bound to its current value. *)
Fixpoint cv_env (cvs : list (string * CustomBondForce))
    (parameters : gmap string R) (positions : list Vec3)
  : option (gmap string R) :=
  match cvs with
  | [] => Some parameters
  | (name, variable) :: cvs =>
      v ← CustomBondForce_energy variable positions;
      env ← cv_env cvs parameters positions;
      Some (<[name := v]> env)
  end.

Definition CustomCVForce_energy (f : CustomCVForce)
    (parameters : gmap string R) (positions : list Vec3) : option R :=
  env ← cv_env (cvf_collectiveVariables f) parameters positions;
  Lepton.eval env (cvf_energy f).

(** *** The object store *)

(** The forces of a system: those Sire put there (opaque here) and the
    custom collective-variable forces the notebooks add. *)
Inductive Force : Type :=
| SireForce (id : nat)
| CVForce (f : CustomCVForce).

Record System : Type := mkSystem {
  sys_numParticles : nat;
  sys_forces : list Force }.

(** An integrator: its step size, its remaining settings (opaque), and
    the context it is bound to, if any. *)
Record Integrator : Type := mkIntegrator {
  ig_stepSize : R;
  ig_settings : nat;
  ig_owner : option nat }.

(** What the dynamics moves: positions, velocities and the state of the
    random stream of a stochastic integrator. *)
Record Phase : Type := mkPhase {
  positions : list Vec3;
  velocities : list Vec3;
  random : N }.

(** A context refers to its system and integrator; the forces it
    evaluates are those the system had when the context was built. *)
Record Context : Type := mkContext {
  ctx_system : nat;
  ctx_integrator : nat;
  ctx_platform : string;
  ctx_forces : list Force;
  ctx_parameters : gmap string R;
  ctx_phase : Phase;
  ctx_stepCount : nat }.

(** A DCD file on disk: the header fields and the frames. *)
Record File : Type := mkFile {
  file_closed : bool;
  file_natoms : nat;
  file_delta : R;
  file_nframes : nat;
  file_frames : list (list Vec3) }.

(** The [DCDFile] writer object. *)
Record DCDFile : Type := mkDCDFile {
  dcd_handle : string;
  dcd_topology_atoms : nat;
  dcd_modelCount : nat }.

(** Objects live in a store and are referred to by their index; two
    names for one index are two names for one object. *)
Record World : Type := mkWorld {
  systems : list System;
  integrators : list Integrator;
  contexts : list Context;
  dcd_files : list DCDFile;
  files : gmap string File }.

Definition set_systems (x : list System) (w : World) : World :=
  mkWorld x (integrators w) (contexts w) (dcd_files w) (files w).
Definition set_integrators (x : list Integrator) (w : World) : World :=
  mkWorld (systems w) x (contexts w) (dcd_files w) (files w).
Definition set_contexts (x : list Context) (w : World) : World :=
  mkWorld (systems w) (integrators w) x (dcd_files w) (files w).
Definition set_dcd_files (x : list DCDFile) (w : World) : World :=
  mkWorld (systems w) (integrators w) (contexts w) x (files w).
Definition set_files (x : gmap string File) (w : World) : World :=
  mkWorld (systems w) (integrators w) (contexts w) (dcd_files w) x.

(** Calls on the store: a new store and a result, or an exception.  An
    exception ends the cell; the store it leaves behind is not
    tracked. *)
Definition M (A : Type) : Type := World -> py (A * World).

Definition ret {A : Type} (a : A) : M A := fun w => Ret (a, w).

Definition bind {A B : Type} (m : M A) (k : A -> M B) : M B :=
  fun w => match m w with
           | Ret (a, w') => k a w'
           | Raise e => Raise e
           end.

Definition lift {A : Type} (r : py A) : M A :=
  fun w => match r with
           | Ret a => Ret (a, w)
           | Raise e => Raise e
           end.

Notation "'call' x <- m ; k" := (bind m (fun x => k))
  (at level 10, x name, m at level 100, k at level 200).
Notation "'exec' m ; k" := (bind m (fun _ => k))
  (at level 10, m at level 100, k at level 200).

(** [for _ in range(n): body] *)
Fixpoint for_range (n : nat) (body : M unit) : M unit :=
  match n with
  | O => ret tt
  | S n => exec body; for_range n body
  end.

(** *** Contexts *)

Definition get_context (c : nat) : M Context :=
  fun w => match contexts w !! c with
           | Some cx => Ret (cx, w)
           | None => Raise OpenMMException
           end.

(** Update a context in place. *)
Definition modify_context (c : nat) (f : Context -> py Context) : M unit :=
  fun w => match contexts w !! c with
           | Some cx =>
               match f cx with
               | Ret cx' => Ret (tt, set_contexts (<[c := cx']> (contexts w)) w)
               | Raise e => Raise e
               end
           | None => Raise OpenMMException
           end.

(** [context.getSystem()]: the system itself, not a copy of it. *)
Definition getSystem (c : nat) : M nat :=
  call cx <- get_context c; ret (ctx_system cx).

Definition getIntegrator (c : nat) : M nat :=
  call cx <- get_context c; ret (ctx_integrator cx).

Definition getPlatform (c : nat) : M string :=
  call cx <- get_context c; ret (ctx_platform cx).

(** [context.getState(getPositions=True)]: a snapshot, a value of its
    own that later steps do not change. *)
Definition getState (c : nat) : M Phase :=
  call cx <- get_context c; ret (ctx_phase cx).

Definition getPositions (state : Phase) : list Vec3 := positions state.

(** [integrator.__copy__()] and [deepcopy(integrator)]: a new integrator
    with the same settings, bound to no context. *)
Definition Integrator_copy (ig : nat) : M nat :=
  fun w => match integrators w !! ig with
           | Some i =>
               Ret (length (integrators w),
                    set_integrators
                      (integrators w ++
                       [mkIntegrator (ig_stepSize i) (ig_settings i) None]) w)
           | None => Raise OpenMMException
           end.

Definition getStepSize (ig : nat) : M R :=
  fun w => match integrators w !! ig with
           | Some i => Ret (ig_stepSize i, w)
           | None => Raise OpenMMException
           end.

(** [system.addForce(force)]: appends to the force list of the system
    object and returns the index of the new force.  Forces are values
    here: that the Python wrapper refuses a force object which a system
    owns already is not modelled. *)
Definition addForce (sys : nat) (f : Force) : M nat :=
  fun w => match systems w !! sys with
           | Some s =>
               Ret (length (sys_forces s),
                    set_systems
                      (<[sys := mkSystem (sys_numParticles s)
                                         (sys_forces s ++ [f])]> (systems w)) w)
           | None => Raise OpenMMException
           end.

Definition bond_in_range (n : nat) (bond : nat * nat * list R) : bool :=
  let '(p1, p2, _) := bond in (p1 <? n)%nat && (p2 <? n)%nat.

Definition force_in_range (n : nat) (f : Force) : bool :=
  match f with
  | SireForce _ => true
  | CVForce cv =>
      forallb (fun nv => forallb (bond_in_range n) (cbf_bonds (snd nv)))
              (cvf_collectiveVariables cv)
  end.

Definition force_globals (f : Force) : list (string * R) :=
  match f with
  | SireForce _ => []
  | CVForce cv => cvf_globalParameters cv
  end.

(** The parameters of a new context: the defaults of the global
    parameters of the system's forces. *)
Definition default_parameters (fs : list Force) : gmap string R :=
  list_to_map (concat (map force_globals fs)).

Definition origin : Vec3 := mkVec3 0 0 0.

(** [openmm.Context(system, integrator, platform)]: refuses an integrator
    that is bound already and a bond on a particle the system does not
    have; binds the integrator; starts with all particles at the
    origin. *)
Definition Context_new (sys ig : nat) (platform : string) : M nat :=
  fun w =>
    match systems w !! sys, integrators w !! ig with
    | Some s, Some i =>
        match ig_owner i with
        | Some _ => Raise OpenMMException
        | None =>
            if forallb (force_in_range (sys_numParticles s)) (sys_forces s)
            then
              let c := length (contexts w) in
              let cx :=
                mkContext sys ig platform (sys_forces s)
                  (default_parameters (sys_forces s))
                  (mkPhase (replicate (sys_numParticles s) origin)
                           (replicate (sys_numParticles s) origin) 0%N)
                  0%nat in
              Ret (c,
                   set_integrators
                     (<[ig := mkIntegrator (ig_stepSize i) (ig_settings i)
                                           (Some c)]> (integrators w))
                     (set_contexts (contexts w ++ [cx]) w))
            else Raise OpenMMException
        end
    | _, _ => Raise OpenMMException
    end.

(** [context.setParameter(name, value)]: the name must be a parameter of
    the context. *)
Definition Context_setParameter (name : string) (value : R) (cx : Context)
  : py Context :=
  match ctx_parameters cx !! name with
  | Some _ =>
      Ret (mkContext (ctx_system cx) (ctx_integrator cx) (ctx_platform cx)
             (ctx_forces cx) (<[name := value]> (ctx_parameters cx))
             (ctx_phase cx) (ctx_stepCount cx))
  | None => Raise OpenMMException
  end.

Definition setParameter (c : nat) (name : string) (value : R) : M unit :=
  modify_context c (Context_setParameter name value).

(** [context.setPositions(positions)]: one position per particle. *)
Definition Context_setPositions (xs : list Vec3) (cx : Context) : py Context :=
  if decide (length xs = length (positions (ctx_phase cx)))
  then Ret (mkContext (ctx_system cx) (ctx_integrator cx) (ctx_platform cx)
              (ctx_forces cx) (ctx_parameters cx)
              (mkPhase xs (velocities (ctx_phase cx)) (random (ctx_phase cx)))
              (ctx_stepCount cx))
  else Raise OpenMMException.

Definition setPositions (c : nat) (xs : list Vec3) : M unit :=
  modify_context c (Context_setPositions xs).

(** The energy of a collective-variable force as a context sees it. *)
Definition Context_restraint_energy (f : CustomCVForce) (cx : Context)
  : option R :=
  CustomCVForce_energy f (ctx_parameters cx) (positions (ctx_phase cx)).

(** *** Time stepping *)

Section Dynamics.

(** One step of the integrator, supplied by the platform: it sees the
    forces and parameters of the context and the step size, and moves
    the phase. *)
Variable md_step : list Force -> gmap string R -> R -> Phase -> Phase.

Definition advance (dt : R) (n : nat) (cx : Context) : Context :=
  mkContext (ctx_system cx) (ctx_integrator cx) (ctx_platform cx)
    (ctx_forces cx) (ctx_parameters cx)
    (Nat.iter n (md_step (ctx_forces cx) (ctx_parameters cx) dt) (ctx_phase cx))
    (ctx_stepCount cx + n).

(** [integrator.step(n)]: advances the context the integrator is bound
    to, and nothing else. *)
Definition step (ig : nat) (n : nat) : M unit :=
  fun w => match integrators w !! ig with
           | Some i =>
               match ig_owner i with
               | Some c =>
                   modify_context c
                     (fun cx => Ret (advance (ig_stepSize i) n cx)) w
               | None => Raise OpenMMException
               end
           | None => Raise OpenMMException
           end.

End Dynamics.

(** *** Trajectory output *)

(** [open(path, "bw")]: creates the file, or empties it. *)
Definition open (path : string) : M string :=
  fun w =>
    Ret (path, set_files (<[path := mkFile false 0 0 0 []]> (files w)) w).

(** [file_handle.close()] *)
Definition close (handle : string) : M unit :=
  fun w => match files w !! handle with
           | Some f =>
               Ret (tt, set_files
                          (<[handle := mkFile true (file_natoms f)
                                              (file_delta f)
                                              (file_nframes f) (file_frames f)]>
                             (files w)) w)
           | None => Raise ValueError
           end.

(** The time step as the DCD header holds it, in AKMA time units. *)
Definition dcd_delta (dt : R) : R := dt / (4888821 / 100000000).

(** [DCDFile(file, topology, dt)]: writes the header, with no frames. *)
Definition DCDFile_new (handle : string) (topology_atoms : nat) (dt : R)
  : M nat :=
  fun w => match files w !! handle with
           | Some f =>
               if file_closed f then Raise ValueError
               else
                 Ret (length (dcd_files w),
                      set_dcd_files
                        (dcd_files w ++ [mkDCDFile handle topology_atoms 0])
                        (set_files
                           (<[handle := mkFile false topology_atoms
                                               (dcd_delta dt) 0
                                               (file_frames f)]> (files w)) w))
           | None => Raise ValueError
           end.

(** [dcd_file.writeModel(positions)]: one position per atom of the
    topology, else [ValueError]; counts the model, updates the frame
    count of the header and appends the frame.  A frame is recorded as
    the positions handed over (on disk they are in angstrom, as 32-bit
    floats). *)
Definition writeModel (dcd : nat) (xs : list Vec3) : M unit :=
  fun w =>
    match dcd_files w !! dcd with
    | Some d =>
        if decide (dcd_topology_atoms d = length xs) then
          match files w !! dcd_handle d with
          | Some f =>
              if file_closed f then Raise ValueError
              else
                let count := S (dcd_modelCount d) in
                Ret (tt,
                     set_dcd_files
                       (<[dcd := mkDCDFile (dcd_handle d) (dcd_topology_atoms d)
                                           count]> (dcd_files w))
                       (set_files
                          (<[dcd_handle d :=
                               mkFile false (file_natoms f) (file_delta f) count
                                      (file_frames f ++ [xs])]> (files w)) w))
          | None => Raise ValueError
          end
        else Raise ValueError
    | None => Raise ValueError
    end.

End OpenMM.

(** ** The notebooks' cells *)

(** The loop both production cells run, with the step count per write
    and the number of writes as they appear in each notebook:
<<
for x in range(nwrites):
    integrator.step(nsteps)
    state = new_context.getState(getPositions=True)
    positions = state.getPositions()
    dcd_file.writeModel(positions)
>> *)
Module Sampling.
Import OpenMM.

Section Loop.

Variable md_step : list Force -> gmap string R -> R -> Phase -> Phase.

Definition sampling_pass (nsteps : nat)
    (integrator new_context dcd_file : nat) : M unit :=
  exec step md_step integrator nsteps;
  call state <- getState new_context;
  writeModel dcd_file (getPositions state).

Definition sampling_loop (nsteps nwrites : nat)
    (integrator new_context dcd_file : nat) : M unit :=
  for_range nwrites (sampling_pass nsteps integrator new_context dcd_file).

(** The frames the specification asks for: the positions of a context
    after [nsteps], [2 * nsteps], ..., [nwrites * nsteps] steps of size
    [dt]. *)
Definition trajectory (dt : R) (nsteps nwrites : nat) (cx : Context)
  : list (list Vec3) :=
  map (fun j => positions (ctx_phase (advance md_step dt (nsteps * j) cx)))
      (seq 1 nwrites).

End Loop.

(** The Sire dynamics object holds a context [cx0], built on the system
    [s] with the integrator [i0]: the context has one position per
    particle, and the bonds of the system's forces are on particles the
    system has. *)
Definition dynamics_ready (w : World) (context : nat) (cx0 : Context)
    (s : System) (i0 : Integrator) : Prop :=
  contexts w !! context = Some cx0 /\
  systems w !! ctx_system cx0 = Some s /\
  integrators w !! ctx_integrator cx0 = Some i0 /\
  length (positions (ctx_phase cx0)) = sys_numParticles s /\
  forallb (force_in_range (sys_numParticles s)) (sys_forces s) = true.

(** The store is ready for the loop: the integrator is bound to the
    context, the writer's file is open with its header up to date, and
    the topology has one atom per particle. *)
Definition loop_ready (w : World) (integrator new_context dcd_file : nat)
    (i : Integrator) (cx : Context) (d : DCDFile) (f : File) : Prop :=
  integrators w !! integrator = Some i /\
  ig_owner i = Some new_context /\
  contexts w !! new_context = Some cx /\
  dcd_files w !! dcd_file = Some d /\
  files w !! dcd_handle d = Some f /\
  file_closed f = false /\
  file_nframes f = dcd_modelCount d /\
  dcd_topology_atoms d = length (positions (ctx_phase cx)).

(** What a set-up cell leaves behind: [new_context] and [integrator] are
    new objects; the new context is on the system of the original one,
    has the original's positions and is bound to the new integrator, a
    copy of the original's; the original context and its integrator are
    as they were. *)
Definition new_context_from (w w' : World) (context : nat) (cx0 : Context)
    (i0 : Integrator) (integrator new_context : nat) : Prop :=
  contexts w !! new_context = None /\
  integrators w !! integrator = None /\
  contexts w' !! context = Some cx0 /\
  integrators w' !! ctx_integrator cx0 = Some i0 /\
  integrators w' !! integrator =
    Some (mkIntegrator (ig_stepSize i0) (ig_settings i0) (Some new_context)) /\
  exists cx1,
    contexts w' !! new_context = Some cx1 /\
    positions (ctx_phase cx1) = positions (ctx_phase cx0) /\
    ctx_system cx1 = ctx_system cx0 /\
    ctx_integrator cx1 = integrator.

(** The frames of the file at a path; none if there is no such file. *)
Definition frames_at (w : World) (path : string) : list (list Vec3) :=
  match files w !! path with
  | Some f => file_frames f
  | None => []
  end.

End Sampling.

(** *** ADP.ipynb *)

Module ADP.
Import OpenMM Sampling.

Section Cells.

Variable md_step : list Force -> gmap string R -> R -> Phase -> Phase.
(** [d.context()], the context of the Sire dynamics object. *)
Variable context : nat.
(** The number of atoms of [prm.topology]. *)
Variable topology_atoms : nat.

(**
<<
context = d.context()
omm_system = context.getSystem()
integrator = deepcopy(context.getIntegrator())
new_context = openmm.Context(omm_system, integrator, context.getPlatform())
new_context.setPositions(context.getState(getPositions=True).getPositions())
>> *)
Definition new_context_cell : M (nat * nat) :=
  call omm_system <- getSystem context;
  call original <- getIntegrator context;
  call integrator <- Integrator_copy original;
  call platform <- getPlatform context;
  call new_context <- Context_new omm_system integrator platform;
  call state <- getState context;
  exec setPositions new_context (getPositions state);
  ret (integrator, new_context).

(** The context the cell is to leave behind, named [new_context]: on
    the system of [cx0], with the copied integrator, the default
    parameters of the system's forces, the positions of [cx0], and no
    steps taken. *)
Definition fresh_context (w : World) (cx0 : Context) (s : System) : Context :=
  mkContext (ctx_system cx0) (length (integrators w)) (ctx_platform cx0)
    (sys_forces s) (default_parameters (sys_forces s))
    (mkPhase (positions (ctx_phase cx0))
             (replicate (sys_numParticles s) origin) 0%N) 0%nat.

Definition dcd_path : string := "ADP_OpenMM/ADP_OpenMM.dcd".

(**
<<
file_handle = open(f"ADP_OpenMM/ADP_OpenMM.dcd", "bw")
dcd_file = DCDFile(file_handle, prm.topology, dt=integrator.getStepSize())
for x in range(500):
    ...
file_handle.close()
>> *)
Definition production_cell (integrator new_context : nat) : M unit :=
  call file_handle <- open dcd_path;
  call dt <- getStepSize integrator;
  call dcd_file <- DCDFile_new file_handle topology_atoms dt;
  exec sampling_loop md_step 10 500 integrator new_context dcd_file;
  close file_handle.

Definition run : M (nat * nat) :=
  call names <- new_context_cell;
  exec production_cell (fst names) (snd names);
  ret names.

End Cells.

End ADP.

(** *** AbyU2.ipynb *)

Module AbyU.
Import OpenMM Sampling.

Definition distances : list (nat * nat * R) :=
  [(2125%nat, 2094%nat, 7 / 10); (2119%nat, 2087%nat, 3 / 10)].

Definition energy_expression : string := "k*(weighted_distance - r0)^2".

(** The restraint of the first cell, for any pairs, force constant and
    target distance:
<<
cv = CustomBondForce("weight*r")
cv.addPerBondParameter("weight")
for atom1, atom2, weight in distances:
    cv.addBond(atom1, atom2, [weight])
energy_expression = "k*(weighted_distance - r0)^2"
restraint_force = openmm.CustomCVForce(energy_expression)
restraint_force.addCollectiveVariable("weighted_distance", cv)
restraint_force.addGlobalParameter("k", k)
restraint_force.addGlobalParameter("r0", r0)
>>
    [k] is a plain number; [r0] is a length, which the wrapper expresses
    in nanometres. *)
Definition restraint (distances : list (nat * nat * R)) (k : R)
    (r0 : Units.Quantity) : py CustomCVForce :=
  do cv <- CustomBondForce_new "weight*r";
  let cv := addPerBondParameter "weight" cv in
  let cv := fold_left (fun cv '(atom1, atom2, weight) =>
                         addBond atom1 atom2 [weight] cv) distances cv in
  do restraint_force <- CustomCVForce_new energy_expression;
  let restraint_force :=
    addCollectiveVariable "weighted_distance" cv restraint_force in
  let restraint_force := addGlobalParameter "k" k restraint_force in
  do r0_nm <- Units.value_in_md_unit_system r0;
  Ret (addGlobalParameter "r0" (Q2R r0_nm) restraint_force).

(** The bond the loop adds for one entry of [distances]. *)
Definition bond_of (d : nat * nat * R) : nat * nat * list R :=
  let '(atom1, atom2, weight) := d in (atom1, atom2, [weight]).

(** The first cell as written, for any pairs: [k] from the unit
    conversion, [r0] of 2.5 angstrom, then the restraint. *)
Definition restraint_cell (distances : list (nat * nat * R))
  : py (R * CustomCVForce) :=
  do k <- Units.k;
  do restraint_force <- restraint distances (Q2R k) Units.r0;
  Ret (Q2R k, restraint_force).

(** The collective variable as the specification writes it: the sum over
    the pairs of weight times distance. *)
Fixpoint weighted_distance (distances : list (nat * nat * R))
    (positions : list Vec3) : option R :=
  match distances with
  | [] => Some 0
  | (atom1, atom2, weight) :: distances =>
      x1 ← positions !! atom1;
      x2 ← positions !! atom2;
      rest ← weighted_distance distances positions;
      Some (weight * distance x1 x2 + rest)
  end.

Section Cells.

Variable md_step : list Force -> gmap string R -> R -> Phase -> Phase.
(** [d._d._omm_mols], the context of the Sire dynamics object. *)
Variable context : nat.
(** The number of atoms of [prm.topology]. *)
Variable topology_atoms : nat.

(**
<<
context = d._d._omm_mols
omm_system = context.getSystem()
integrator = context.getIntegrator().__copy__()
omm_system.addForce(restraint_force)
new_context = openmm.Context(omm_system, integrator, context.getPlatform())
new_context.setParameter("k", k)
new_context.setParameter("r0", r0)
new_context.setPositions(context.getState(getPositions=True).getPositions())
>> *)
Definition new_context_cell (restraint_force : CustomCVForce) (k : R)
    (r0 : Units.Quantity) : M (nat * nat) :=
  call omm_system <- getSystem context;
  call original <- getIntegrator context;
  call integrator <- Integrator_copy original;
  exec addForce omm_system (CVForce restraint_force);
  call platform <- getPlatform context;
  call new_context <- Context_new omm_system integrator platform;
  exec setParameter new_context "k" k;
  call r0_nm <- lift (Units.value_in_md_unit_system r0);
  exec setParameter new_context "r0" (Q2R r0_nm);
  call state <- getState context;
  exec setPositions new_context (getPositions state);
  ret (integrator, new_context).

(** The context the cell is to leave behind, named [new_context]: as
    for ADP, with the restraint among its forces and [k] and [r0] set. *)
Definition fresh_context (w : World) (cx0 : Context) (s : System)
    (restraint_force : CustomCVForce) (k r0_nm : R) : Context :=
  mkContext (ctx_system cx0) (length (integrators w)) (ctx_platform cx0)
    (sys_forces s ++ [CVForce restraint_force])
    (<["r0" := r0_nm]>
       (<["k" := k]>
          (default_parameters (sys_forces s ++ [CVForce restraint_force]))))
    (mkPhase (positions (ctx_phase cx0))
             (replicate (sys_numParticles s) origin) 0%N) 0%nat.

Definition dcd_path : string := "./AbyU_OpenMM/AbyU_OpenMM_mace.dcd".

(**
<<
file_handle = open(f"./AbyU_OpenMM/AbyU_OpenMM_mace.dcd", "bw")
state = new_context.getState(getPositions=True)
positions = state.getPositions()
dcd_file = DCDFile(file_handle, prm.topology, dt=integrator.getStepSize())
dcd_file.writeModel(positions)
for x in range(300):
    ...
file_handle.close()
>> *)
Definition production_cell (integrator new_context : nat) : M unit :=
  call file_handle <- open dcd_path;
  call state <- getState new_context;
  call dt <- getStepSize integrator;
  call dcd_file <- DCDFile_new file_handle topology_atoms dt;
  exec writeModel dcd_file (getPositions state);
  exec sampling_loop md_step 1 300 integrator new_context dcd_file;
  close file_handle.

Definition run : M (nat * nat) :=
  call cell <- lift (restraint_cell distances);
  call names <- new_context_cell (snd cell) (fst cell) Units.r0;
  exec production_cell (fst names) (snd names);
  ret names.

End Cells.

End AbyU.

(** ** A small concrete store *)

Module Example.
Import OpenMM.

(** An analysis table with static errors of 3 and induced errors of 4,
    both of the same sign. *)
Definition same_sign_table : gmap string (list R) :=
  <["E_static_qm" := [3]]> (<["E_static_emle" := [0]]>
  (<["E_induced_qm" := [4]]> (<["E_induced_emle" := [0]]> ∅))).

(** A step that drifts every particle along x and advances the random
    stream. *)
Definition drift (fs : list Force) (ps : gmap string R) (dt : R) (ph : Phase)
  : Phase :=
  mkPhase (map (fun x => mkVec3 (vx x + dt) (vy x) (vz x)) (positions ph))
          (velocities ph) (random ph + 1).

Definition original_system (n : nat) : System := mkSystem n [SireForce 0].

Definition original_integrator : Integrator :=
  mkIntegrator (1 / 1000) 0 (Some 0%nat).

Definition original_context (n : nat) : Context :=
  mkContext 0 0 "CPU" [SireForce 0] ∅
    (mkPhase (replicate n (mkVec3 1 2 3)) (replicate n origin) 0%N) 0.

(** A store as Sire leaves it: one system of [n] particles, its
    integrator, and the context of the dynamics object. *)
Definition world (n : nat) : World :=
  mkWorld [original_system n] [original_integrator] [original_context n]
          [] ∅.

(** A store whose context has been running: particles move, and 7
    steps are on the clock. *)
Definition warm_context (n : nat) : Context :=
  mkContext 0 0 "CPU" [SireForce 0] ∅
    (mkPhase (replicate n (mkVec3 1 2 3)) (replicate n (mkVec3 1 0 0)) 5%N) 7.

Definition warm_world (n : nat) : World :=
  mkWorld [original_system n] [original_integrator] [warm_context n] [] ∅.

(** A store in the middle of a production cell: the integrator bound to
    the one context, and a writer on an open file with its header
    written. *)
Definition sampling_world : World :=
  mkWorld [original_system 2] [original_integrator] [original_context 2]
          [mkDCDFile "t.dcd" 2 0]
          (<["t.dcd" := mkFile false 2 (1 / 1000) 0 []]> ∅).

(** Two particles at distance 5, and a context over them. *)
Definition two_particles : list Vec3 := [origin; mkVec3 3 4 0].

(** A context over given positions whose parameters are [k] and [r0]. *)
Definition context_over (xs : list Vec3) (k r0 : R) : Context :=
  mkContext 0 0 "CPU" [] (<["k" := k]> (<["r0" := r0]> ∅))
    (mkPhase xs xs 0%N) 0.

(** An analysis table whose static arrays have two entries and whose
    induced arrays have three. *)
Definition mixed_length_table : gmap string (list R) :=
  <["E_static_qm" := [1; 2]]> (<["E_static_emle" := [0; 0]]>
  (<["E_induced_qm" := [1; 2; 3]]> (<["E_induced_emle" := [0; 0; 0]]> ∅))).

Definition two_particle_context (k r0 : R) : Context :=
  context_over two_particles k r0.

(** 2126 particles, all at one point. *)
Definition many_particles : list Vec3 := replicate 2126 (mkVec3 1 2 3).

End Example.

(** ** The error report of ADP.ipynb *)

Module Report.
Import Numpy.

(** Two one-dimensional shapes broadcast against each other. *)
Definition broadcastable (n m : nat) : Prop :=
  n = m \/ n = 1%nat \/ m = 1%nat.

(** The length of the result of broadcasting two such shapes. *)
Definition broadcast_len (n m : nat) : nat :=
  if decide (n = 1%nat) then m else n.

Section Printing.

(** The format specification [5.3f], applied to a NumPy scalar. *)
Variable format_5_3f : npfloat -> string.

(** ADP.ipynb:
<<
def get_errors(data):
    static = get_static_rmse(data)
    induced = get_induced_rmse(data)
    total = get_total_rmse(data)
    print(f'static: {static:5.3f} induced: {induced:5.3f} total: {total:5.3f} ')
>>
    Standard output is a list of lines; it is handed back also when the
    function raises. *)
Definition get_errors (data : gmap string ndarray) (stdout : list string)
  : list string * py unit :=
  match get_static_rmse data with
  | Raise e => (stdout, Raise e)
  | Ret static =>
      match get_induced_rmse data with
      | Raise e => (stdout, Raise e)
      | Ret induced =>
          match get_total_rmse data with
          | Raise e => (stdout, Raise e)
          | Ret total =>
              (stdout ++
               [("static: " ++ format_5_3f static ++
                 " induced: " ++ format_5_3f induced ++
                 " total: " ++ format_5_3f total ++ " ")%string],
               Ret tt)
          end
      end
  end.

End Printing.

End Report.

(** ** The unit conversion of the first cell, for any force constant *)

Module Conversion.
Import Units.

(** [x*unit.kilocalorie_per_mole/unit.angstrom**2], with 125 for [x] in
    the first notebook of AbyU2.ipynb and 100 in the second. *)
Definition force_quantity (x : Q) : Quantity :=
  quantity_div (scalar_times x kilocalorie_per_mole) (unit_pow angstrom 2).

(** [unit.kilojoule_per_mole/unit.nanometer**n]; the cells have [n = 2]. *)
Definition target_unit (n : Z) : Unit :=
  unit_div kilojoule_per_mole (unit_pow nanometer n).

End Conversion.

(** ** Moved particles, consistent files, declared parameters *)

Module Geometry.
Import OpenMM.


(** A file as [DCDFile] keeps it: the header counts the frames, and
    every frame has one position per atom of the header. *)
Definition dcd_consistent (f : File) : Prop :=
  file_nframes f = length (file_frames f) /\
  Forall (fun frame => length frame = file_natoms f) (file_frames f).

(** The writer [dcd] is on the file [h], for [atoms] atoms, and its
    model count and the file agree. *)
Definition writer_ok (w : World) (dcd : nat) (h : string) (atoms : nat)
  : Prop :=
  exists d f,
    dcd_files w !! dcd = Some d /\
    dcd_handle d = h /\
    dcd_topology_atoms d = atoms /\
    files w !! h = Some f /\
    file_nframes f = dcd_modelCount d /\
    file_natoms f = atoms /\
    dcd_consistent f.

(** The force declares a global parameter of that name. *)
Definition declares (name : string) (f : Force) : Prop :=
  name ∈ (force_globals f).*1.

End Geometry.

(** * Properties *)

(** ** The error-analysis helpers *)

Module NumpyProps.
Import Numpy.

(** *** Facts about the array primitives *)

Lemma np_sum_nonneg (a : ndarray) :
  Forall (fun x => 0 <= x) a -> 0 <= np_sum a.
Proof.
  induction 1 as [|x l Hx _ IH]; simpl; lra.
Qed.

Lemma np_square_nonneg (a : ndarray) :
  Forall (fun x => 0 <= x) (np_square a).
Proof.
  unfold np_square. apply Forall_fmap, Forall_true. intros x. simpl.
  nra.
Qed.

Lemma np_mean_square_nonneg (a : ndarray) :
  0 <= np_sum (np_square a) / INR (length a).
Proof.
  destruct a as [|x l].
  - simpl. lra.
  - apply Rmult_le_pos.
    + apply np_sum_nonneg, np_square_nonneg.
    + apply Rlt_le, Rinv_0_lt_compat, lt_0_INR. simpl. lia.
Qed.

Lemma np_sqrt_Fin (r : R) : 0 <= r -> np_sqrt (Fin r) = Fin (sqrt r).
Proof.
  intros Hr. unfold np_sqrt. destruct (Rlt_dec r 0); [lra|reflexivity].
Qed.

Lemma np_rms_cons (x : R) (l : ndarray) :
  np_sqrt (np_mean (np_square (x :: l))) =
  Fin (sqrt (np_sum (np_square (x :: l)) / INR (length (x :: l)))).
Proof.
  assert (E : np_mean (np_square (x :: l)) =
              Fin (np_sum (np_square (x :: l)) / INR (length (x :: l)))).
  { unfold np_square at 1. simpl map. unfold np_mean.
    do 2 f_equal. simpl. now rewrite length_map. }
  rewrite E. apply np_sqrt_Fin, np_mean_square_nonneg.
Qed.

Lemma broadcast2_same_length (f : R -> R -> R) (a b : ndarray) :
  length a = length b -> broadcast2 f a b = Ret (zip_with f a b).
Proof.
  intros H. unfold broadcast2. destruct (decide _); [reflexivity|contradiction].
Qed.

Lemma broadcast2_ok (f : R -> R -> R) (a b : ndarray) :
  length a = length b \/ length a = 1%nat \/ length b = 1%nat ->
  exists d, broadcast2 f a b = Ret d.
Proof.
  intros H. unfold broadcast2.
  destruct (decide (length a = length b)) as [E|NE]; [eauto|].
  destruct a as [|x [|x' a]], b as [|y [|y' b]]; simpl in *; eauto;
    exfalso; lia.
Qed.

Lemma broadcast2_raise (f : R -> R -> R) (a b : ndarray) :
  length a <> length b -> length a <> 1%nat -> length b <> 1%nat ->
  broadcast2 f a b = Raise ValueError.
Proof.
  intros NE Ha Hb. unfold broadcast2.
  destruct (decide (length a = length b)) as [E|_]; [contradiction|].
  destruct a as [|x [|x' a]], b as [|y [|y' b]]; simpl in *;
    try reflexivity; exfalso; lia.
Qed.

Lemma zip_with_Rminus_square_comm (a b : ndarray) :
  np_square (zip_with Rminus a b) = np_square (zip_with Rminus b a).
Proof.
  revert b. induction a as [|x a IH]; intros [|y b]; simpl; try reflexivity.
  f_equal; [ring|apply IH].
Qed.

Lemma np_square_sub_comm (a b : ndarray) :
  (do d <- np_sub a b; Ret (np_square d)) =
  (do d <- np_sub b a; Ret (np_square d)).
Proof.
  unfold np_sub, broadcast2.
  destruct (decide (length a = length b)) as [E|NE].
  - destruct (decide (length b = length a)) as [_|NE']; [|congruence].
    simpl. f_equal. apply zip_with_Rminus_square_comm.
  - destruct (decide (length b = length a)) as [E'|_]; [congruence|].
    assert (Hm : forall (x : R) (l : ndarray),
               np_square (map (Rminus x) l) =
               np_square (map (fun y => y - x) l)).
    { intros x l. unfold np_square. rewrite !map_map.
      apply map_ext. intros y. ring. }
    destruct a as [|x [|x' a]], b as [|y [|y' b]];
      try (exfalso; apply NE; reflexivity); try reflexivity;
      cbn [py_bind]; f_equal; first [apply Hm | symmetry; apply Hm].
Qed.

Lemma get_rmse_alt (a b : ndarray) :
  get_rmse a b =
  do s <- (do d <- np_sub a b; Ret (np_square d));
  Ret (np_sqrt (np_mean s)).
Proof.
  unfold get_rmse. destruct (np_sub a b); reflexivity.
Qed.

Lemma get_rmse_comm (a b : ndarray) : get_rmse a b = get_rmse b a.
Proof.
  rewrite !get_rmse_alt. now rewrite np_square_sub_comm.
Qed.

Lemma get_rmse_same_length (a b : ndarray) :
  length a = length b ->
  get_rmse a b = Ret (np_sqrt (np_mean (np_square (zip_with Rminus a b)))).
Proof.
  intros H. unfold get_rmse, np_sub. now rewrite broadcast2_same_length.
Qed.

Lemma np_sum_zero (a : ndarray) :
  Forall (fun x => x = 0) a -> np_sum a = 0.
Proof.
  induction 1 as [|x l Hx _ IH]; simpl; [reflexivity|]. rewrite Hx, IH. ring.
Qed.

Lemma np_square_self_zero (a : ndarray) :
  Forall (fun x => x = 0) (np_square (zip_with Rminus a a)).
Proof.
  induction a as [|x a IH]; simpl; constructor; [ring|exact IH].
Qed.

Lemma np_square_zip_nth (a b : ndarray) :
  length a = length b ->
  map (sq_diff_at a b) (seq 0 (length a)) = np_square (zip_with Rminus a b).
Proof.
  unfold np_square.
  revert b. induction a as [|x a IH]; intros [|y b] H; simpl in H;
    try discriminate; [reflexivity|].
  injection H as H. cbn [length seq map zip_with].
  f_equal. rewrite <- seq_shift, map_map.
  rewrite <- (IH b H). apply map_ext. intros i. reflexivity.
Qed.

Lemma get_rmse_singletons (x y : R) :
  get_rmse [x] [y] = Ret (Fin (Rabs (x - y))).
Proof.
  rewrite get_rmse_same_length by reflexivity.
  cbn [zip_with]. rewrite np_rms_cons. do 2 f_equal.
  rewrite <- sqrt_Rsqr_abs. f_equal. unfold Rsqr. simpl. field.
Qed.

Lemma same_sign_table_lookups :
  Example.same_sign_table !! "E_static_qm" = Some [3] /\
  Example.same_sign_table !! "E_static_emle" = Some [0] /\
  Example.same_sign_table !! "E_induced_qm" = Some [4] /\
  Example.same_sign_table !! "E_induced_emle" = Some [0].
Proof.
  unfold Example.same_sign_table. repeat split; by simplify_map_eq.
Qed.

(** C1: [get_total_rmse] adds the static and induced arrays elementwise
    and only then takes the RMSE of the two sums; and there is a table
    on which this differs from the quadrature
    [sqrt (static_rmse^2 + induced_rmse^2)]. *)
Theorem get_total_rmse_sums_before_rmse :
  (forall (data : gmap string ndarray) (sq se iq ie : ndarray),
      data !! "E_static_qm" = Some sq ->
      data !! "E_static_emle" = Some se ->
      data !! "E_induced_qm" = Some iq ->
      data !! "E_induced_emle" = Some ie ->
      get_total_rmse data =
        (do q <- np_add sq iq; do e <- np_add se ie; get_rmse q e) /\
      (length sq = length iq ->
       length se = length ie ->
       get_total_rmse data =
       get_rmse (zip_with Rplus sq iq) (zip_with Rplus se ie))) /\
  (exists (data : gmap string ndarray) (s i t : R),
      get_static_rmse data = Ret (Fin s) /\
      get_induced_rmse data = Ret (Fin i) /\
      get_total_rmse data = Ret (Fin t) /\
      t <> sqrt (s ^ 2 + i ^ 2)).
Proof.
  split.
  - intros data sq se iq ie Hsq Hse Hiq Hie.
    assert (E : get_total_rmse data =
                (do q <- np_add sq iq; do e <- np_add se ie; get_rmse q e)).
    { unfold get_total_rmse, getitem.
      rewrite Hsq, Hiq, Hse, Hie. cbn [py_bind].
      destruct (np_add sq iq); reflexivity. }
    split; [exact E|]. intros Lq Le. rewrite E. unfold np_add.
    rewrite (broadcast2_same_length _ _ _ Lq). cbn [py_bind].
    rewrite (broadcast2_same_length _ _ _ Le). reflexivity.
  - destruct same_sign_table_lookups as (Hsq & Hse & Hiq & Hie).
    exists Example.same_sign_table, 3, 4, 7.
    unfold get_static_rmse, get_induced_rmse, get_total_rmse, getitem, np_add.
    rewrite Hsq, Hse, Hiq, Hie. cbn [py_bind].
    rewrite !broadcast2_same_length by reflexivity.
    cbn [py_bind zip_with]. rewrite !get_rmse_singletons.
    repeat split.
    + do 2 f_equal. rewrite Rabs_right; lra.
    + do 2 f_equal. rewrite Rabs_right; lra.
    + do 2 f_equal. rewrite Rabs_right; lra.
    + replace (3 ^ 2 + 4 ^ 2) with (5 * 5) by (simpl; ring).
      rewrite sqrt_square by lra. lra.
Qed.

Lemma get_total_rmse_sums_before_rmse_witness :
  get_total_rmse Example.same_sign_table =
  get_rmse (zip_with Rplus [3] [4]) (zip_with Rplus [0] [0]).
Proof.
  destruct same_sign_table_lookups as (Hsq & Hse & Hiq & Hie).
  exact (proj2 (proj1 get_total_rmse_sums_before_rmse Example.same_sign_table
                  [3] [0] [4] [0] Hsq Hse Hiq Hie) eq_refl eq_refl).
Defined.

(** C2: on two arrays of the same length [get_rmse] returns the square
    root of the mean of the elementwise squared differences.  The result
    depends on the two arguments only: [get_rmse] takes and returns no
    state. *)
Theorem get_rmse_is_rmse_formula (a b : ndarray) :
  length a = length b ->
  get_rmse a b = Ret (rmse_formula a b).
Proof.
  intros H. rewrite (get_rmse_same_length _ _ H). f_equal.
  unfold rmse_formula.
  destruct a as [|x a], b as [|y b]; try discriminate; [reflexivity|].
  cbn [length]. change (S (length a)) with (length (x :: a)).
  rewrite np_square_zip_nth by exact H.
  cbn [zip_with]. rewrite np_rms_cons. do 4 f_equal.
  cbn [length]. rewrite length_zip_with. simpl in H. lia.
Qed.

Lemma get_rmse_is_rmse_formula_witness :
  get_rmse [1; 2; 4] [3; 2; 1] = Ret (rmse_formula [1; 2; 4] [3; 2; 1]).
Proof.
  apply (get_rmse_is_rmse_formula [1; 2; 4] [3; 2; 1]). reflexivity.
Defined.

(** C3, as the code has it: subtraction broadcasts, so [get_rmse] raises
    (a [ValueError]) exactly when the lengths differ and neither is one;
    it returns a value when the lengths agree or one of them is one. *)
Theorem get_rmse_raises_iff_not_broadcastable (a b : ndarray) :
  (get_rmse a b = Raise ValueError <->
   length a <> length b /\ length a <> 1%nat /\ length b <> 1%nat) /\
  ((exists x, get_rmse a b = Ret x) <->
   length a = length b \/ length a = 1%nat \/ length b = 1%nat).
Proof.
  unfold get_rmse, np_sub.
  destruct (decide (length a = length b \/ length a = 1%nat \/
                    length b = 1%nat)) as [Y|N].
  - destruct (broadcast2_ok Rminus a b Y) as [d ->]. cbn [py_bind].
    split; split.
    + discriminate.
    + intros (H1 & H2 & H3). exfalso. destruct Y as [?|[?|?]]; contradiction.
    + intros _. exact Y.
    + intros _. eexists. reflexivity.
  - rewrite broadcast2_raise by (intros E; apply N; auto). cbn [py_bind].
    split; split.
    + intros _. repeat split; intros E; apply N; auto.
    + reflexivity.
    + intros (? & ?). discriminate.
    + intros Y. contradiction.
Qed.

(** C3, the claim as stated fails: arrays of lengths 3 and 1 differ in
    length, and [get_rmse] returns 2 for them. *)
Lemma get_rmse_broadcast_returns :
  length [3; 3; 3] <> length [1] /\
  get_rmse [3; 3; 3] [1] = Ret (Fin 2).
Proof.
  split; [simpl; lia|].
  unfold get_rmse, np_sub, broadcast2. cbn [length decide].
  destruct (decide (3%nat = 1%nat)) as [E|_]; [discriminate|].
  cbn [py_bind map]. rewrite np_rms_cons. do 2 f_equal.
  replace (_ / _) with (2 * 2) by (simpl; field).
  apply sqrt_square. lra.
Qed.

(** C4, as the code has it: on non-empty arrays of the same length
    [get_rmse a b == get_rmse b a], and [get_rmse a a == 0]. *)
Theorem get_rmse_symmetric_and_zero_on_self (a b : ndarray) :
  a <> [] ->
  length a = length b ->
  py_float_eq (get_rmse a b) (get_rmse b a) /\
  py_float_eq (get_rmse a a) (Ret (Fin 0)).
Proof.
  intros Ha H. split.
  - rewrite <- (get_rmse_comm a b).
    rewrite (get_rmse_same_length _ _ H).
    destruct a as [|x a]; [contradiction|].
    destruct b as [|y b]; [discriminate|].
    cbn [zip_with]. rewrite np_rms_cons. reflexivity.
  - rewrite get_rmse_same_length by reflexivity.
    destruct a as [|x a]; [contradiction|].
    cbn [zip_with]. rewrite np_rms_cons. cbn [py_float_eq].
    rewrite np_sum_zero by apply (np_square_self_zero (x :: a)).
    unfold Rdiv. rewrite Rmult_0_l. apply sqrt_0.
Qed.

Lemma get_rmse_symmetric_and_zero_on_self_witness :
  py_float_eq (get_rmse [1; 2] [3; 5]) (get_rmse [3; 5] [1; 2]) /\
  py_float_eq (get_rmse [1; 2] [1; 2]) (Ret (Fin 0)).
Proof.
  apply (get_rmse_symmetric_and_zero_on_self [1; 2] [3; 5]).
  - discriminate.
  - reflexivity.
Defined.

(** C4, the claim as stated fails on the empty array: the mean of an
    empty array is [nan], so [get_rmse a a] is [nan], which equals
    neither 0 nor itself. *)
Lemma get_rmse_empty_is_nan :
  get_rmse [] [] = Ret NaN /\
  ~ py_float_eq (get_rmse [] []) (Ret (Fin 0)) /\
  ~ py_float_eq (get_rmse [] []) (get_rmse [] []).
Proof.
  split; [reflexivity|]. split; intros H; exact H.
Qed.

End NumpyProps.

(** ** The force-constant conversion *)

Module UnitsProps.
Import Units.

Lemma k_value : k = Ret 52300%Q.
Proof. vm_compute. reflexivity. Qed.

Lemma r0_in_nanometres : value_in_md_unit_system r0 = Ret (1 # 4)%Q.
Proof. vm_compute. reflexivity. Qed.

Lemma Q2R_k : Q2R 52300 = 52300.
Proof. unfold Q2R. simpl. field. Qed.

Lemma Q2R_r0 : Q2R (1 # 4) = 1 / 4.
Proof. unfold Q2R. simpl. field. Qed.

End UnitsProps.

(** ** The collective-variable restraint *)

Module RestraintProps.
Import OpenMM AbyU.

(** Lookups in a table written as a chain of inserts. *)
Ltac lookup_env :=
  repeat first
    [ rewrite lookup_insert_eq
    | rewrite lookup_insert_ne by (intros ?; discriminate) ].

Lemma parse_bond_expression :
  Lepton.parse "weight*r" =
  Some (Lepton.Mul (Lepton.Var "weight") (Lepton.Var "r")).
Proof. vm_compute. reflexivity. Qed.

Lemma parse_energy_expression :
  Lepton.parse energy_expression =
  Some (Lepton.Mul (Lepton.Var "k")
          (Lepton.Pow (Lepton.Sub (Lepton.Var "weighted_distance")
                                  (Lepton.Var "r0")) 2)).
Proof. vm_compute. reflexivity. Qed.

Lemma fold_addBond (ds : list (nat * nat * R)) (cv : CustomBondForce) :
  fold_left (fun cv '(atom1, atom2, weight) =>
               addBond atom1 atom2 [weight] cv) ds cv =
  mkCustomBondForce (cbf_energy cv) (cbf_perBondParameters cv)
                    (cbf_bonds cv ++ map bond_of ds).
Proof.
  revert cv. induction ds as [|[[a1 a2] w] ds IH]; intros cv.
  - simpl. rewrite app_nil_r. now destruct cv.
  - cbn [fold_left]. rewrite IH. unfold addBond. cbn.
    now rewrite <- app_assoc.
Qed.

(** The force the first cell builds, in closed form. *)
Lemma restraint_closed_form (ds : list (nat * nat * R)) (k : R)
    (r0 : Units.Quantity) (r0_nm : Q) :
  Units.value_in_md_unit_system r0 = Ret r0_nm ->
  restraint ds k r0 =
  Ret (mkCustomCVForce
         (Lepton.Mul (Lepton.Var "k")
            (Lepton.Pow (Lepton.Sub (Lepton.Var "weighted_distance")
                                    (Lepton.Var "r0")) 2))
         [("weighted_distance",
           mkCustomBondForce
             (Lepton.Mul (Lepton.Var "weight") (Lepton.Var "r"))
             ["weight"] (map bond_of ds))]
         [("k", k); ("r0", Q2R r0_nm)]).
Proof.
  intros Hr0. unfold restraint, CustomBondForce_new, CustomCVForce_new.
  rewrite parse_bond_expression, parse_energy_expression. cbn [py_bind].
  rewrite Hr0. cbn [py_bind]. rewrite fold_addBond. reflexivity.
Qed.

Lemma bonds_energy_weighted_distance (ds : list (nat * nat * R))
    (pos : list Vec3) :
  bonds_energy (Lepton.Mul (Lepton.Var "weight") (Lepton.Var "r")) ["weight"]
               pos (map bond_of ds) =
  weighted_distance ds pos.
Proof.
  induction ds as [|[[a1 a2] w] ds IH]; [reflexivity|].
  cbn [map bond_of bonds_energy weighted_distance bond_energy].
  destruct (pos !! a1) as [x1|]; [|reflexivity].
  destruct (pos !! a2) as [x2|]; [|reflexivity].
  cbn [mbind option_bind zip zip_with list_to_map foldr fst snd Lepton.eval
       curry].
  lookup_env. cbn [mbind option_bind].
  rewrite IH. destruct (weighted_distance ds pos); reflexivity.
Qed.

(** The restraint energy under any parameter table that binds [k] and
    [r0]. *)
Lemma restraint_energy (ds : list (nat * nat * R)) (k : R)
    (r0 : Units.Quantity) (r0_nm : Q) (params : gmap string R)
    (pos : list Vec3) (wd kv rv : R) :
  Units.value_in_md_unit_system r0 = Ret r0_nm ->
  weighted_distance ds pos = Some wd ->
  params !! "k" = Some kv ->
  params !! "r0" = Some rv ->
  exists rf, restraint ds k r0 = Ret rf /\
             cvf_globalParameters rf = [("k", k); ("r0", Q2R r0_nm)] /\
             CustomCVForce_energy rf params pos = Some (kv * (wd - rv) ^ 2).
Proof.
  intros Hr0 Hwd Hk Hr. eexists. split; [|split].
  - apply (restraint_closed_form ds k r0 r0_nm Hr0).
  - reflexivity.
  - unfold CustomCVForce_energy.
    cbn [cvf_collectiveVariables cvf_energy cv_env].
    unfold CustomBondForce_energy.
    cbn [cbf_energy cbf_perBondParameters cbf_bonds].
    rewrite bonds_energy_weighted_distance, Hwd.
    cbn [mbind option_bind Lepton.eval].
    lookup_env. rewrite Hk, Hr.
    reflexivity.
Qed.

(** The first cell as written: the force constant is 52300 and the
    defaults of the force are [k = 52300] and [r0 = 0.25]. *)
Lemma restraint_cell_value (ds : list (nat * nat * R)) :
  exists rf, restraint_cell ds = Ret (52300, rf) /\
             restraint ds 52300 Units.r0 = Ret rf /\
             cvf_globalParameters rf = [("k", 52300); ("r0", 1 / 4)] /\
             map (fun nv => cbf_bonds (snd nv)) (cvf_collectiveVariables rf) =
             [map bond_of ds].
Proof.
  unfold restraint_cell. rewrite UnitsProps.k_value. cbn [py_bind].
  rewrite UnitsProps.Q2R_k.
  rewrite (restraint_closed_form ds _ _ _ UnitsProps.r0_in_nanometres).
  cbn [py_bind]. rewrite UnitsProps.Q2R_r0.
  eexists. repeat split.
Qed.

Lemma restraint_in_range (n : nat) (rf : CustomCVForce) :
  (2125 < n)%nat ->
  map (fun nv => cbf_bonds (snd nv)) (cvf_collectiveVariables rf) =
  [map bond_of distances] ->
  force_in_range n (CVForce rf) = true.
Proof.
  intros Hn Hb. unfold force_in_range.
  assert (E : forall (l : list (string * CustomBondForce)),
             forallb (fun nv => forallb (bond_in_range n) (cbf_bonds (snd nv))) l =
             forallb (forallb (bond_in_range n))
                     (map (fun nv => cbf_bonds (snd nv)) l)).
  { induction l as [|x l IH]; [reflexivity|]. cbn [forallb map].
    now rewrite IH. }
  rewrite E, Hb. unfold distances. cbn [map bond_of forallb bond_in_range].
  rewrite !(proj2 (Nat.ltb_lt _ _)) by lia. reflexivity.
Qed.

Lemma setParameter_twice (cx : Context) (kv rv k' r0' : R) :
  ctx_parameters cx !! "k" = Some kv ->
  ctx_parameters cx !! "r0" = Some rv ->
  exists cx',
    (do cx1 <- Context_setParameter "k" k' cx;
     Context_setParameter "r0" r0' cx1) = Ret cx' /\
    ctx_forces cx' = ctx_forces cx /\
    ctx_phase cx' = ctx_phase cx /\
    ctx_parameters cx' !! "k" = Some k' /\
    ctx_parameters cx' !! "r0" = Some r0'.
Proof.
  intros Hk Hr. unfold Context_setParameter. rewrite Hk. cbn [py_bind].
  cbn [ctx_parameters]. rewrite lookup_insert_ne by (intros ?; discriminate).
  rewrite Hr. eexists. split; [reflexivity|].
  cbn [ctx_forces ctx_phase ctx_parameters]. repeat split.
  - rewrite lookup_insert_ne by (intros ?; discriminate).
    apply lookup_insert_eq.
  - apply lookup_insert_eq.
Qed.

(** C5: the restraint built from weighted pairs, [k] and [r0] is one
    scalar energy term, [k * (sum_i weight_i * distance(pair_i) - r0)^2],
    with [k] and [r0] read from the context's parameter table: its
    defaults are the [k] and [r0] given, and setting the two parameters
    by name on a context changes the energy of the same force.  For the
    pairs of the notebook the term is
    [k * (0.7 * distance(2125, 2094) + 0.3 * distance(2119, 2087) - r0)^2]. *)
Theorem restraint_energy_formula :
  (forall (ds : list (nat * nat * R)) (k : R) (r0 : Units.Quantity)
          (r0_nm : Q) (cx : Context) (wd kv rv k' r0' : R),
      Units.value_in_md_unit_system r0 = Ret r0_nm ->
      weighted_distance ds (positions (ctx_phase cx)) = Some wd ->
      ctx_parameters cx !! "k" = Some kv ->
      ctx_parameters cx !! "r0" = Some rv ->
      exists rf,
        restraint ds k r0 = Ret rf /\
        cvf_globalParameters rf = [("k", k); ("r0", Q2R r0_nm)] /\
        Context_restraint_energy rf cx = Some (kv * (wd - rv) ^ 2) /\
        exists cx',
          (do cx1 <- Context_setParameter "k" k' cx;
           Context_setParameter "r0" r0' cx1) = Ret cx' /\
          ctx_forces cx' = ctx_forces cx /\
          ctx_phase cx' = ctx_phase cx /\
          Context_restraint_energy rf cx' = Some (k' * (wd - r0') ^ 2)) /\
  (forall (cx : Context) (x1 x2 x3 x4 : Vec3) (kv rv : R),
      positions (ctx_phase cx) !! 2125%nat = Some x1 ->
      positions (ctx_phase cx) !! 2094%nat = Some x2 ->
      positions (ctx_phase cx) !! 2119%nat = Some x3 ->
      positions (ctx_phase cx) !! 2087%nat = Some x4 ->
      ctx_parameters cx !! "k" = Some kv ->
      ctx_parameters cx !! "r0" = Some rv ->
      exists rf,
        restraint_cell distances = Ret (52300, rf) /\
        cvf_globalParameters rf = [("k", 52300); ("r0", 1 / 4)] /\
        Context_restraint_energy rf cx =
        Some (kv * (7 / 10 * distance x1 x2 + 3 / 10 * distance x3 x4 - rv) ^ 2)).
Proof.
  split.
  - intros ds k r0 r0_nm cx wd kv rv k' r0' Hr0 Hwd Hk Hr.
    destruct (restraint_energy ds k r0 r0_nm (ctx_parameters cx)
                (positions (ctx_phase cx)) wd kv rv Hr0 Hwd Hk Hr)
      as (rf & Hrf & Hg & He).
    exists rf. repeat split; try assumption.
    destruct (setParameter_twice cx kv rv k' r0' Hk Hr)
      as (cx' & Hset & Hf & Hp & Hk' & Hr').
    exists cx'. repeat split; try assumption.
    unfold Context_restraint_energy. rewrite Hp.
    destruct (restraint_energy ds k r0 r0_nm (ctx_parameters cx')
                (positions (ctx_phase cx)) wd k' r0' Hr0 Hwd Hk' Hr')
      as (rf' & Hrf' & _ & He').
    rewrite Hrf in Hrf'. injection Hrf' as <-. exact He'.
  - intros cx x1 x2 x3 x4 kv rv H1 H2 H3 H4 Hk Hr.
    destruct (restraint_cell_value distances) as (rf & Hcell & Hrf & Hg & _).
    exists rf. repeat split; try assumption.
    assert (Hwd : weighted_distance distances (positions (ctx_phase cx)) =
                  Some (7 / 10 * distance x1 x2 + (3 / 10 * distance x3 x4 + 0))).
    { unfold distances. cbn [weighted_distance].
      rewrite H1, H2, H3, H4. reflexivity. }
    destruct (restraint_energy distances 52300 Units.r0 _ (ctx_parameters cx)
                (positions (ctx_phase cx)) _ kv rv
                UnitsProps.r0_in_nanometres Hwd Hk Hr)
      as (rf' & Hrf' & _ & He').
    rewrite Hrf in Hrf'. injection Hrf' as <-.
    unfold Context_restraint_energy. rewrite He'. f_equal. ring.
Qed.


Lemma restraint_energy_formula_witness :
  (exists rf,
      restraint [(0%nat, 1%nat, 1 / 2)] 2 Units.r0 = Ret rf /\
      cvf_globalParameters rf = [("k", 2); ("r0", Q2R (1 # 4))] /\
      Context_restraint_energy rf (Example.two_particle_context 2 (1 / 4)) =
        Some (2 * (1 / 2 * distance origin (mkVec3 3 4 0) + 0 - 1 / 4) ^ 2) /\
      exists cx',
        (do cx1 <- Context_setParameter "k" 3
                     (Example.two_particle_context 2 (1 / 4));
         Context_setParameter "r0" 1 cx1) = Ret cx' /\
        ctx_forces cx' = ctx_forces (Example.two_particle_context 2 (1 / 4)) /\
        ctx_phase cx' = ctx_phase (Example.two_particle_context 2 (1 / 4)) /\
        Context_restraint_energy rf cx' =
          Some (3 * (1 / 2 * distance origin (mkVec3 3 4 0) + 0 - 1) ^ 2)) /\
  (exists rf,
      restraint_cell distances = Ret (52300, rf) /\
      cvf_globalParameters rf = [("k", 52300); ("r0", 1 / 4)] /\
      Context_restraint_energy rf
        (Example.context_over Example.many_particles 52300 (1 / 4)) =
        Some (52300 * (7 / 10 * distance (mkVec3 1 2 3) (mkVec3 1 2 3) +
                       3 / 10 * distance (mkVec3 1 2 3) (mkVec3 1 2 3) - 1 / 4) ^ 2)).
Proof.
  destruct restraint_energy_formula as [Hgen Hobs].
  split.
  - apply (Hgen [(0%nat, 1%nat, 1 / 2)] 2 Units.r0 (1 # 4)%Q
             (Example.two_particle_context 2 (1 / 4))
             (1 / 2 * distance origin (mkVec3 3 4 0) + 0) 2 (1 / 4) 3 1).
    + exact UnitsProps.r0_in_nanometres.
    + reflexivity.
    + apply lookup_insert_eq.
    + unfold Example.two_particle_context, Example.context_over.
      cbn [ctx_parameters].
      rewrite lookup_insert_ne by (intros ?; discriminate).
      apply lookup_insert_eq.
  - apply (Hobs (Example.context_over Example.many_particles 52300 (1 / 4))).
    + apply lookup_replicate_2. lia.
    + apply lookup_replicate_2. lia.
    + apply lookup_replicate_2. lia.
    + apply lookup_replicate_2. lia.
    + apply lookup_insert_eq.
    + unfold Example.context_over. cbn [ctx_parameters].
      rewrite lookup_insert_ne by (intros ?; discriminate).
      apply lookup_insert_eq.
Defined.


End RestraintProps.

(** ** Calls on the object store *)

Module StoreProps.
Import OpenMM.

(** Read a field of a store written as a chain of updates. *)
Ltac store_simpl :=
  cbn [systems integrators contexts dcd_files files set_systems
       set_integrators set_contexts set_dcd_files set_files].

Tactic Notation "store_simpl" "in" hyp(H) :=
  cbn [systems integrators contexts dcd_files files set_systems
       set_integrators set_contexts set_dcd_files set_files] in H.

Lemma bind_eq {A B : Type} (m : M A) (k : A -> M B) (w w' : World) (a : A) :
  m w = Ret (a, w') -> bind m k w = k a w'.
Proof. intros H. unfold bind. now rewrite H. Qed.

Lemma insert_snoc {A : Type} (l : list A) (x y : A) :
  <[length l := y]> (l ++ [x]) = l ++ [y].
Proof.
  replace (length l) with (length l + 0)%nat by lia.
  now rewrite insert_app_r.
Qed.

Lemma lookup_snoc {A : Type} (l : list A) (x : A) :
  (l ++ [x]) !! length l = Some x.
Proof. now rewrite list_lookup_middle. Qed.

Lemma lookup_snoc_old {A : Type} (l : list A) (x y : A) (i : nat) :
  l !! i = Some y -> (l ++ [x]) !! i = Some y.
Proof.
  intros H. rewrite lookup_app_l; [exact H|]. eapply lookup_lt_Some, H.
Qed.

Lemma get_context_eq (w : World) (c : nat) (cx : Context) :
  contexts w !! c = Some cx -> get_context c w = Ret (cx, w).
Proof. intros H. unfold get_context. now rewrite H. Qed.

Lemma getSystem_eq (w : World) (c : nat) (cx : Context) :
  contexts w !! c = Some cx -> getSystem c w = Ret (ctx_system cx, w).
Proof.
  intros H. unfold getSystem. now rewrite (bind_eq _ _ _ _ _ (get_context_eq _ _ _ H)).
Qed.

Lemma getIntegrator_eq (w : World) (c : nat) (cx : Context) :
  contexts w !! c = Some cx -> getIntegrator c w = Ret (ctx_integrator cx, w).
Proof.
  intros H. unfold getIntegrator.
  now rewrite (bind_eq _ _ _ _ _ (get_context_eq _ _ _ H)).
Qed.

Lemma getPlatform_eq (w : World) (c : nat) (cx : Context) :
  contexts w !! c = Some cx -> getPlatform c w = Ret (ctx_platform cx, w).
Proof.
  intros H. unfold getPlatform.
  now rewrite (bind_eq _ _ _ _ _ (get_context_eq _ _ _ H)).
Qed.

Lemma getState_eq (w : World) (c : nat) (cx : Context) :
  contexts w !! c = Some cx -> getState c w = Ret (ctx_phase cx, w).
Proof.
  intros H. unfold getState.
  now rewrite (bind_eq _ _ _ _ _ (get_context_eq _ _ _ H)).
Qed.

Lemma Integrator_copy_eq (w : World) (ig : nat) (i : Integrator) :
  integrators w !! ig = Some i ->
  Integrator_copy ig w =
  Ret (length (integrators w),
       set_integrators
         (integrators w ++ [mkIntegrator (ig_stepSize i) (ig_settings i) None])
         w).
Proof. intros H. unfold Integrator_copy. now rewrite H. Qed.

Lemma getStepSize_eq (w : World) (ig : nat) (i : Integrator) :
  integrators w !! ig = Some i -> getStepSize ig w = Ret (ig_stepSize i, w).
Proof. intros H. unfold getStepSize. now rewrite H. Qed.

Lemma addForce_eq (w : World) (sys : nat) (s : System) (f : Force) :
  systems w !! sys = Some s ->
  addForce sys f w =
  Ret (length (sys_forces s),
       set_systems
         (<[sys := mkSystem (sys_numParticles s) (sys_forces s ++ [f])]>
            (systems w)) w).
Proof. intros H. unfold addForce. now rewrite H. Qed.

Lemma Context_new_eq (w : World) (sys ig : nat) (platform : string)
    (s : System) (i : Integrator) :
  systems w !! sys = Some s ->
  integrators w !! ig = Some i ->
  ig_owner i = None ->
  forallb (force_in_range (sys_numParticles s)) (sys_forces s) = true ->
  Context_new sys ig platform w =
  Ret (length (contexts w),
       set_integrators
         (<[ig := mkIntegrator (ig_stepSize i) (ig_settings i)
                               (Some (length (contexts w)))]> (integrators w))
         (set_contexts
            (contexts w ++
             [mkContext sys ig platform (sys_forces s)
                (default_parameters (sys_forces s))
                (mkPhase (replicate (sys_numParticles s) origin)
                         (replicate (sys_numParticles s) origin) 0%N)
                0%nat]) w)).
Proof.
  intros Hs Hi Ho Hf. unfold Context_new. now rewrite Hs, Hi, Ho, Hf.
Qed.

Lemma modify_context_eq (w : World) (c : nat) (f : Context -> py Context)
    (cx cx' : Context) :
  contexts w !! c = Some cx ->
  f cx = Ret cx' ->
  modify_context c f w = Ret (tt, set_contexts (<[c := cx']> (contexts w)) w).
Proof. intros H Hf. unfold modify_context. now rewrite H, Hf. Qed.

Lemma close_eq (w : World) (h : string) (f : File) :
  files w !! h = Some f ->
  close h w =
  Ret (tt, set_files
             (<[h := mkFile true (file_natoms f) (file_delta f)
                            (file_nframes f) (file_frames f)]> (files w)) w).
Proof. intros H. unfold close. now rewrite H. Qed.

Lemma DCDFile_new_eq (w : World) (h : string) (n : nat) (dt : R) (f : File) :
  files w !! h = Some f ->
  file_closed f = false ->
  DCDFile_new h n dt w =
  Ret (length (dcd_files w),
       set_dcd_files (dcd_files w ++ [mkDCDFile h n 0])
         (set_files (<[h := mkFile false n (dcd_delta dt) 0 (file_frames f)]>
                       (files w)) w)).
Proof. intros H Hc. unfold DCDFile_new. now rewrite H, Hc. Qed.

Lemma writeModel_eq (w : World) (dcd : nat) (xs : list Vec3) (d : DCDFile)
    (f : File) :
  dcd_files w !! dcd = Some d ->
  dcd_topology_atoms d = length xs ->
  files w !! dcd_handle d = Some f ->
  file_closed f = false ->
  writeModel dcd xs w =
  Ret (tt,
       set_dcd_files
         (<[dcd := mkDCDFile (dcd_handle d) (dcd_topology_atoms d)
                             (S (dcd_modelCount d))]> (dcd_files w))
         (set_files
            (<[dcd_handle d :=
                 mkFile false (file_natoms f) (file_delta f)
                        (S (dcd_modelCount d)) (file_frames f ++ [xs])]>
               (files w)) w)).
Proof.
  intros Hd Hn Hf Hc. unfold writeModel. rewrite Hd.
  destruct (decide _) as [_|N]; [|contradiction]. now rewrite Hf, Hc.
Qed.

(** A loop of [j + k] passes is a loop of [j] passes followed by one of
    [k]. *)
Lemma for_range_add (j k : nat) (body : M unit) (w : World) :
  for_range (j + k) body w =
  (exec for_range j body; for_range k body) w.
Proof.
  revert w. induction j as [|j IH]; intros w; [reflexivity|].
  cbn [Nat.add for_range]. unfold bind.
  destruct (body w) as [[[] w1]|e]; [|reflexivity].
  rewrite IH. reflexivity.
Qed.

(** *** Reading a successful run backwards *)

Lemma bind_inv {A B : Type} (m : M A) (k : A -> M B) (w w' : World) (b : B) :
  bind m k w = Ret (b, w') ->
  exists a w1, m w = Ret (a, w1) /\ k a w1 = Ret (b, w').
Proof.
  unfold bind. destruct (m w) as [[a w1]|e]; [eauto|discriminate].
Qed.

Lemma get_context_inv (c : nat) (w w' : World) (cx : Context) :
  get_context c w = Ret (cx, w') -> w' = w.
Proof.
  unfold get_context. destruct (contexts w !! c); [|discriminate].
  now intros [= _ <-].
Qed.

Lemma getState_inv (c : nat) (w w' : World) (ph : Phase) :
  getState c w = Ret (ph, w') -> w' = w.
Proof.
  unfold getState. intros H.
  apply bind_inv in H as (cx & w1 & H1 & H2).
  apply get_context_inv in H1 as ->. now injection H2 as _ <-.
Qed.

Lemma getStepSize_inv (ig : nat) (w w' : World) (dt : R) :
  getStepSize ig w = Ret (dt, w') -> w' = w.
Proof.
  unfold getStepSize. destruct (integrators w !! ig); [|discriminate].
  now intros [= _ <-].
Qed.

Lemma modify_context_inv (c : nat) (f : Context -> py Context) (w w' : World)
    (u : unit) :
  modify_context c f w = Ret (u, w') ->
  files w' = files w /\ dcd_files w' = dcd_files w.
Proof.
  unfold modify_context. destruct (contexts w !! c) as [cx|]; [|discriminate].
  destruct (f cx); [|discriminate]. now intros [= _ <-].
Qed.

Lemma writeModel_inv (dcd : nat) (xs : list Vec3) (w w' : World) (u : unit) :
  writeModel dcd xs w = Ret (u, w') ->
  exists d f,
    dcd_files w !! dcd = Some d /\
    files w !! dcd_handle d = Some f /\
    file_closed f = false /\
    dcd_files w' =
      <[dcd := mkDCDFile (dcd_handle d) (dcd_topology_atoms d)
                         (S (dcd_modelCount d))]> (dcd_files w) /\
    files w' =
      <[dcd_handle d :=
          mkFile false (file_natoms f) (file_delta f) (S (dcd_modelCount d))
                 (file_frames f ++ [xs])]> (files w).
Proof.
  unfold writeModel.
  destruct (dcd_files w !! dcd) as [d|] eqn:Hd; [|discriminate].
  destruct (decide _); [|discriminate].
  destruct (files w !! dcd_handle d) as [f|] eqn:Hf; [|discriminate].
  destruct (file_closed f) eqn:Hcl; [discriminate|].
  intros [= _ <-]. exists d, f. split; [reflexivity|]. split; [exact Hf|].
  split; [exact Hcl|]. split; reflexivity.
Qed.

Lemma DCDFile_new_inv (h : string) (n : nat) (dt : R) (w w' : World)
    (dcd : nat) :
  DCDFile_new h n dt w = Ret (dcd, w') ->
  exists f,
    files w !! h = Some f /\
    dcd = length (dcd_files w) /\
    dcd_files w' = dcd_files w ++ [mkDCDFile h n 0] /\
    files w' =
      <[h := mkFile false n (dcd_delta dt) 0 (file_frames f)]> (files w).
Proof.
  unfold DCDFile_new. destruct (files w !! h) as [f|] eqn:Hf; [|discriminate].
  destruct (file_closed f); [discriminate|].
  intros [= <- <-]. exists f. split; [reflexivity|]. split; [reflexivity|].
  split; reflexivity.
Qed.

Lemma close_inv (h : string) (w w' : World) (u : unit) :
  close h w = Ret (u, w') ->
  exists f,
    files w !! h = Some f /\
    files w' !! h =
      Some (mkFile true (file_natoms f) (file_delta f) (file_nframes f)
                   (file_frames f)).
Proof.
  unfold close. destruct (files w !! h) as [f|] eqn:Hf; [|discriminate].
  intros [= _ <-]. exists f. split; [reflexivity|]. store_simpl.
  apply lookup_insert_eq.
Qed.

Section Dynamics.

Variable md_step : list Force -> gmap string R -> R -> Phase -> Phase.

Lemma step_inv (ig n : nat) (w w' : World) (u : unit) :
  step md_step ig n w = Ret (u, w') ->
  files w' = files w /\ dcd_files w' = dcd_files w.
Proof.
  unfold step. destruct (integrators w !! ig) as [i|]; [|discriminate].
  destruct (ig_owner i) as [c|]; [|discriminate].
  apply modify_context_inv.
Qed.

Lemma step_eq (w : World) (ig n c : nat) (i : Integrator) (cx : Context) :
  integrators w !! ig = Some i ->
  ig_owner i = Some c ->
  contexts w !! c = Some cx ->
  step md_step ig n w =
  Ret (tt, set_contexts
             (<[c := advance md_step (ig_stepSize i) n cx]> (contexts w)) w).
Proof.
  intros Hi Ho Hc. unfold step. rewrite Hi, Ho.
  now apply modify_context_eq with (cx := cx).
Qed.

Lemma advance_0 (dt : R) (cx : Context) : advance md_step dt 0 cx = cx.
Proof.
  destruct cx. unfold advance. cbn. now rewrite Nat.add_0_r.
Qed.

Lemma advance_add (dt : R) (n m : nat) (cx : Context) :
  advance md_step dt m (advance md_step dt n cx) =
  advance md_step dt (n + m) cx.
Proof.
  unfold advance. cbn. f_equal.
  - rewrite (Nat.add_comm n m). now rewrite Nat.iter_add.
  - lia.
Qed.

End Dynamics.

End StoreProps.

(** ** The sampling loop *)

Module SamplingProps.
Import OpenMM Sampling StoreProps.

Section Loop.

Variable md_step : list Force -> gmap string R -> R -> Phase -> Phase.

(** The integrator moves particles; it neither adds nor removes any. *)
Hypothesis md_step_particles :
  forall fs ps dt ph,
    length (positions (md_step fs ps dt ph)) = length (positions ph).

Lemma advance_particles (dt : R) (n : nat) (cx : Context) :
  length (positions (ctx_phase (advance md_step dt n cx))) =
  length (positions (ctx_phase cx)).
Proof.
  unfold advance. cbn [ctx_phase]. induction n as [|n IH]; [reflexivity|].
  rewrite Nat.iter_succ. now rewrite md_step_particles.
Qed.

Lemma trajectory_succ (dt : R) (nsteps nwrites : nat) (cx : Context) :
  trajectory md_step dt nsteps (S nwrites) cx =
  positions (ctx_phase (advance md_step dt nsteps cx)) ::
  trajectory md_step dt nsteps nwrites (advance md_step dt nsteps cx).
Proof.
  unfold trajectory. cbn [seq map]. f_equal.
  - now rewrite Nat.mul_1_r.
  - rewrite <- seq_shift, map_map. apply map_ext. intros j.
    rewrite advance_add. do 3 f_equal. lia.
Qed.

Lemma trajectory_length (dt : R) (nsteps nwrites : nat) (cx : Context) :
  length (trajectory md_step dt nsteps nwrites cx) = nwrites.
Proof. unfold trajectory. now rewrite length_map, length_seq. Qed.

(** What one pass of the loop does to the store. *)
Lemma sampling_pass_spec (nsteps ig c dcd : nat) (w : World)
    (i : Integrator) (cx : Context) (d : DCDFile) (f : File) :
  integrators w !! ig = Some i ->
  ig_owner i = Some c ->
  contexts w !! c = Some cx ->
  dcd_files w !! dcd = Some d ->
  files w !! dcd_handle d = Some f ->
  file_closed f = false ->
  dcd_topology_atoms d = length (positions (ctx_phase cx)) ->
  sampling_pass md_step nsteps ig c dcd w =
  Ret (tt,
       mkWorld (systems w) (integrators w)
         (<[c := advance md_step (ig_stepSize i) nsteps cx]> (contexts w))
         (<[dcd := mkDCDFile (dcd_handle d) (dcd_topology_atoms d)
                             (S (dcd_modelCount d))]> (dcd_files w))
         (<[dcd_handle d :=
              mkFile false (file_natoms f) (file_delta f)
                (S (dcd_modelCount d))
                (file_frames f ++
                 [positions (ctx_phase
                               (advance md_step (ig_stepSize i) nsteps cx))])]>
            (files w))).
Proof.
  intros Hi Ho Hc Hd Hf Hcl Hn. unfold sampling_pass.
  rewrite (bind_eq _ _ _ _ _ (step_eq md_step w ig nsteps c i cx Hi Ho Hc)).
  erewrite bind_eq; cycle 1.
  { apply getState_eq. cbn [contexts set_contexts].
    apply list_lookup_insert_eq. eapply lookup_lt_Some, Hc. }
  erewrite writeModel_eq; [reflexivity|exact Hd| |exact Hf|exact Hcl].
  unfold getPositions. now rewrite advance_particles.
Qed.

(** What the whole loop does to the store: only the context the
    integrator is bound to, the writer and its file change. *)
Lemma sampling_loop_spec (nsteps ig c dcd : nat) (nwrites : nat) :
  forall (w : World) (i : Integrator) (cx : Context) (d : DCDFile) (f : File),
    integrators w !! ig = Some i ->
    ig_owner i = Some c ->
    contexts w !! c = Some cx ->
    dcd_files w !! dcd = Some d ->
    files w !! dcd_handle d = Some f ->
    file_closed f = false ->
    file_nframes f = dcd_modelCount d ->
    dcd_topology_atoms d = length (positions (ctx_phase cx)) ->
    exists w',
      sampling_loop md_step nsteps nwrites ig c dcd w = Ret (tt, w') /\
      systems w' = systems w /\
      integrators w' = integrators w /\
      contexts w' =
        <[c := advance md_step (ig_stepSize i) (nwrites * nsteps) cx]>
          (contexts w) /\
      dcd_files w' =
        <[dcd := mkDCDFile (dcd_handle d) (dcd_topology_atoms d)
                           (dcd_modelCount d + nwrites)]> (dcd_files w) /\
      (forall h, h <> dcd_handle d -> files w' !! h = files w !! h) /\
      exists f',
        files w' !! dcd_handle d = Some f' /\
        file_closed f' = false /\
        file_natoms f' = file_natoms f /\
        file_delta f' = file_delta f /\
        file_nframes f' = (dcd_modelCount d + nwrites)%nat /\
        file_frames f' =
          file_frames f ++
          trajectory md_step (ig_stepSize i) nsteps nwrites cx.
Proof.
  unfold sampling_loop.
  induction nwrites as [|n IH]; intros w i cx d f Hi Ho Hc Hd Hf Hcl Hfc Hn.
  - exists w. cbn [for_range Nat.mul]. rewrite advance_0, Nat.add_0_r.
    repeat split; try reflexivity.
    + symmetry. apply list_insert_id, Hc.
    + symmetry. apply list_insert_id. rewrite Hd. now destruct d.
    + exists f. unfold trajectory. cbn [seq map]. rewrite app_nil_r.
      repeat split; try assumption; try reflexivity.
  - cbn [for_range].
    rewrite (bind_eq _ _ _ _ _
               (sampling_pass_spec nsteps ig c dcd w i cx d f
                  Hi Ho Hc Hd Hf Hcl Hn)).
    set (cx1 := advance md_step (ig_stepSize i) nsteps cx).
    set (d1 := mkDCDFile (dcd_handle d) (dcd_topology_atoms d)
                         (S (dcd_modelCount d))).
    set (f1 := mkFile false (file_natoms f) (file_delta f)
                 (S (dcd_modelCount d))
                 (file_frames f ++ [positions (ctx_phase cx1)])).
    set (w1 := mkWorld _ _ _ _ _).
    destruct (IH w1 i cx1 d1 f1) as
      (w' & Hrun & Hsys & Hig & Hctx & Hdcd & Hother & f' & Hf' & Hcl' & Hna &
       Hde & Hnf & Hfr).
    + exact Hi.
    + exact Ho.
    + subst w1. cbn [contexts]. apply list_lookup_insert_eq.
      eapply lookup_lt_Some, Hc.
    + subst w1. cbn [dcd_files]. apply list_lookup_insert_eq.
      eapply lookup_lt_Some, Hd.
    + subst w1 d1. cbn [files dcd_handle]. apply lookup_insert_eq.
    + reflexivity.
    + reflexivity.
    + subst d1 cx1. cbn [dcd_topology_atoms]. now rewrite advance_particles.
    + exists w'. split; [exact Hrun|]. subst w1. cbn [systems integrators
        contexts dcd_files files] in *.
      repeat split; try assumption.
      * rewrite Hctx, list_insert_insert_eq. subst cx1.
        rewrite advance_add. reflexivity.
      * rewrite Hdcd, list_insert_insert_eq. subst d1.
        cbn [dcd_handle dcd_topology_atoms dcd_modelCount].
        do 2 f_equal. lia.
      * intros h Hh. rewrite (Hother h) by exact Hh.
        apply lookup_insert_ne. subst d1. cbn [dcd_handle]. congruence.
      * exists f'. subst d1 f1.
        cbn [dcd_handle dcd_modelCount file_natoms file_delta file_frames] in *.
        repeat split; try assumption.
        -- rewrite Hnf. lia.
        -- rewrite Hfr, trajectory_succ, <- app_assoc. reflexivity.
Qed.

End Loop.

End SamplingProps.

(** ** Completed runs *)

Module CompletionProps.
Import OpenMM Sampling StoreProps.

Section AnyStep.

(** Any one-step function at all. *)
Variable md_step : list Force -> gmap string R -> R -> Phase -> Phase.

Lemma sampling_pass_inv (nsteps ig c dcd : nat) (w w' : World) (u : unit) :
  sampling_pass md_step nsteps ig c dcd w = Ret (u, w') ->
  exists d f xs,
    dcd_files w !! dcd = Some d /\
    files w !! dcd_handle d = Some f /\
    file_closed f = false /\
    dcd_files w' =
      <[dcd := mkDCDFile (dcd_handle d) (dcd_topology_atoms d)
                         (S (dcd_modelCount d))]> (dcd_files w) /\
    files w' =
      <[dcd_handle d :=
          mkFile false (file_natoms f) (file_delta f) (S (dcd_modelCount d))
                 (file_frames f ++ [xs])]> (files w).
Proof.
  unfold sampling_pass. intros H.
  apply bind_inv in H as (u1 & w1 & Hstep & H).
  apply step_inv in Hstep as [Hfiles Hdcd].
  apply bind_inv in H as (ph & w2 & Hstate & H).
  apply getState_inv in Hstate as ->.
  apply writeModel_inv in H as (d & f & Hd & Hf & Hcl & Hd' & Hf').
  rewrite Hdcd in Hd, Hd'. rewrite Hfiles in Hf, Hf'.
  exists d, f, (getPositions ph). repeat split; assumption.
Qed.

(** A loop that completes has written one frame per pass. *)
Lemma sampling_loop_inv (nsteps ig c dcd : nat) (n : nat) :
  forall (w w' : World) (u : unit) (d : DCDFile) (f : File),
    sampling_loop md_step nsteps n ig c dcd w = Ret (u, w') ->
    dcd_files w !! dcd = Some d ->
    files w !! dcd_handle d = Some f ->
    file_nframes f = dcd_modelCount d ->
    exists f',
      files w' !! dcd_handle d = Some f' /\
      file_closed f' = file_closed f /\
      length (file_frames f') = (length (file_frames f) + n)%nat /\
      file_nframes f' = (file_nframes f + n)%nat.
Proof.
  unfold sampling_loop.
  induction n as [|n IH]; intros w w' u d f Hrun Hd Hf Hfc.
  - cbn [for_range] in Hrun. injection Hrun as _ <-.
    exists f. repeat split; try assumption; lia.
  - cbn [for_range] in Hrun.
    apply bind_inv in Hrun as (u1 & w1 & Hpass & Hrest).
    apply sampling_pass_inv in Hpass
      as (d0 & f0 & xs & Hd0 & Hf0 & Hcl0 & Hd1 & Hf1).
    rewrite Hd in Hd0. injection Hd0 as <-.
    rewrite Hf in Hf0. injection Hf0 as <-.
    destruct (IH w1 w' u
                (mkDCDFile (dcd_handle d) (dcd_topology_atoms d)
                           (S (dcd_modelCount d)))
                (mkFile false (file_natoms f) (file_delta f)
                        (S (dcd_modelCount d)) (file_frames f ++ [xs])))
      as (f' & Hf' & Hcl & Hlen & Hnf).
    + exact Hrest.
    + rewrite Hd1. apply list_lookup_insert_eq. eapply lookup_lt_Some, Hd.
    + rewrite Hf1. cbn [dcd_handle]. apply lookup_insert_eq.
    + reflexivity.
    + cbn [dcd_handle file_closed file_frames file_nframes] in *.
      exists f'. split; [exact Hf'|]. split; [congruence|].
      rewrite length_app in Hlen. cbn [length] in Hlen. split; lia.
Qed.

(** ADP.ipynb: a production cell that completes leaves a closed file
    of 500 frames. *)
Lemma adp_production_complete (topology_atoms ig c : nat) (w w' : World)
    (u : unit) :
  ADP.production_cell md_step topology_atoms ig c w = Ret (u, w') ->
  exists f,
    files w' !! ADP.dcd_path = Some f /\
    file_closed f = true /\
    length (file_frames f) = 500%nat /\
    file_nframes f = 500%nat.
Proof.
  unfold ADP.production_cell. intros H.
  apply bind_inv in H as (h & w1 & Hopen & H).
  unfold open in Hopen. injection Hopen as <- <-.
  apply bind_inv in H as (dt & w2 & Hdt & H).
  apply getStepSize_inv in Hdt as ->.
  apply bind_inv in H as (dcd & w3 & Hnew & H).
  apply DCDFile_new_inv in Hnew as (f0 & Hf0 & -> & Hdcd3 & Hfiles3).
  store_simpl in Hf0. rewrite lookup_insert_eq in Hf0. injection Hf0 as <-.
  store_simpl in Hdcd3. store_simpl in Hfiles3. cbn [file_frames] in Hfiles3.
  apply bind_inv in H as (u1 & w4 & Hloop & Hclose).
  destruct (sampling_loop_inv 10 ig c (length (dcd_files w)) 500 w3 w4 u1
              (mkDCDFile ADP.dcd_path topology_atoms 0)
              (mkFile false topology_atoms (dcd_delta dt) 0 []) Hloop)
    as (f' & Hf' & Hcl & Hlen & Hnf).
  - rewrite Hdcd3. apply lookup_snoc.
  - rewrite Hfiles3. cbn [dcd_handle]. apply lookup_insert_eq.
  - reflexivity.
  - cbn [dcd_handle file_closed file_frames file_nframes length] in *.
    apply close_inv in Hclose as (f1 & Hf1 & Hfinal).
    rewrite Hf' in Hf1. injection Hf1 as <-.
    eexists. split; [exact Hfinal|].
    cbn [file_closed file_frames file_nframes]. repeat split; assumption.
Qed.

(** AbyU2.ipynb: a production cell that completes leaves a closed file
    of 301 frames. *)
Lemma abyu_production_complete (topology_atoms ig c : nat) (w w' : World)
    (u : unit) :
  AbyU.production_cell md_step topology_atoms ig c w = Ret (u, w') ->
  exists f,
    files w' !! AbyU.dcd_path = Some f /\
    file_closed f = true /\
    length (file_frames f) = 301%nat /\
    file_nframes f = 301%nat.
Proof.
  unfold AbyU.production_cell. intros H.
  apply bind_inv in H as (h & w1 & Hopen & H).
  unfold open in Hopen. injection Hopen as <- <-.
  apply bind_inv in H as (ph & w2 & Hstate & H).
  apply getState_inv in Hstate as ->.
  apply bind_inv in H as (dt & w2 & Hdt & H).
  apply getStepSize_inv in Hdt as ->.
  apply bind_inv in H as (dcd & w3 & Hnew & H).
  apply DCDFile_new_inv in Hnew as (f0 & Hf0 & -> & Hdcd3 & Hfiles3).
  store_simpl in Hf0. rewrite lookup_insert_eq in Hf0. injection Hf0 as <-.
  store_simpl in Hdcd3. store_simpl in Hfiles3. cbn [file_frames] in Hfiles3.
  apply bind_inv in H as (u0 & w4 & Hfirst & H).
  apply writeModel_inv in Hfirst as (d & f & Hd & Hf & _ & Hdcd4 & Hfiles4).
  rewrite Hdcd3, lookup_snoc in Hd. injection Hd as <-.
  cbn [dcd_handle dcd_topology_atoms dcd_modelCount] in *.
  rewrite Hfiles3, lookup_insert_eq in Hf. injection Hf as <-.
  cbn [file_natoms file_delta file_frames app] in Hfiles4.
  apply bind_inv in H as (u1 & w5 & Hloop & Hclose).
  destruct (sampling_loop_inv 1 ig c (length (dcd_files w)) 300 w4 w5 u1
              (mkDCDFile AbyU.dcd_path topology_atoms 1)
              (mkFile false topology_atoms (dcd_delta dt) 1 [getPositions ph])
              Hloop)
    as (f' & Hf' & Hcl & Hlen & Hnf).
  - rewrite Hdcd4, Hdcd3, insert_snoc. apply lookup_snoc.
  - rewrite Hfiles4. cbn [dcd_handle]. apply lookup_insert_eq.
  - reflexivity.
  - cbn [dcd_handle file_closed file_frames file_nframes length] in *.
    apply close_inv in Hclose as (f1 & Hf1 & Hfinal).
    rewrite Hf' in Hf1. injection Hf1 as <-.
    eexists. split; [exact Hfinal|].
    cbn [file_closed file_frames file_nframes]. repeat split; assumption.
Qed.

(** Both notebooks: whenever the cells run to the end, the trajectory
    has its 500, respectively 301, frames. *)
Lemma adp_run_complete (context topology_atoms : nat) (w w' : World)
    (names : nat * nat) :
  ADP.run md_step context topology_atoms w = Ret (names, w') ->
  exists f,
    files w' !! ADP.dcd_path = Some f /\
    file_closed f = true /\
    length (file_frames f) = 500%nat /\
    file_nframes f = 500%nat.
Proof.
  unfold ADP.run. intros H.
  apply bind_inv in H as (names0 & w1 & _ & H).
  apply bind_inv in H as (u & w2 & Hprod & H).
  injection H as _ <-.
  exact (adp_production_complete _ _ _ _ _ _ Hprod).
Qed.

Lemma abyu_run_complete (context topology_atoms : nat) (w w' : World)
    (names : nat * nat) :
  AbyU.run md_step context topology_atoms w = Ret (names, w') ->
  exists f,
    files w' !! AbyU.dcd_path = Some f /\
    file_closed f = true /\
    length (file_frames f) = 301%nat /\
    file_nframes f = 301%nat.
Proof.
  unfold AbyU.run. intros H.
  apply bind_inv in H as (cell & w0 & _ & H).
  apply bind_inv in H as (names0 & w1 & _ & H).
  apply bind_inv in H as (u & w2 & Hprod & H).
  injection H as _ <-.
  exact (abyu_production_complete _ _ _ _ _ _ Hprod).
Qed.

End AnyStep.

End CompletionProps.

(** ** The set-up cells *)

Module SetupProps.
Import OpenMM Sampling StoreProps.

(** ADP.ipynb: the new context shares the system, has a new integrator
    of its own and the positions of the original context; nothing that
    existed before changes. *)
Lemma adp_new_context_cell_spec (context : nat) (w : World) (cx0 : Context)
    (s : System) (i0 : Integrator) :
  dynamics_ready w context cx0 s i0 ->
  exists w',
    ADP.new_context_cell context w =
      Ret ((length (integrators w), length (contexts w)), w') /\
    systems w' = systems w /\
    integrators w' =
      integrators w ++
      [mkIntegrator (ig_stepSize i0) (ig_settings i0)
                    (Some (length (contexts w)))] /\
    contexts w' = contexts w ++ [ADP.fresh_context w cx0 s] /\
    dcd_files w' = dcd_files w /\
    files w' = files w.
Proof.
  intros (Hc & Hs & Hi & Hn & Hf). unfold ADP.new_context_cell.
  rewrite (bind_eq _ _ _ _ _ (getSystem_eq _ _ _ Hc)).
  rewrite (bind_eq _ _ _ _ _ (getIntegrator_eq _ _ _ Hc)).
  rewrite (bind_eq _ _ _ _ _ (Integrator_copy_eq _ _ _ Hi)).
  erewrite bind_eq; cycle 1.
  { apply getPlatform_eq. exact Hc. }
  erewrite bind_eq; cycle 1.
  { eapply Context_new_eq.
    - exact Hs.
    - cbn [integrators set_integrators]. apply lookup_snoc.
    - reflexivity.
    - exact Hf. }
  cbn [contexts integrators set_integrators set_contexts systems dcd_files
       files ig_stepSize ig_settings].
  erewrite bind_eq; cycle 1.
  { apply getState_eq. cbn [contexts]. apply lookup_snoc_old, Hc. }
  erewrite bind_eq; cycle 1.
  { unfold setPositions. eapply modify_context_eq.
    - cbn [contexts]. apply lookup_snoc.
    - unfold Context_setPositions, getPositions.
      cbn [ctx_phase positions]. rewrite length_replicate.
      destruct (decide _) as [_|N]; [reflexivity|contradiction]. }
  eexists. split; [reflexivity|].
  cbn [systems integrators contexts dcd_files files set_contexts
       ctx_system ctx_integrator ctx_platform ctx_forces ctx_parameters
       ctx_phase ctx_stepCount velocities random].
  store_simpl. rewrite !insert_snoc. repeat split.
Qed.

Lemma default_parameters_restraint (fs : list Force) (rf : CustomCVForce)
    (kd rd : R) :
  cvf_globalParameters rf = [("k", kd); ("r0", rd)] ->
  is_Some (default_parameters (fs ++ [CVForce rf]) !! "k") /\
  is_Some (default_parameters (fs ++ [CVForce rf]) !! "r0").
Proof.
  intros Hg. unfold default_parameters.
  rewrite map_app, concat_app, list_to_map_app.
  cbn [map concat force_globals]. rewrite Hg.
  cbn [app list_to_map foldr fst snd curry].
  split; apply lookup_union_is_Some; right.
  - rewrite lookup_insert_eq. eauto.
  - rewrite lookup_insert_ne by (intros ?; discriminate).
    rewrite lookup_insert_eq. eauto.
Qed.

Lemma Context_setParameter_eq (name : string) (value : R) (cx : Context) :
  is_Some (ctx_parameters cx !! name) ->
  Context_setParameter name value cx =
  Ret (mkContext (ctx_system cx) (ctx_integrator cx) (ctx_platform cx)
         (ctx_forces cx) (<[name := value]> (ctx_parameters cx))
         (ctx_phase cx) (ctx_stepCount cx)).
Proof.
  intros [v Hv]. unfold Context_setParameter. now rewrite Hv.
Qed.

(** AbyU2.ipynb: as for ADP, except that the restraint is appended to
    the forces of the system the two contexts share, and the new
    context has [k] and [r0] set. *)
Lemma abyu_new_context_cell_spec (context : nat) (w : World) (cx0 : Context)
    (s : System) (i0 : Integrator) (rf : CustomCVForce) (k kd rd : R)
    (r0 : Units.Quantity) (r0_nm : Q) :
  dynamics_ready w context cx0 s i0 ->
  force_in_range (sys_numParticles s) (CVForce rf) = true ->
  cvf_globalParameters rf = [("k", kd); ("r0", rd)] ->
  Units.value_in_md_unit_system r0 = Ret r0_nm ->
  exists w',
    AbyU.new_context_cell context rf k r0 w =
      Ret ((length (integrators w), length (contexts w)), w') /\
    systems w' =
      <[ctx_system cx0 :=
          mkSystem (sys_numParticles s) (sys_forces s ++ [CVForce rf])]>
        (systems w) /\
    integrators w' =
      integrators w ++
      [mkIntegrator (ig_stepSize i0) (ig_settings i0)
                    (Some (length (contexts w)))] /\
    contexts w' = contexts w ++ [AbyU.fresh_context w cx0 s rf k (Q2R r0_nm)] /\
    dcd_files w' = dcd_files w /\
    files w' = files w.
Proof.
  intros (Hc & Hs & Hi & Hn & Hf) Hrf Hg Hr0.
  destruct (default_parameters_restraint (sys_forces s) rf kd rd Hg)
    as [Hk Hr].
  unfold AbyU.new_context_cell.
  rewrite (bind_eq _ _ _ _ _ (getSystem_eq _ _ _ Hc)).
  rewrite (bind_eq _ _ _ _ _ (getIntegrator_eq _ _ _ Hc)).
  rewrite (bind_eq _ _ _ _ _ (Integrator_copy_eq _ _ _ Hi)).
  erewrite bind_eq; cycle 1.
  { apply addForce_eq. store_simpl. exact Hs. }
  erewrite bind_eq; cycle 1.
  { apply getPlatform_eq. store_simpl. exact Hc. }
  erewrite bind_eq; cycle 1.
  { eapply Context_new_eq.
    - store_simpl. apply list_lookup_insert_eq. eapply lookup_lt_Some, Hs.
    - store_simpl. apply lookup_snoc.
    - reflexivity.
    - cbn [sys_numParticles sys_forces]. rewrite forallb_app, Hf.
      cbn [forallb]. rewrite Hrf. reflexivity. }
  store_simpl. cbn [sys_numParticles sys_forces ig_stepSize ig_settings].
  erewrite bind_eq; cycle 1.
  { unfold setParameter. eapply modify_context_eq.
    - store_simpl. apply lookup_snoc.
    - apply Context_setParameter_eq. exact Hk. }
  store_simpl.
  cbn [ctx_system ctx_integrator ctx_platform ctx_forces ctx_parameters
       ctx_phase ctx_stepCount].
  unfold lift at 1. rewrite Hr0.
  erewrite bind_eq; [|reflexivity].
  erewrite bind_eq; cycle 1.
  { unfold setParameter. eapply modify_context_eq.
    - store_simpl. rewrite insert_snoc. apply lookup_snoc.
    - apply Context_setParameter_eq. cbn [ctx_parameters].
      rewrite lookup_insert_ne by (intros ?; discriminate). exact Hr. }
  store_simpl.
  cbn [ctx_system ctx_integrator ctx_platform ctx_forces ctx_parameters
       ctx_phase ctx_stepCount].
  erewrite bind_eq; cycle 1.
  { apply getState_eq. store_simpl. rewrite !insert_snoc.
    apply lookup_snoc_old, Hc. }
  erewrite bind_eq; cycle 1.
  { unfold setPositions. eapply modify_context_eq.
    - store_simpl. rewrite !insert_snoc. apply lookup_snoc.
    - unfold Context_setPositions, getPositions.
      cbn [ctx_phase positions]. rewrite length_replicate.
      destruct (decide _) as [_|N]; [reflexivity|contradiction]. }
  eexists. split; [reflexivity|].
  store_simpl.
  cbn [ctx_system ctx_integrator ctx_platform ctx_forces ctx_parameters
       ctx_phase ctx_stepCount velocities random].
  rewrite !insert_snoc. repeat split.
Qed.

End SetupProps.

(** ** The production cells *)

Module ProductionProps.
Import OpenMM Sampling StoreProps SamplingProps.

Section Cells.

Variable md_step : list Force -> gmap string R -> R -> Phase -> Phase.

Hypothesis md_step_particles :
  forall fs ps dt ph,
    length (positions (md_step fs ps dt ph)) = length (positions ph).

(** ADP.ipynb: 500 passes of 10 steps; the file ends up closed, with
    500 frames. *)
Lemma adp_production_cell_spec (topology_atoms ig c : nat) (w : World)
    (i : Integrator) (cx : Context) :
  integrators w !! ig = Some i ->
  ig_owner i = Some c ->
  contexts w !! c = Some cx ->
  topology_atoms = length (positions (ctx_phase cx)) ->
  exists w',
    ADP.production_cell md_step topology_atoms ig c w = Ret (tt, w') /\
    systems w' = systems w /\
    integrators w' = integrators w /\
    contexts w' =
      <[c := advance md_step (ig_stepSize i) (500 * 10) cx]> (contexts w) /\
    files w' !! ADP.dcd_path =
      Some (mkFile true topology_atoms (dcd_delta (ig_stepSize i)) 500
              (trajectory md_step (ig_stepSize i) 10 500 cx)) /\
    (forall h, h <> ADP.dcd_path -> files w' !! h = files w !! h).
Proof.
  intros Hi Ho Hc Hn. unfold ADP.production_cell.
  erewrite bind_eq; [|reflexivity].
  erewrite bind_eq; cycle 1.
  { apply getStepSize_eq. store_simpl. exact Hi. }
  erewrite bind_eq; cycle 1.
  { eapply DCDFile_new_eq; store_simpl.
    - apply lookup_insert_eq.
    - reflexivity. }
  cbn [file_frames]. store_simpl.
  match goal with |- context [bind (sampling_loop _ _ _ _ _ ?d) _ ?w1] =>
    destruct (sampling_loop_spec md_step md_step_particles 10 ig c d 500 w1
                i cx (mkDCDFile ADP.dcd_path topology_atoms 0)
                (mkFile false topology_atoms (dcd_delta (ig_stepSize i)) 0 []))
      as (w2 & Hrun & Hsys & Hig & Hctx & Hdcd & Hother & f' & Hf' & Hcl &
          Hna & Hde & Hnf & Hfr)
  end.
  - store_simpl. exact Hi.
  - exact Ho.
  - store_simpl. exact Hc.
  - store_simpl. apply lookup_snoc.
  - store_simpl. cbn [dcd_handle]. apply lookup_insert_eq.
  - reflexivity.
  - reflexivity.
  - exact Hn.
  - rewrite (bind_eq _ _ _ _ _ Hrun).
    cbn [dcd_handle dcd_modelCount file_natoms file_delta file_frames] in *.
    store_simpl in Hsys. store_simpl in Hig. store_simpl in Hctx.
    store_simpl in Hother.
    rewrite (close_eq _ _ _ Hf'). eexists. split; [reflexivity|].
    store_simpl. rewrite Hna, Hde, Hnf, Hfr. repeat split; try assumption.
    + apply lookup_insert_eq.
    + intros h Hh. rewrite lookup_insert_ne by congruence.
      rewrite (Hother h Hh). rewrite !lookup_insert_ne by congruence.
      reflexivity.
Qed.

(** AbyU2.ipynb: one frame before the loop, then 300 passes of one
    step; the file ends up closed, with 301 frames. *)
Lemma abyu_production_cell_spec (topology_atoms ig c : nat) (w : World)
    (i : Integrator) (cx : Context) :
  integrators w !! ig = Some i ->
  ig_owner i = Some c ->
  contexts w !! c = Some cx ->
  topology_atoms = length (positions (ctx_phase cx)) ->
  exists w',
    AbyU.production_cell md_step topology_atoms ig c w = Ret (tt, w') /\
    systems w' = systems w /\
    integrators w' = integrators w /\
    contexts w' =
      <[c := advance md_step (ig_stepSize i) (300 * 1) cx]> (contexts w) /\
    files w' !! AbyU.dcd_path =
      Some (mkFile true topology_atoms (dcd_delta (ig_stepSize i)) 301
              (positions (ctx_phase cx) ::
               trajectory md_step (ig_stepSize i) 1 300 cx)) /\
    (forall h, h <> AbyU.dcd_path -> files w' !! h = files w !! h).
Proof.
  intros Hi Ho Hc Hn. unfold AbyU.production_cell.
  erewrite bind_eq; [|reflexivity].
  erewrite bind_eq; cycle 1.
  { apply getState_eq. store_simpl. exact Hc. }
  erewrite bind_eq; cycle 1.
  { apply getStepSize_eq. store_simpl. exact Hi. }
  erewrite bind_eq; cycle 1.
  { eapply DCDFile_new_eq; store_simpl.
    - apply lookup_insert_eq.
    - reflexivity. }
  cbn [file_frames]. store_simpl.
  erewrite bind_eq; cycle 1.
  { eapply writeModel_eq; store_simpl.
    - apply lookup_snoc.
    - exact Hn.
    - cbn [dcd_handle]. apply lookup_insert_eq.
    - reflexivity. }
  cbn [dcd_handle dcd_topology_atoms dcd_modelCount file_natoms file_delta
       file_frames app]. store_simpl.
  match goal with |- context [bind (sampling_loop _ _ _ _ _ ?d) _ ?w1] =>
    destruct (sampling_loop_spec md_step md_step_particles 1 ig c d 300 w1
                i cx (mkDCDFile AbyU.dcd_path topology_atoms 1)
                (mkFile false topology_atoms (dcd_delta (ig_stepSize i)) 1
                        [getPositions (ctx_phase cx)]))
      as (w2 & Hrun & Hsys & Hig & Hctx & Hdcd & Hother & f' & Hf' & Hcl &
          Hna & Hde & Hnf & Hfr)
  end.
  - store_simpl. exact Hi.
  - exact Ho.
  - store_simpl. exact Hc.
  - store_simpl. rewrite insert_snoc. apply lookup_snoc.
  - store_simpl. cbn [dcd_handle]. apply lookup_insert_eq.
  - reflexivity.
  - reflexivity.
  - exact Hn.
  - rewrite (bind_eq _ _ _ _ _ Hrun).
    cbn [dcd_handle dcd_modelCount file_natoms file_delta file_frames] in *.
    store_simpl in Hsys. store_simpl in Hig. store_simpl in Hctx.
    store_simpl in Hother.
    rewrite (close_eq _ _ _ Hf'). eexists. split; [reflexivity|].
    store_simpl. rewrite Hna, Hde, Hnf, Hfr. repeat split; try assumption.
    + apply lookup_insert_eq.
    + intros h Hh. rewrite lookup_insert_ne by congruence.
      rewrite (Hother h Hh). rewrite !lookup_insert_ne by congruence.
      reflexivity.
Qed.

End Cells.

End ProductionProps.

(** ** The notebooks from set-up to the closed trajectory *)

Module RunProps.
Import OpenMM Sampling StoreProps SamplingProps SetupProps ProductionProps.

Section Runs.

Variable md_step : list Force -> gmap string R -> R -> Phase -> Phase.

Hypothesis md_step_particles :
  forall fs ps dt ph,
    length (positions (md_step fs ps dt ph)) = length (positions ph).

(** The loop, stopped after [j] of its passes. *)
Lemma sampling_loop_prefix (nsteps nwrites j ig c dcd : nat) (w : World)
    (i : Integrator) (cx : Context) (d : DCDFile) (f : File) :
  integrators w !! ig = Some i ->
  ig_owner i = Some c ->
  contexts w !! c = Some cx ->
  dcd_files w !! dcd = Some d ->
  files w !! dcd_handle d = Some f ->
  file_closed f = false ->
  file_nframes f = dcd_modelCount d ->
  dcd_topology_atoms d = length (positions (ctx_phase cx)) ->
  (j <= nwrites)%nat ->
  exists wj,
    sampling_loop md_step nsteps j ig c dcd w = Ret (tt, wj) /\
    sampling_loop md_step nsteps nwrites ig c dcd w =
      sampling_loop md_step nsteps (nwrites - j) ig c dcd wj /\
    systems wj = systems w /\
    integrators wj = integrators w /\
    (forall c', c' <> c -> contexts wj !! c' = contexts w !! c') /\
    contexts wj !! c =
      Some (advance md_step (ig_stepSize i) (j * nsteps) cx) /\
    frames_at wj (dcd_handle d) =
      frames_at w (dcd_handle d) ++
      trajectory md_step (ig_stepSize i) nsteps j cx.
Proof.
  intros Hi Ho Hc Hd Hf Hcl Hfc Hn Hj.
  destruct (sampling_loop_spec md_step md_step_particles nsteps ig c dcd j
              w i cx d f Hi Ho Hc Hd Hf Hcl Hfc Hn)
    as (wj & Hrun & Hsys & Hig & Hctx & _ & _ & f' & Hf' & _ & _ & _ & _ & Hfr).
  exists wj. repeat split; try assumption.
  - replace nwrites with (j + (nwrites - j))%nat at 1 by lia.
    unfold sampling_loop in *. rewrite for_range_add.
    unfold bind at 1. now rewrite Hrun.
  - intros c' Hc'. rewrite Hctx. now apply list_lookup_insert_ne.
  - rewrite Hctx. apply list_lookup_insert_eq. eapply lookup_lt_Some, Hc.
  - unfold frames_at. now rewrite Hf', Hf.
Qed.

Lemma trajectory_last (dt : R) (nsteps j : nat) (cx : Context) :
  (0 < j)%nat ->
  last (trajectory md_step dt nsteps j cx) =
  Some (positions (ctx_phase (advance md_step dt (j * nsteps) cx))).
Proof.
  intros Hj. destruct j as [|j]; [lia|].
  unfold trajectory. rewrite seq_S, map_app. cbn [map].
  rewrite last_snoc. do 4 f_equal. lia.
Qed.

(** ADP.ipynb, both cells. *)
Lemma adp_run_spec (context topology_atoms : nat) (w : World) (cx0 : Context)
    (s : System) (i0 : Integrator) :
  dynamics_ready w context cx0 s i0 ->
  topology_atoms = sys_numParticles s ->
  exists w',
    ADP.run md_step context topology_atoms w =
      Ret ((length (integrators w), length (contexts w)), w') /\
    systems w' = systems w /\
    integrators w' =
      integrators w ++
      [mkIntegrator (ig_stepSize i0) (ig_settings i0)
                    (Some (length (contexts w)))] /\
    contexts w' =
      contexts w ++
      [advance md_step (ig_stepSize i0) (500 * 10)
               (ADP.fresh_context w cx0 s)] /\
    files w' !! ADP.dcd_path =
      Some (mkFile true topology_atoms (dcd_delta (ig_stepSize i0)) 500
              (trajectory md_step (ig_stepSize i0) 10 500
                          (ADP.fresh_context w cx0 s))) /\
    (forall h, h <> ADP.dcd_path -> files w' !! h = files w !! h).
Proof.
  intros Hready Hn.
  destruct (adp_new_context_cell_spec context w cx0 s i0 Hready)
    as (w1 & Hcell & Hsys1 & Hig1 & Hctx1 & _ & Hfiles1).
  destruct Hready as (Hc & Hs & Hi & Hlen & Hf).
  destruct (adp_production_cell_spec md_step md_step_particles topology_atoms
              (length (integrators w)) (length (contexts w)) w1
              (mkIntegrator (ig_stepSize i0) (ig_settings i0)
                            (Some (length (contexts w))))
              (ADP.fresh_context w cx0 s))
    as (w2 & Hprod & Hsys2 & Hig2 & Hctx2 & Hfile & Hother).
  - rewrite Hig1. apply lookup_snoc.
  - reflexivity.
  - rewrite Hctx1. apply lookup_snoc.
  - cbn [ADP.fresh_context ctx_phase positions]. congruence.
  - exists w2. unfold ADP.run.
    rewrite (bind_eq _ _ _ _ _ Hcell). cbn [fst snd].
    rewrite (bind_eq _ _ _ _ _ Hprod).
    cbn [ig_stepSize] in *.
    repeat split; try congruence.
    + rewrite Hctx2, Hctx1. apply insert_snoc.
    + intros h Hh. rewrite (Hother h Hh). now rewrite Hfiles1.
Qed.

(** AbyU2.ipynb, all three cells. *)
Lemma abyu_run_spec (context topology_atoms : nat) (w : World) (cx0 : Context)
    (s : System) (i0 : Integrator) :
  dynamics_ready w context cx0 s i0 ->
  topology_atoms = sys_numParticles s ->
  (2125 < sys_numParticles s)%nat ->
  exists rf w',
    AbyU.restraint_cell AbyU.distances = Ret (52300, rf) /\
    AbyU.run md_step context topology_atoms w =
      Ret ((length (integrators w), length (contexts w)), w') /\
    systems w' =
      <[ctx_system cx0 :=
          mkSystem (sys_numParticles s) (sys_forces s ++ [CVForce rf])]>
        (systems w) /\
    integrators w' =
      integrators w ++
      [mkIntegrator (ig_stepSize i0) (ig_settings i0)
                    (Some (length (contexts w)))] /\
    contexts w' =
      contexts w ++
      [advance md_step (ig_stepSize i0) (300 * 1)
               (AbyU.fresh_context w cx0 s rf 52300 (1 / 4))] /\
    files w' !! AbyU.dcd_path =
      Some (mkFile true topology_atoms (dcd_delta (ig_stepSize i0)) 301
              (positions (ctx_phase cx0) ::
               trajectory md_step (ig_stepSize i0) 1 300
                          (AbyU.fresh_context w cx0 s rf 52300 (1 / 4)))) /\
    (forall h, h <> AbyU.dcd_path -> files w' !! h = files w !! h).
Proof.
  intros Hready Hn Hbig.
  destruct (RestraintProps.restraint_cell_value AbyU.distances)
    as (rf & Hrc & _ & Hg & Hb).
  destruct (abyu_new_context_cell_spec context w cx0 s i0 rf 52300 _ _
              Units.r0 _ Hready
              (RestraintProps.restraint_in_range _ rf Hbig Hb) Hg
              UnitsProps.r0_in_nanometres)
    as (w1 & Hcell & Hsys1 & Hig1 & Hctx1 & _ & Hfiles1).
  rewrite UnitsProps.Q2R_r0 in Hctx1.
  destruct Hready as (Hc & Hs & Hi & Hlen & Hf).
  destruct (abyu_production_cell_spec md_step md_step_particles topology_atoms
              (length (integrators w)) (length (contexts w)) w1
              (mkIntegrator (ig_stepSize i0) (ig_settings i0)
                            (Some (length (contexts w))))
              (AbyU.fresh_context w cx0 s rf 52300 (1 / 4)))
    as (w2 & Hprod & Hsys2 & Hig2 & Hctx2 & Hfile & Hother).
  - rewrite Hig1. apply lookup_snoc.
  - reflexivity.
  - rewrite Hctx1. apply lookup_snoc.
  - cbn [AbyU.fresh_context ctx_phase positions]. congruence.
  - exists rf, w2. split; [exact Hrc|]. unfold AbyU.run.
    unfold lift at 1. rewrite Hrc.
    erewrite bind_eq; [|reflexivity]. cbn [fst snd].
    rewrite (bind_eq _ _ _ _ _ Hcell). cbn [fst snd].
    rewrite (bind_eq _ _ _ _ _ Hprod).
    cbn [ig_stepSize AbyU.fresh_context ctx_phase positions] in *.
    repeat split; try congruence.
    + rewrite Hctx2, Hctx1. apply insert_snoc.
    + intros h Hh. rewrite (Hother h Hh). now rewrite Hfiles1.
Qed.

End Runs.

End RunProps.

(** ** The claims about the set-up and production cells *)

Module NotebookProps.
Import OpenMM Sampling StoreProps SamplingProps CompletionProps SetupProps
       RunProps.

Lemma example_world_ready (n : nat) :
  dynamics_ready (Example.world n) 0 (Example.original_context n)
                 (Example.original_system n) Example.original_integrator.
Proof.
  repeat split. cbn [Example.original_context ctx_phase positions].
  apply length_replicate.
Qed.

Lemma drift_particles (fs : list Force) (ps : gmap string R) (dt : R)
    (ph : Phase) :
  length (positions (Example.drift fs ps dt ph)) = length (positions ph).
Proof. unfold Example.drift. cbn [positions]. apply length_map. Qed.

Lemma new_context_from_snoc (w w' : World) (context : nat) (cx0 cx1 : Context)
    (i0 : Integrator) :
  contexts w !! context = Some cx0 ->
  integrators w !! ctx_integrator cx0 = Some i0 ->
  integrators w' =
    integrators w ++
    [mkIntegrator (ig_stepSize i0) (ig_settings i0)
                  (Some (length (contexts w)))] ->
  contexts w' = contexts w ++ [cx1] ->
  positions (ctx_phase cx1) = positions (ctx_phase cx0) ->
  ctx_system cx1 = ctx_system cx0 ->
  ctx_integrator cx1 = length (integrators w) ->
  new_context_from w w' context cx0 i0
                   (length (integrators w)) (length (contexts w)).
Proof.
  intros Hc Hi Hig Hctx Hp Hs Hci. unfold new_context_from.
  rewrite Hig, Hctx. repeat split.
  - now apply lookup_ge_None_2.
  - now apply lookup_ge_None_2.
  - now apply lookup_snoc_old.
  - now apply lookup_snoc_old.
  - apply lookup_snoc.
  - exists cx1. repeat split; try assumption. apply lookup_snoc.
Qed.

(** C9, as the code has it: the new context is built on the system
    object of the original context (shared, not copied), with a copy of
    its integrator and with its positions; the original context and its
    integrator are not modified.  In ADP.ipynb the system is not
    modified either; in AbyU2.ipynb the shared system has the restraint
    appended to its forces, and the new context has [k] and [r0] set. *)
Theorem new_context_shares_system_copies_integrator_and_positions :
  (forall (context : nat) (w : World) (cx0 : Context) (s : System)
          (i0 : Integrator),
      dynamics_ready w context cx0 s i0 ->
      exists integrator new_context w',
        ADP.new_context_cell context w = Ret ((integrator, new_context), w') /\
        new_context_from w w' context cx0 i0 integrator new_context /\
        systems w' = systems w) /\
  (forall (context : nat) (w : World) (cx0 : Context) (s : System)
          (i0 : Integrator),
      dynamics_ready w context cx0 s i0 ->
      (2125 < sys_numParticles s)%nat ->
      exists rf integrator new_context w' cx1,
        AbyU.restraint_cell AbyU.distances = Ret (52300, rf) /\
        AbyU.new_context_cell context rf 52300 Units.r0 w =
          Ret ((integrator, new_context), w') /\
        new_context_from w w' context cx0 i0 integrator new_context /\
        systems w' =
          <[ctx_system cx0 :=
              mkSystem (sys_numParticles s) (sys_forces s ++ [CVForce rf])]>
            (systems w) /\
        contexts w' !! new_context = Some cx1 /\
        ctx_forces cx1 = sys_forces s ++ [CVForce rf] /\
        ctx_parameters cx1 !! "k" = Some 52300 /\
        ctx_parameters cx1 !! "r0" = Some (1 / 4)).
Proof.
  split.
  - intros context w cx0 s i0 Hready.
    destruct (adp_new_context_cell_spec context w cx0 s i0 Hready)
      as (w' & Hcell & Hsys & Hig & Hctx & _ & _).
    destruct Hready as (Hc & Hs & Hi & _ & _).
    exists (length (integrators w)), (length (contexts w)), w'.
    split; [exact Hcell|]. split; [|exact Hsys].
    eapply new_context_from_snoc; eauto.
  - intros context w cx0 s i0 Hready Hbig.
    destruct (RestraintProps.restraint_cell_value AbyU.distances)
      as (rf & Hrc & _ & Hg & Hb).
    destruct (abyu_new_context_cell_spec context w cx0 s i0 rf 52300 _ _
                Units.r0 _ Hready
                (RestraintProps.restraint_in_range _ rf Hbig Hb) Hg
                UnitsProps.r0_in_nanometres)
      as (w' & Hcell & Hsys & Hig & Hctx & _ & _).
    rewrite UnitsProps.Q2R_r0 in Hctx.
    destruct Hready as (Hc & Hs & Hi & _ & _).
    exists rf, (length (integrators w)), (length (contexts w)), w',
      (AbyU.fresh_context w cx0 s rf 52300 (1 / 4)).
    split; [exact Hrc|]. split; [exact Hcell|].
    split; [eapply new_context_from_snoc; eauto|].
    split; [exact Hsys|]. repeat split.
    + rewrite Hctx. apply lookup_snoc.
    + cbn [AbyU.fresh_context ctx_parameters].
      rewrite lookup_insert_ne by (intros ?; discriminate).
      apply lookup_insert_eq.
    + cbn [AbyU.fresh_context ctx_parameters]. apply lookup_insert_eq.
Qed.

Lemma new_context_shares_system_copies_integrator_and_positions_witness :
  (exists integrator new_context w',
      ADP.new_context_cell 0 (Example.world 3) =
        Ret ((integrator, new_context), w') /\
      new_context_from (Example.world 3) w' 0 (Example.original_context 3)
        Example.original_integrator integrator new_context /\
      systems w' = systems (Example.world 3)) /\
  (exists rf integrator new_context w' cx1,
      AbyU.restraint_cell AbyU.distances = Ret (52300, rf) /\
      AbyU.new_context_cell 0 rf 52300 Units.r0 (Example.world 2126) =
        Ret ((integrator, new_context), w') /\
      new_context_from (Example.world 2126) w' 0
        (Example.original_context 2126) Example.original_integrator
        integrator new_context /\
      systems w' =
        <[0%nat := mkSystem 2126 [SireForce 0; CVForce rf]]>
          (systems (Example.world 2126)) /\
      contexts w' !! new_context = Some cx1 /\
      ctx_forces cx1 = [SireForce 0; CVForce rf] /\
      ctx_parameters cx1 !! "k" = Some 52300 /\
      ctx_parameters cx1 !! "r0" = Some (1 / 4)).
Proof.
  destruct new_context_shares_system_copies_integrator_and_positions
    as [Hadp Habyu].
  split.
  - apply (Hadp 0%nat (Example.world 3) _ _ _ (example_world_ready 3)).
  - apply (Habyu 0%nat (Example.world 2126) _ _ _ (example_world_ready 2126)).
    cbn [Example.original_system sys_numParticles]. lia.
Defined.

(** C9, the claim as stated fails in AbyU2.ipynb: the system is not
    copied, the new context is on the very system of the original one,
    and that system has one force more after the cell than before. *)
Lemma abyu_setup_modifies_the_shared_system :
  exists rf integrator new_context w' cx1,
    AbyU.restraint_cell AbyU.distances = Ret (52300, rf) /\
    AbyU.new_context_cell 0 rf 52300 Units.r0 (Example.world 2126) =
      Ret ((integrator, new_context), w') /\
    contexts w' !! new_context = Some cx1 /\
    ctx_system cx1 = ctx_system (Example.original_context 2126) /\
    systems (Example.world 2126) !! 0%nat = Some (mkSystem 2126 [SireForce 0]) /\
    systems w' !! 0%nat = Some (mkSystem 2126 [SireForce 0; CVForce rf]) /\
    systems w' !! 0%nat <> systems (Example.world 2126) !! 0%nat.
Proof.
  destruct (RestraintProps.restraint_cell_value AbyU.distances)
    as (rf & Hrc & _ & Hg & Hb).
  assert (Hbig : (2125 < 2126)%nat) by lia.
  destruct (abyu_new_context_cell_spec 0 (Example.world 2126) _ _ _ rf 52300
              _ _ Units.r0 _ (example_world_ready 2126)
              (RestraintProps.restraint_in_range _ rf Hbig Hb) Hg
              UnitsProps.r0_in_nanometres)
    as (w' & Hcell & Hsys & Hig & Hctx & _ & _).
  eexists rf, _, _, w', _. split; [exact Hrc|]. split; [exact Hcell|].
  rewrite Hsys, Hctx.
  split; [apply lookup_snoc|]. split; [reflexivity|].
  split; [reflexivity|]. split; [reflexivity|].
  intros H. cbn in H. discriminate H.
Qed.

Lemma sampling_world_ready :
  loop_ready Example.sampling_world 0 0 0 Example.original_integrator
    (Example.original_context 2) (mkDCDFile "t.dcd" 2 0)
    (mkFile false 2 (1 / 1000) 0 []).
Proof. repeat split. Qed.

Section Production.

Variable md_step : list Force -> gmap string R -> R -> Phase -> Phase.

Hypothesis md_step_particles :
  forall fs ps dt ph,
    length (positions (md_step fs ps dt ph)) = length (positions ph).

(** C8: the loop makes [nwrites] passes, each advancing the context by
    exactly [nsteps] steps, reading its positions and appending them as
    one frame; ADP.ipynb (500 passes of 10 steps) leaves a closed file
    of exactly 500 frames, AbyU2.ipynb (a frame before the loop, then
    300 passes of 1 step) one of exactly 301.  The runs do complete
    from a store as Sire leaves it; and whatever the one-step function
    and the store, a run that completes has these frame counts. *)
Theorem sampling_loop_writes_one_frame_per_pass :
  (forall (nsteps nwrites integrator new_context dcd_file : nat) (w : World)
          (i : Integrator) (cx : Context) (d : DCDFile) (f : File),
      loop_ready w integrator new_context dcd_file i cx d f ->
      exists w' cx' f',
        sampling_loop md_step nsteps nwrites integrator new_context dcd_file w
          = Ret (tt, w') /\
        contexts w' !! new_context = Some cx' /\
        cx' = advance md_step (ig_stepSize i) (nwrites * nsteps) cx /\
        ctx_stepCount cx' = (ctx_stepCount cx + nwrites * nsteps)%nat /\
        files w' !! dcd_handle d = Some f' /\
        file_frames f' =
          file_frames f ++ trajectory md_step (ig_stepSize i) nsteps nwrites cx /\
        length (file_frames f') = (length (file_frames f) + nwrites)%nat /\
        file_nframes f' = (file_nframes f + nwrites)%nat) /\
  (forall (context topology_atoms : nat) (w : World) (cx0 : Context)
          (s : System) (i0 : Integrator),
      dynamics_ready w context cx0 s i0 ->
      topology_atoms = sys_numParticles s ->
      exists names w' cx' f,
        ADP.run md_step context topology_atoms w = Ret (names, w') /\
        contexts w' !! snd names = Some cx' /\
        ctx_stepCount cx' = 5000%nat /\
        files w' !! ADP.dcd_path = Some f /\
        file_closed f = true /\
        length (file_frames f) = 500%nat /\
        file_nframes f = 500%nat) /\
  (forall (context topology_atoms : nat) (w : World) (cx0 : Context)
          (s : System) (i0 : Integrator),
      dynamics_ready w context cx0 s i0 ->
      topology_atoms = sys_numParticles s ->
      (2125 < sys_numParticles s)%nat ->
      exists names w' cx' f,
        AbyU.run md_step context topology_atoms w = Ret (names, w') /\
        contexts w' !! snd names = Some cx' /\
        ctx_stepCount cx' = 300%nat /\
        files w' !! AbyU.dcd_path = Some f /\
        file_closed f = true /\
        length (file_frames f) = 301%nat /\
        file_nframes f = 301%nat) /\
  (forall (any_step : list Force -> gmap string R -> R -> Phase -> Phase)
          (context topology_atoms : nat) (w w' : World) (names : nat * nat),
      ADP.run any_step context topology_atoms w = Ret (names, w') ->
      exists f,
        files w' !! ADP.dcd_path = Some f /\
        file_closed f = true /\
        length (file_frames f) = 500%nat /\
        file_nframes f = 500%nat) /\
  (forall (any_step : list Force -> gmap string R -> R -> Phase -> Phase)
          (context topology_atoms : nat) (w w' : World) (names : nat * nat),
      AbyU.run any_step context topology_atoms w = Ret (names, w') ->
      exists f,
        files w' !! AbyU.dcd_path = Some f /\
        file_closed f = true /\
        length (file_frames f) = 301%nat /\
        file_nframes f = 301%nat).
Proof.
  split; [|split; [|split; [|split]]];
    [| | |exact adp_run_complete|exact abyu_run_complete].
  - intros nsteps nwrites ig c dcd w i cx d f
           (Hi & Ho & Hc & Hd & Hf & Hcl & Hfc & Hn).
    destruct (sampling_loop_spec md_step md_step_particles nsteps ig c dcd
                nwrites w i cx d f Hi Ho Hc Hd Hf Hcl Hfc Hn)
      as (w' & Hrun & _ & _ & Hctx & _ & _ & f' & Hf' & _ & _ & _ & Hnf & Hfr).
    exists w', (advance md_step (ig_stepSize i) (nwrites * nsteps) cx), f'.
    split; [exact Hrun|]. split.
    { rewrite Hctx. apply list_lookup_insert_eq. eapply lookup_lt_Some, Hc. }
    split; [reflexivity|]. split; [reflexivity|]. split; [exact Hf'|].
    split; [exact Hfr|]. split.
    + now rewrite Hfr, length_app, trajectory_length.
    + rewrite Hnf. lia.
  - intros context atoms w cx0 s i0 Hready Hn.
    destruct (adp_run_spec md_step md_step_particles context atoms w cx0 s i0
                Hready Hn)
      as (w' & Hrun & _ & _ & Hctx & Hfile & _).
    eexists _, w', _, _. split; [exact Hrun|]. cbn [snd].
    split; [rewrite Hctx; apply lookup_snoc|].
    split; [reflexivity|]. split; [exact Hfile|].
    cbn [file_closed file_frames file_nframes].
    split; [reflexivity|]. split; [apply trajectory_length|reflexivity].
  - intros context atoms w cx0 s i0 Hready Hn Hbig.
    destruct (abyu_run_spec md_step md_step_particles context atoms w cx0 s i0
                Hready Hn Hbig)
      as (rf & w' & _ & Hrun & _ & _ & Hctx & Hfile & _).
    eexists _, w', _, _. split; [exact Hrun|]. cbn [snd].
    split; [rewrite Hctx; apply lookup_snoc|].
    split; [reflexivity|]. split; [exact Hfile|].
    cbn [file_closed file_frames file_nframes].
    split; [reflexivity|]. split; [|reflexivity].
    cbn [length]. now rewrite trajectory_length.
Qed.

(** C10: during the loop only the context the copied integrator is
    bound to moves.  After any number [j] of the passes every other
    context is as it was, the frames written so far are the positions
    of the new context after [nsteps], ..., [j * nsteps] steps, and the
    last of them is where the new context then stands.  In both
    notebooks the original context, with its starting positions, and
    its integrator are unchanged when the trajectory is closed. *)
Theorem only_the_new_context_evolves :
  (forall (nsteps nwrites j integrator new_context dcd_file : nat) (w : World)
          (i : Integrator) (cx : Context) (d : DCDFile) (f : File),
      loop_ready w integrator new_context dcd_file i cx d f ->
      (j <= nwrites)%nat ->
      exists wj cxj,
        sampling_loop md_step nsteps j integrator new_context dcd_file w
          = Ret (tt, wj) /\
        sampling_loop md_step nsteps nwrites integrator new_context dcd_file w
          = sampling_loop md_step nsteps (nwrites - j)
                          integrator new_context dcd_file wj /\
        (forall c, c <> new_context -> contexts wj !! c = contexts w !! c) /\
        integrators wj = integrators w /\
        systems wj = systems w /\
        contexts wj !! new_context = Some cxj /\
        cxj = advance md_step (ig_stepSize i) (j * nsteps) cx /\
        frames_at wj (dcd_handle d) =
          frames_at w (dcd_handle d) ++
          trajectory md_step (ig_stepSize i) nsteps j cx /\
        ((0 < j)%nat ->
         last (frames_at wj (dcd_handle d)) = Some (positions (ctx_phase cxj)))) /\
  (forall (context topology_atoms : nat) (w : World) (cx0 : Context)
          (s : System) (i0 : Integrator),
      dynamics_ready w context cx0 s i0 ->
      topology_atoms = sys_numParticles s ->
      exists integrator new_context w',
        ADP.run md_step context topology_atoms w =
          Ret ((integrator, new_context), w') /\
        new_context <> context /\
        integrator <> ctx_integrator cx0 /\
        contexts w' !! context = Some cx0 /\
        integrators w' !! ctx_integrator cx0 = Some i0 /\
        contexts w' !! new_context =
          Some (advance md_step (ig_stepSize i0) (500 * 10)
                        (ADP.fresh_context w cx0 s)) /\
        frames_at w' ADP.dcd_path =
          trajectory md_step (ig_stepSize i0) 10 500
                     (ADP.fresh_context w cx0 s)) /\
  (forall (context topology_atoms : nat) (w : World) (cx0 : Context)
          (s : System) (i0 : Integrator),
      dynamics_ready w context cx0 s i0 ->
      topology_atoms = sys_numParticles s ->
      (2125 < sys_numParticles s)%nat ->
      exists rf integrator new_context w',
        AbyU.restraint_cell AbyU.distances = Ret (52300, rf) /\
        AbyU.run md_step context topology_atoms w =
          Ret ((integrator, new_context), w') /\
        new_context <> context /\
        integrator <> ctx_integrator cx0 /\
        contexts w' !! context = Some cx0 /\
        integrators w' !! ctx_integrator cx0 = Some i0 /\
        contexts w' !! new_context =
          Some (advance md_step (ig_stepSize i0) (300 * 1)
                        (AbyU.fresh_context w cx0 s rf 52300 (1 / 4))) /\
        frames_at w' AbyU.dcd_path =
          positions (ctx_phase (AbyU.fresh_context w cx0 s rf 52300 (1 / 4))) ::
          trajectory md_step (ig_stepSize i0) 1 300
                     (AbyU.fresh_context w cx0 s rf 52300 (1 / 4))).
Proof.
  split; [|split].
  - intros nsteps nwrites j ig c dcd w i cx d f
           (Hi & Ho & Hc & Hd & Hf & Hcl & Hfc & Hn) Hj.
    destruct (sampling_loop_prefix md_step md_step_particles nsteps nwrites j
                ig c dcd w i cx d f Hi Ho Hc Hd Hf Hcl Hfc Hn Hj)
      as (wj & Hrun & Hrest & Hsys & Hig & Hothers & Hctx & Hfr).
    exists wj, (advance md_step (ig_stepSize i) (j * nsteps) cx).
    repeat split; try assumption.
    intros Hpos. rewrite Hfr, last_app.
    now rewrite (trajectory_last md_step _ _ _ _ Hpos).
  - intros context atoms w cx0 s i0 Hready Hn.
    destruct (adp_run_spec md_step md_step_particles context atoms w cx0 s i0
                Hready Hn)
      as (w' & Hrun & _ & Hig & Hctx & Hfile & _).
    destruct Hready as (Hc & _ & Hi & _ & _).
    exists (length (integrators w)), (length (contexts w)), w'.
    split; [exact Hrun|].
    split; [apply lookup_lt_Some in Hc; lia|].
    split; [apply lookup_lt_Some in Hi; lia|].
    rewrite Hctx, Hig. split; [now apply lookup_snoc_old|].
    split; [now apply lookup_snoc_old|].
    split; [apply lookup_snoc|].
    unfold frames_at. now rewrite Hfile.
  - intros context atoms w cx0 s i0 Hready Hn Hbig.
    destruct (abyu_run_spec md_step md_step_particles context atoms w cx0 s i0
                Hready Hn Hbig)
      as (rf & w' & Hrc & Hrun & _ & Hig & Hctx & Hfile & _).
    destruct Hready as (Hc & _ & Hi & _ & _).
    exists rf, (length (integrators w)), (length (contexts w)), w'.
    split; [exact Hrc|]. split; [exact Hrun|].
    split; [apply lookup_lt_Some in Hc; lia|].
    split; [apply lookup_lt_Some in Hi; lia|].
    rewrite Hctx, Hig. split; [now apply lookup_snoc_old|].
    split; [now apply lookup_snoc_old|].
    split; [apply lookup_snoc|].
    unfold frames_at. now rewrite Hfile.
Qed.

End Production.

Lemma sampling_loop_writes_one_frame_per_pass_witness :
  (exists w' cx' f',
      sampling_loop Example.drift 10 3 0 0 0 Example.sampling_world =
        Ret (tt, w') /\
      contexts w' !! 0%nat = Some cx' /\
      cx' = advance Example.drift (1 / 1000) (3 * 10)
                    (Example.original_context 2) /\
      ctx_stepCount cx' = 30%nat /\
      files w' !! "t.dcd" = Some f' /\
      file_frames f' =
        trajectory Example.drift (1 / 1000) 10 3 (Example.original_context 2) /\
      length (file_frames f') = 3%nat /\
      file_nframes f' = 3%nat) /\
  (exists names w' cx' f,
      ADP.run Example.drift 0 3 (Example.world 3) = Ret (names, w') /\
      contexts w' !! snd names = Some cx' /\
      ctx_stepCount cx' = 5000%nat /\
      files w' !! ADP.dcd_path = Some f /\
      file_closed f = true /\
      length (file_frames f) = 500%nat /\
      file_nframes f = 500%nat) /\
  (exists names w' cx' f,
      AbyU.run Example.drift 0 2126 (Example.world 2126) = Ret (names, w') /\
      contexts w' !! snd names = Some cx' /\
      ctx_stepCount cx' = 300%nat /\
      files w' !! AbyU.dcd_path = Some f /\
      file_closed f = true /\
      length (file_frames f) = 301%nat /\
      file_nframes f = 301%nat) /\
  (exists names w',
      ADP.run Example.drift 0 3 (Example.world 3) = Ret (names, w') /\
      exists f,
        files w' !! ADP.dcd_path = Some f /\
        file_closed f = true /\
        length (file_frames f) = 500%nat /\
        file_nframes f = 500%nat) /\
  (exists names w',
      AbyU.run Example.drift 0 2126 (Example.world 2126) = Ret (names, w') /\
      exists f,
        files w' !! AbyU.dcd_path = Some f /\
        file_closed f = true /\
        length (file_frames f) = 301%nat /\
        file_nframes f = 301%nat).
Proof.
  destruct (sampling_loop_writes_one_frame_per_pass Example.drift
              drift_particles) as (Hloop & Hadp & Habyu & Hadp' & Habyu').
  split; [|split; [|split; [|split]]].
  - apply (Hloop 10%nat 3%nat 0%nat 0%nat 0%nat _ _ _ _ _ sampling_world_ready).
  - apply (Hadp 0%nat 3%nat _ _ _ _ (example_world_ready 3)). reflexivity.
  - apply (Habyu 0%nat 2126%nat _ _ _ _ (example_world_ready 2126)).
    + reflexivity.
    + cbn [Example.original_system sys_numParticles]. lia.
  - destruct (Hadp 0%nat 3%nat _ _ _ _ (example_world_ready 3) eq_refl)
      as (names & w' & _ & _ & Hrun & _).
    exists names, w'. split; [exact Hrun|].
    exact (Hadp' Example.drift 0%nat 3%nat _ _ _ Hrun).
  - assert (Hbig : (2125 < 2126)%nat) by lia.
    destruct (Habyu 0%nat 2126%nat _ _ _ _ (example_world_ready 2126)
                eq_refl Hbig)
      as (names & w' & _ & _ & Hrun & _).
    exists names, w'. split; [exact Hrun|].
    exact (Habyu' Example.drift 0%nat 2126%nat _ _ _ Hrun).
Defined.

Lemma only_the_new_context_evolves_witness :
  (exists wj cxj,
      sampling_loop Example.drift 10 2 0 0 0 Example.sampling_world =
        Ret (tt, wj) /\
      sampling_loop Example.drift 10 3 0 0 0 Example.sampling_world =
        sampling_loop Example.drift 10 (3 - 2) 0 0 0 wj /\
      (forall c, c <> 0%nat ->
                 contexts wj !! c = contexts Example.sampling_world !! c) /\
      integrators wj = integrators Example.sampling_world /\
      systems wj = systems Example.sampling_world /\
      contexts wj !! 0%nat = Some cxj /\
      cxj = advance Example.drift (1 / 1000) (2 * 10)
                    (Example.original_context 2) /\
      frames_at wj "t.dcd" =
        frames_at Example.sampling_world "t.dcd" ++
        trajectory Example.drift (1 / 1000) 10 2 (Example.original_context 2) /\
      ((0 < 2)%nat ->
       last (frames_at wj "t.dcd") = Some (positions (ctx_phase cxj)))) /\
  (exists integrator new_context w',
      ADP.run Example.drift 0 3 (Example.world 3) =
        Ret ((integrator, new_context), w') /\
      new_context <> 0%nat /\
      integrator <> 0%nat /\
      contexts w' !! 0%nat = Some (Example.original_context 3) /\
      integrators w' !! 0%nat = Some Example.original_integrator /\
      contexts w' !! new_context =
        Some (advance Example.drift (1 / 1000) (500 * 10)
                (ADP.fresh_context (Example.world 3)
                   (Example.original_context 3) (Example.original_system 3))) /\
      frames_at w' ADP.dcd_path =
        trajectory Example.drift (1 / 1000) 10 500
          (ADP.fresh_context (Example.world 3)
             (Example.original_context 3) (Example.original_system 3))) /\
  (exists rf integrator new_context w',
      AbyU.restraint_cell AbyU.distances = Ret (52300, rf) /\
      AbyU.run Example.drift 0 2126 (Example.world 2126) =
        Ret ((integrator, new_context), w') /\
      new_context <> 0%nat /\
      integrator <> 0%nat /\
      contexts w' !! 0%nat = Some (Example.original_context 2126) /\
      integrators w' !! 0%nat = Some Example.original_integrator /\
      contexts w' !! new_context =
        Some (advance Example.drift (1 / 1000) (300 * 1)
                (AbyU.fresh_context (Example.world 2126)
                   (Example.original_context 2126)
                   (Example.original_system 2126) rf 52300 (1 / 4))) /\
      frames_at w' AbyU.dcd_path =
        positions (ctx_phase (Example.original_context 2126)) ::
        trajectory Example.drift (1 / 1000) 1 300
          (AbyU.fresh_context (Example.world 2126)
             (Example.original_context 2126)
             (Example.original_system 2126) rf 52300 (1 / 4))).
Proof.
  destruct (only_the_new_context_evolves Example.drift drift_particles)
    as (Hloop & Hadp & Habyu).
  split; [|split].
  - apply (Hloop 10%nat 3%nat 2%nat 0%nat 0%nat 0%nat _ _ _ _ _
             sampling_world_ready). lia.
  - apply (Hadp 0%nat 3%nat _ _ _ _ (example_world_ready 3)). reflexivity.
  - apply (Habyu 0%nat 2126%nat _ _ _ _ (example_world_ready 2126)).
    + reflexivity.
    + cbn [Example.original_system sys_numParticles]. lia.
Defined.

End NotebookProps.

(** * Further properties of the code *)

(** ** More on the error-analysis helpers *)

Module NumpyMore.
Import Numpy NumpyProps Report.

(** X1: when the broadcast difference is empty (one array is empty and
    the other has at most one entry) [get_rmse] raises nothing and
    returns [nan], the mean of no numbers. *)
Theorem get_rmse_nan_on_empty_difference (a b : ndarray) :
  (a = [] /\ (length b <= 1)%nat) \/ (b = [] /\ (length a <= 1)%nat) ->
  get_rmse a b = Ret NaN.
Proof.
  unfold get_rmse, np_sub, broadcast2.
  intros [[-> H]|[-> H]].
  - destruct b as [|y [|y' b]]; [reflexivity|reflexivity|].
    cbn [length] in H. lia.
  - destruct a as [|x [|x' a]]; [reflexivity|reflexivity|].
    cbn [length] in H. lia.
Qed.

Lemma get_rmse_nan_on_empty_difference_witness :
  get_rmse [] [5] = Ret NaN.
Proof.
  apply (get_rmse_nan_on_empty_difference [] [5]).
  left. split; [reflexivity|]. cbn [length]. lia.
Defined.

Lemma broadcast2_Ret_iff (f : R -> R -> R) (a b : ndarray) :
  (exists d, broadcast2 f a b = Ret d) <->
  broadcastable (length a) (length b).
Proof.
  split.
  - intros [d Hd]. unfold broadcastable.
    destruct (decide (length a = length b \/ length a = 1%nat \/
                      length b = 1%nat)) as [Y|N]; [exact Y|].
    rewrite broadcast2_raise in Hd by (intros E; apply N; auto).
    discriminate.
  - apply broadcast2_ok.
Qed.

Lemma broadcast2_error (f : R -> R -> R) (a b : ndarray) (e : exn) :
  broadcast2 f a b = Raise e -> e = ValueError.
Proof.
  unfold broadcast2. destruct (decide _); [discriminate|].
  destruct a as [|x [|x' a]], b as [|y [|y' b]]; congruence.
Qed.

Lemma broadcast2_length (f : R -> R -> R) (a b d : ndarray) :
  broadcast2 f a b = Ret d ->
  length d = broadcast_len (length a) (length b).
Proof.
  unfold broadcast2, broadcast_len.
  destruct (decide (length a = length b)) as [E|NE].
  - intros [= <-]. rewrite length_zip_with.
    destruct (decide _); lia.
  - destruct a as [|x [|x' a]], b as [|y [|y' b]];
      try (exfalso; apply NE; reflexivity); intros [= <-];
      cbn [length map]; rewrite ?length_map;
      destruct (decide _); cbn [length] in *; lia.
Qed.

Lemma get_rmse_Ret_iff (a b : ndarray) :
  (exists x, get_rmse a b = Ret x) <-> broadcastable (length a) (length b).
Proof.
  rewrite <- (broadcast2_Ret_iff Rminus). unfold get_rmse, np_sub.
  destruct (broadcast2 Rminus a b) as [d|e]; cbn [py_bind]; split;
    intros [x Hx]; try discriminate; eauto.
Qed.

Lemma get_rmse_error (a b : ndarray) (e : exn) :
  get_rmse a b = Raise e -> e = ValueError.
Proof.
  unfold get_rmse, np_sub.
  destruct (broadcast2 Rminus a b) as [d|e'] eqn:Hd; cbn [py_bind];
    [discriminate|].
  intros [= <-]. apply (broadcast2_error _ _ _ _ Hd).
Qed.

End NumpyMore.

(** ** The error report *)

Module ReportProps.
Import Numpy NumpyProps NumpyMore Report.

Lemma pair_rmse_Ret_iff (data : gmap string ndarray) (k1 k2 : string) :
  (exists x, (do a <- getitem data k1; do b <- getitem data k2;
              get_rmse a b) = Ret x) <->
  (exists a b, data !! k1 = Some a /\ data !! k2 = Some b /\
               broadcastable (length a) (length b)).
Proof.
  unfold getitem. split.
  - intros [x Hx].
    destruct (data !! k1) as [a|]; [|discriminate].
    destruct (data !! k2) as [b|]; [|discriminate].
    cbn [py_bind] in Hx. exists a, b. repeat split.
    apply get_rmse_Ret_iff. eauto.
  - intros (a & b & -> & -> & Hb). cbn [py_bind].
    now apply get_rmse_Ret_iff.
Qed.

Lemma pair_rmse_error (data : gmap string ndarray) (k1 k2 : string) (e : exn) :
  (do a <- getitem data k1; do b <- getitem data k2; get_rmse a b) = Raise e ->
  e = ValueError \/ e = KeyError k1 \/ e = KeyError k2.
Proof.
  unfold getitem.
  destruct (data !! k1) as [a|]; [|intros [= <-]; auto].
  destruct (data !! k2) as [b|]; [|intros [= <-]; auto].
  cbn [py_bind]. intros H. left. apply (get_rmse_error _ _ _ H).
Qed.

Lemma total_rmse_Ret_iff (data : gmap string ndarray) :
  (exists x, get_total_rmse data = Ret x) <->
  (exists sq iq se ie,
      data !! "E_static_qm" = Some sq /\
      data !! "E_induced_qm" = Some iq /\
      data !! "E_static_emle" = Some se /\
      data !! "E_induced_emle" = Some ie /\
      broadcastable (length sq) (length iq) /\
      broadcastable (length se) (length ie) /\
      broadcastable (broadcast_len (length sq) (length iq))
                    (broadcast_len (length se) (length ie))).
Proof.
  unfold get_total_rmse, getitem, np_add. split.
  - intros [x Hx].
    destruct (data !! "E_static_qm") as [sq|]; [|discriminate].
    destruct (data !! "E_induced_qm") as [iq|]; [|discriminate].
    cbn [py_bind] in Hx.
    destruct (broadcast2 Rplus sq iq) as [q|] eqn:Hq; [|discriminate].
    cbn [py_bind] in Hx.
    destruct (data !! "E_static_emle") as [se|]; [|discriminate].
    destruct (data !! "E_induced_emle") as [ie|]; [|discriminate].
    cbn [py_bind] in Hx.
    destruct (broadcast2 Rplus se ie) as [e|] eqn:He; [|discriminate].
    cbn [py_bind] in Hx.
    exists sq, iq, se, ie. repeat split.
    + apply (broadcast2_Ret_iff Rplus). eauto.
    + apply (broadcast2_Ret_iff Rplus). eauto.
    + rewrite <- (broadcast2_length _ _ _ _ Hq).
      rewrite <- (broadcast2_length _ _ _ _ He).
      apply get_rmse_Ret_iff. eauto.
  - intros (sq & iq & se & ie & -> & -> & -> & -> & Hq & He & Hqe).
    cbn [py_bind].
    apply (broadcast2_Ret_iff Rplus) in Hq as [q Hq].
    apply (broadcast2_Ret_iff Rplus) in He as [e He].
    rewrite Hq. cbn [py_bind]. rewrite He. cbn [py_bind].
    apply get_rmse_Ret_iff.
    rewrite (broadcast2_length _ _ _ _ Hq), (broadcast2_length _ _ _ _ He).
    exact Hqe.
Qed.

Lemma total_rmse_error (data : gmap string ndarray) (e : exn) :
  get_total_rmse data = Raise e ->
  e = ValueError \/
  exists key, e = KeyError key /\
              key ∈ ["E_static_qm"; "E_static_emle"; "E_induced_qm";
                     "E_induced_emle"].
Proof.
  unfold get_total_rmse, getitem, np_add.
  destruct (data !! "E_static_qm") as [sq|];
    [|intros [= <-]; right; eexists; split; [reflexivity|(apply list_elem_of_In; simpl; tauto)]].
  destruct (data !! "E_induced_qm") as [iq|];
    [|intros [= <-]; right; eexists; split; [reflexivity|(apply list_elem_of_In; simpl; tauto)]].
  cbn [py_bind].
  destruct (broadcast2 Rplus sq iq) as [q|e1] eqn:Hq;
    [|intros [= <-]; left; apply (broadcast2_error _ _ _ _ Hq)].
  cbn [py_bind].
  destruct (data !! "E_static_emle") as [se|];
    [|intros [= <-]; right; eexists; split; [reflexivity|(apply list_elem_of_In; simpl; tauto)]].
  destruct (data !! "E_induced_emle") as [ie|];
    [|intros [= <-]; right; eexists; split; [reflexivity|(apply list_elem_of_In; simpl; tauto)]].
  cbn [py_bind].
  destruct (broadcast2 Rplus se ie) as [e2|e2] eqn:He;
    [|intros [= <-]; left; apply (broadcast2_error _ _ _ _ He)].
  cbn [py_bind]. intros H. left. apply (get_rmse_error _ _ _ H).
Qed.

Section Printing.

Variable format_5_3f : npfloat -> string.

(** X6: [get_errors] either prints or raises.  When the table has the
    four arrays and every subtraction and addition it makes broadcasts,
    it prints one line, the three values in the format of the source,
    and returns; in every other case it prints nothing and raises
    [ValueError] or the [KeyError] of one of the four names, the one of
    ['E_static_qm'] when that array is missing, whatever else the table
    holds. *)
Theorem get_errors_prints_or_raises (data : gmap string ndarray)
    (stdout : list string) :
  let computed :=
    exists sq iq se ie,
      data !! "E_static_qm" = Some sq /\
      data !! "E_induced_qm" = Some iq /\
      data !! "E_static_emle" = Some se /\
      data !! "E_induced_emle" = Some ie /\
      broadcastable (length sq) (length se) /\
      broadcastable (length iq) (length ie) /\
      broadcastable (length sq) (length iq) /\
      broadcastable (length se) (length ie) /\
      broadcastable (broadcast_len (length sq) (length iq))
                    (broadcast_len (length se) (length ie)) in
  (computed ->
   exists static induced total,
     get_static_rmse data = Ret static /\
     get_induced_rmse data = Ret induced /\
     get_total_rmse data = Ret total /\
     get_errors format_5_3f data stdout =
       (stdout ++
        [("static: " ++ format_5_3f static ++
          " induced: " ++ format_5_3f induced ++
          " total: " ++ format_5_3f total ++ " ")%string], Ret tt)) /\
  (~ computed ->
   exists e,
     get_errors format_5_3f data stdout = (stdout, Raise e) /\
     (e = ValueError \/
      exists key, e = KeyError key /\
                  key ∈ ["E_static_qm"; "E_static_emle"; "E_induced_qm";
                         "E_induced_emle"])) /\
  (data !! "E_static_qm" = None ->
   get_errors format_5_3f data stdout =
     (stdout, Raise (KeyError "E_static_qm"))).
Proof.
  intros computed. subst computed.
  pose proof (pair_rmse_Ret_iff data "E_static_qm" "E_static_emle") as Hs.
  pose proof (pair_rmse_Ret_iff data "E_induced_qm" "E_induced_emle") as Hi.
  pose proof (total_rmse_Ret_iff data) as Ht.
  pose proof (pair_rmse_error data "E_static_qm" "E_static_emle") as Es.
  pose proof (pair_rmse_error data "E_induced_qm" "E_induced_emle") as Ei.
  pose proof (total_rmse_error data) as Et.
  fold (get_static_rmse data) in Hs, Es.
  fold (get_induced_rmse data) in Hi, Ei.
  split; [|split].
  - intros (sq & iq & se & ie & Hsq & Hiq & Hse & Hie & B1 & B2 & B3 & B4 & B5).
    destruct (proj2 Hs) as [s S]; [eauto 6|].
    destruct (proj2 Hi) as [i I]; [eauto 6|].
    destruct (proj2 Ht) as [t T]; [eauto 12|].
    exists s, i, t. unfold get_errors. rewrite S, I, T. repeat split.
  - intros Hno. unfold get_errors.
    destruct (get_static_rmse data) as [s|es].
    2: { exists es. split; [reflexivity|].
         destruct (Es es eq_refl) as [E|[E|E]]; rewrite E; [now left| |];
           right; eexists;
           (split; [reflexivity|(apply list_elem_of_In; simpl; tauto)]). }
    destruct (get_induced_rmse data) as [i|ei].
    2: { exists ei. split; [reflexivity|].
         destruct (Ei ei eq_refl) as [E|[E|E]]; rewrite E; [now left| |];
           right; eexists;
           (split; [reflexivity|(apply list_elem_of_In; simpl; tauto)]). }
    destruct (get_total_rmse data) as [t|et].
    2: { exists et. split; [reflexivity|]. apply (Et et eq_refl). }
    exfalso. apply Hno.
    destruct (proj1 Hs (ex_intro _ s eq_refl)) as (sq & se & Hsq & Hse & B1).
    destruct (proj1 Hi (ex_intro _ i eq_refl)) as (iq & ie & Hiq & Hie & B2).
    destruct (proj1 Ht (ex_intro _ t eq_refl))
      as (sq' & iq' & se' & ie' & Hsq' & Hiq' & Hse' & Hie' & B3 & B4 & B5).
    rewrite Hsq in Hsq'. rewrite Hiq in Hiq'. rewrite Hse in Hse'.
    rewrite Hie in Hie'.
    injection Hsq' as <-. injection Hiq' as <-. injection Hse' as <-.
    injection Hie' as <-.
    exists sq, iq, se, ie. repeat split; assumption.
  - intros Hmiss. unfold get_errors, get_static_rmse, getitem.
    rewrite Hmiss. reflexivity.
Qed.

Lemma mixed_length_table_lookups :
  Example.mixed_length_table !! "E_static_qm" = Some [1; 2] /\
  Example.mixed_length_table !! "E_static_emle" = Some [0; 0] /\
  Example.mixed_length_table !! "E_induced_qm" = Some [1; 2; 3] /\
  Example.mixed_length_table !! "E_induced_emle" = Some [0; 0; 0].
Proof.
  unfold Example.mixed_length_table. repeat split; by simplify_map_eq.
Qed.

(** X7: the static and the induced arrays may each be consistent and
    still not fit each other: then [get_static_rmse] and
    [get_induced_rmse] return, [get_total_rmse] raises [ValueError],
    and [get_errors] raises it without printing the two values it
    has. *)
Theorem get_errors_fails_on_total_alone (data : gmap string ndarray)
    (sq se iq ie : ndarray) (stdout : list string) :
  data !! "E_static_qm" = Some sq ->
  data !! "E_static_emle" = Some se ->
  data !! "E_induced_qm" = Some iq ->
  data !! "E_induced_emle" = Some ie ->
  length se = length sq ->
  length ie = length iq ->
  ~ broadcastable (length sq) (length iq) ->
  (exists s, get_static_rmse data = Ret s) /\
  (exists i, get_induced_rmse data = Ret i) /\
  get_total_rmse data = Raise ValueError /\
  get_errors format_5_3f data stdout = (stdout, Raise ValueError).
Proof.
  intros Hsq Hse Hiq Hie Ls Li Hn.
  assert (Hs : exists s, get_static_rmse data = Ret s).
  { apply (pair_rmse_Ret_iff data "E_static_qm" "E_static_emle").
    exists sq, se. repeat split; try assumption. left. congruence. }
  assert (Hi : exists i, get_induced_rmse data = Ret i).
  { apply (pair_rmse_Ret_iff data "E_induced_qm" "E_induced_emle").
    exists iq, ie. repeat split; try assumption. left. congruence. }
  assert (Ht : get_total_rmse data = Raise ValueError).
  { unfold get_total_rmse, getitem, np_add. rewrite Hsq, Hiq.
    cbn [py_bind]. rewrite broadcast2_raise; [reflexivity| | |];
      intros E; apply Hn; unfold broadcastable; auto. }
  repeat split; try assumption.
  unfold get_errors. destruct Hs as [s ->]. destruct Hi as [i ->].
  now rewrite Ht.
Qed.

End Printing.

End ReportProps.

Module ReportWitness.
Import Numpy Report ReportProps.

Lemma get_errors_fails_on_total_alone_witness :
  (exists s, get_static_rmse Example.mixed_length_table = Ret s) /\
  (exists i, get_induced_rmse Example.mixed_length_table = Ret i) /\
  get_total_rmse Example.mixed_length_table = Raise ValueError /\
  get_errors (fun _ => "x"%string) Example.mixed_length_table [] =
    ([], Raise ValueError).
Proof.
  destruct mixed_length_table_lookups as (Hsq & Hse & Hiq & Hie).
  apply (get_errors_fails_on_total_alone (fun _ => "x"%string)
           Example.mixed_length_table [1; 2] [0; 0] [1; 2; 3] [0; 0; 0] []
           Hsq Hse Hiq Hie eq_refl eq_refl).
  unfold broadcastable. cbn [length]. lia.
Defined.

Lemma get_errors_prints_or_raises_witness :
  (exists static induced total,
      get_static_rmse Example.same_sign_table = Ret static /\
      get_induced_rmse Example.same_sign_table = Ret induced /\
      get_total_rmse Example.same_sign_table = Ret total /\
      get_errors (fun _ => "x"%string) Example.same_sign_table [] =
        ([] ++ ["static: x induced: x total: x "%string], Ret tt)) /\
  (exists e,
      get_errors (fun _ => "x"%string) Example.mixed_length_table [] =
        ([], Raise e) /\
      (e = ValueError \/
       exists key, e = KeyError key /\
                   key ∈ ["E_static_qm"; "E_static_emle"; "E_induced_qm";
                          "E_induced_emle"])) /\
  get_errors (fun _ => "x"%string) ∅ [] =
    ([], Raise (KeyError "E_static_qm")).
Proof.
  split; [|split].
  - apply (proj1 (get_errors_prints_or_raises
                    (fun _ => "x"%string) Example.same_sign_table [])).
    destruct NumpyProps.same_sign_table_lookups as (Hsq & Hse & Hiq & Hie).
    exists [3], [4], [0], [0].
    repeat (split; [first [assumption | left; reflexivity]|]).
    left; reflexivity.
  - apply (proj1 (proj2 (get_errors_prints_or_raises
                           (fun _ => "x"%string)
                           Example.mixed_length_table []))).
    destruct mixed_length_table_lookups as (Hsq & Hse & Hiq & Hie).
    intros (sq & iq & se & ie & Hsq' & Hiq' & _ & _ & _ & _ & B & _).
    rewrite Hsq in Hsq'. rewrite Hiq in Hiq'.
    injection Hsq' as <-. injection Hiq' as <-.
    unfold broadcastable in B. cbn [length] in B. lia.
  - apply (proj2 (proj2 (get_errors_prints_or_raises
                           (fun _ => "x"%string) ∅ []))).
    reflexivity.
Defined.

End ReportWitness.

(** ** More on the unit conversion *)

Module ConversionProps.
Import Units Conversion.

(** X10: the target unit must have the dimension of the quantity: with
    any power of the nanometre other than 2 the conversion raises
    [TypeError], with 2 it returns. *)
Theorem force_constant_conversion_needs_matching_dimension (x : Q) (n : Z) :
  ((exists y, value_in_unit (force_quantity x) (target_unit n) = Ret y) <->
   n = 2%Z) /\
  (value_in_unit (force_quantity x) (target_unit n) = Raise TypeError <->
   n <> 2%Z).
Proof.
  assert (E : dim_eqb (u_dim (q_unit (force_quantity x)))
                      (u_dim (target_unit n)) = (n =? 2)%Z).
  { unfold dim_eqb. cbn [force_quantity target_unit quantity_div
      scalar_times q_unit unit_div unit_mul unit_pow u_dim d_length d_mass
      d_time d_amount kilocalorie_per_mole kilojoule_per_mole angstrom
      nanometer molar_energy_dim length_dim].
    destruct (Z.eqb_spec (2 + 1 * 2 * -1) (2 + 1 * n * -1)) as [E|E];
      destruct (Z.eqb_spec n 2) as [N|N];
      try reflexivity; exfalso; lia. }
  unfold value_in_unit. rewrite E.
  destruct (Z.eqb_spec n 2) as [N|N]; split; split.
  - intros _. exact N.
  - intros _. eexists. reflexivity.
  - intros H. discriminate H.
  - intros H. contradiction.
  - intros [y H]. discriminate H.
  - intros H. contradiction.
  - intros _. exact N.
  - intros _. reflexivity.
Qed.

End ConversionProps.

(** ** More on the restraint *)

Module RestraintMore.
Import OpenMM AbyU Geometry RestraintProps.






End RestraintMore.

(** ** More on the cells *)

Module CellsMore.
Import OpenMM Sampling Geometry StoreProps.

Lemma bind_raise {A B : Type} (m : M A) (k : A -> M B) (w : World) (e : exn) :
  m w = Raise e -> bind m k w = Raise e.
Proof. intros H. unfold bind. now rewrite H. Qed.

Lemma Context_new_out_of_range (w : World) (sys ig : nat) (platform : string)
    (s : System) (i : Integrator) :
  systems w !! sys = Some s ->
  integrators w !! ig = Some i ->
  forallb (force_in_range (sys_numParticles s)) (sys_forces s) = false ->
  Context_new sys ig platform w = Raise OpenMMException.
Proof.
  intros Hs Hi Hf. unfold Context_new. rewrite Hs, Hi, Hf.
  destruct (ig_owner i); reflexivity.
Qed.

Lemma restraint_out_of_range (n : nat) (rf : CustomCVForce) :
  (n <= 2125)%nat ->
  map (fun nv => cbf_bonds (snd nv)) (cvf_collectiveVariables rf) =
  [map AbyU.bond_of AbyU.distances] ->
  force_in_range n (CVForce rf) = false.
Proof.
  intros Hn Hb. unfold force_in_range.
  assert (E : forall (l : list (string * CustomBondForce)),
             forallb (fun nv => forallb (bond_in_range n) (cbf_bonds (snd nv))) l =
             forallb (forallb (bond_in_range n))
                     (map (fun nv => cbf_bonds (snd nv)) l)).
  { induction l as [|x l IH]; [reflexivity|]. cbn [forallb map].
    now rewrite IH. }
  rewrite E, Hb. unfold AbyU.distances.
  cbn [map AbyU.bond_of forallb bond_in_range].
  rewrite (proj2 (Nat.ltb_ge 2125 n)) by lia. reflexivity.
Qed.

Section AnyStep.

Variable md_step : list Force -> gmap string R -> R -> Phase -> Phase.

(** X12: on a system that lacks one of the restrained atoms (2125 or
    fewer particles) the AbyU notebook does not get past the set-up
    cell: [openmm.Context] refuses the system with the restraint, and
    the run ends in the OpenMM exception, whatever the integrator does
    and whatever the topology is. *)
Theorem abyu_run_needs_the_restrained_atoms (context topology_atoms : nat)
    (w : World) (cx0 : Context) (s : System) (i0 : Integrator) :
  dynamics_ready w context cx0 s i0 ->
  (sys_numParticles s <= 2125)%nat ->
  AbyU.run md_step context topology_atoms w = Raise OpenMMException.
Proof.
  intros (Hc & Hs & Hi & Hlen & Hf) Hsmall.
  destruct (RestraintProps.restraint_cell_value AbyU.distances)
    as (rf & Hrc & _ & Hg & Hb).
  unfold AbyU.run. unfold lift at 1. rewrite Hrc.
  erewrite bind_eq; [|reflexivity]. cbn [fst snd].
  apply bind_raise. unfold AbyU.new_context_cell.
  rewrite (bind_eq _ _ _ _ _ (getSystem_eq _ _ _ Hc)).
  rewrite (bind_eq _ _ _ _ _ (getIntegrator_eq _ _ _ Hc)).
  rewrite (bind_eq _ _ _ _ _ (Integrator_copy_eq _ _ _ Hi)).
  erewrite bind_eq; cycle 1.
  { apply addForce_eq. store_simpl. exact Hs. }
  erewrite bind_eq; cycle 1.
  { apply getPlatform_eq. store_simpl. exact Hc. }
  apply bind_raise. eapply Context_new_out_of_range.
  - store_simpl. apply list_lookup_insert_eq. eapply lookup_lt_Some, Hs.
  - store_simpl. apply lookup_snoc.
  - cbn [sys_numParticles sys_forces]. rewrite forallb_app.
    cbn [forallb]. rewrite (restraint_out_of_range _ rf Hsmall Hb).
    now rewrite andb_false_r.
Qed.

End AnyStep.

Lemma abyu_run_needs_the_restrained_atoms_witness :
  AbyU.run Example.drift 0 3 (Example.world 3) = Raise OpenMMException.
Proof.
  apply (abyu_run_needs_the_restrained_atoms Example.drift 0 3
           (Example.world 3) (Example.original_context 3)
           (Example.original_system 3) Example.original_integrator).
  - apply NotebookProps.example_world_ready.
  - cbn [Example.original_system sys_numParticles]. lia.
Defined.

End CellsMore.

(** ** The trajectory file *)

Module TrajectoryProps.
Import OpenMM Sampling Geometry StoreProps.

Lemma writeModel_atoms (dcd : nat) (xs : list Vec3) (w w' : World) (u : unit) :
  writeModel dcd xs w = Ret (u, w') ->
  exists d, dcd_files w !! dcd = Some d /\
            dcd_topology_atoms d = length xs.
Proof.
  unfold writeModel. intros H.
  destruct (dcd_files w !! dcd) as [d|]; [|discriminate H].
  destruct (decide (dcd_topology_atoms d = length xs)) as [E|];
    [|discriminate H].
  exists d. split; [reflexivity|exact E].
Qed.

Lemma writeModel_mismatch (dcd : nat) (xs : list Vec3) (w : World)
    (d : DCDFile) :
  dcd_files w !! dcd = Some d ->
  dcd_topology_atoms d <> length xs ->
  writeModel dcd xs w = Raise ValueError.
Proof.
  intros Hd Hn. unfold writeModel. rewrite Hd.
  destruct (decide _) as [E|_]; [contradiction|reflexivity].
Qed.

Lemma writeModel_keeps (dcd : nat) (xs : list Vec3) (w w' : World) (u : unit)
    (h : string) (atoms : nat) :
  writeModel dcd xs w = Ret (u, w') ->
  writer_ok w dcd h atoms -> writer_ok w' dcd h atoms.
Proof.
  intros H (d & f & Hd & Hh & Ha & Hf & Hn & Hna & Hnf & Hall).
  destruct (writeModel_atoms _ _ _ _ _ H) as (d1 & Hd1 & Hlen).
  rewrite Hd in Hd1. injection Hd1 as <-.
  apply writeModel_inv in H as (d0 & f0 & Hd0 & Hf0 & Hcl & Hd' & Hf').
  rewrite Hd in Hd0. injection Hd0 as <-.
  rewrite Hh, Hf in Hf0. injection Hf0 as <-.
  eexists _, _. split.
  { rewrite Hd'. apply list_lookup_insert_eq. eapply lookup_lt_Some, Hd. }
  split; [exact Hh|]. split; [exact Ha|]. split.
  { rewrite Hf', Hh. apply lookup_insert_eq. }
  cbn [dcd_modelCount file_nframes file_natoms]. split; [reflexivity|].
  split; [exact Hna|]. split; cbn [file_nframes file_frames file_natoms].
  - rewrite length_app. cbn [length]. lia.
  - apply Forall_app. split; [exact Hall|].
    constructor; [congruence|constructor].
Qed.

Lemma close_keeps (h : string) (w w' : World) (u : unit) (f : File) :
  close h w = Ret (u, w') ->
  files w !! h = Some f ->
  dcd_consistent f ->
  exists f', files w' !! h = Some f' /\
             file_closed f' = true /\
             file_natoms f' = file_natoms f /\
             dcd_consistent f'.
Proof.
  intros H Hf Hc. apply close_inv in H as (f1 & Hf1 & Hfinal).
  rewrite Hf in Hf1. injection Hf1 as <-.
  eexists. split; [exact Hfinal|]. repeat split; apply Hc.
Qed.

Section AnyStep.

Variable md_step : list Force -> gmap string R -> R -> Phase -> Phase.

Lemma sampling_pass_keeps (nsteps ig c dcd : nat) (w w' : World) (u : unit)
    (h : string) (atoms : nat) :
  sampling_pass md_step nsteps ig c dcd w = Ret (u, w') ->
  writer_ok w dcd h atoms -> writer_ok w' dcd h atoms.
Proof.
  unfold sampling_pass. intros H Hok.
  apply bind_inv in H as (u1 & w1 & Hstep & H).
  apply step_inv in Hstep as [Hfiles Hdcd].
  apply bind_inv in H as (ph & w2 & Hstate & H).
  apply getState_inv in Hstate as ->.
  apply (writeModel_keeps _ _ _ _ _ _ _ H).
  unfold writer_ok. rewrite Hfiles, Hdcd. exact Hok.
Qed.

Lemma sampling_loop_keeps (nsteps ig c dcd : nat) (h : string) (atoms : nat)
    (n : nat) :
  forall (w w' : World) (u : unit),
    sampling_loop md_step nsteps n ig c dcd w = Ret (u, w') ->
    writer_ok w dcd h atoms -> writer_ok w' dcd h atoms.
Proof.
  unfold sampling_loop. induction n as [|n IH]; intros w w' u Hrun Hok.
  - cbn [for_range] in Hrun. injection Hrun as _ <-. exact Hok.
  - cbn [for_range] in Hrun.
    apply bind_inv in Hrun as (u1 & w1 & Hpass & Hrest).
    apply (IH _ _ _ Hrest).
    exact (sampling_pass_keeps _ _ _ _ _ _ _ _ _ Hpass Hok).
Qed.

Lemma adp_production_consistent (topology_atoms ig c : nat) (w w' : World)
    (u : unit) :
  ADP.production_cell md_step topology_atoms ig c w = Ret (u, w') ->
  exists f,
    files w' !! ADP.dcd_path = Some f /\
    file_closed f = true /\
    file_natoms f = topology_atoms /\
    dcd_consistent f.
Proof.
  unfold ADP.production_cell. intros H.
  apply bind_inv in H as (h & w1 & Hopen & H).
  unfold open in Hopen. injection Hopen as <- <-.
  apply bind_inv in H as (dt & w2 & Hdt & H).
  apply getStepSize_inv in Hdt as ->.
  apply bind_inv in H as (dcd & w3 & Hnew & H).
  apply DCDFile_new_inv in Hnew as (f0 & Hf0 & -> & Hdcd3 & Hfiles3).
  store_simpl in Hf0. rewrite lookup_insert_eq in Hf0. injection Hf0 as <-.
  store_simpl in Hdcd3. store_simpl in Hfiles3. cbn [file_frames] in Hfiles3.
  apply bind_inv in H as (u1 & w4 & Hloop & Hclose).
  assert (Hok : writer_ok w3 (length (dcd_files w)) ADP.dcd_path
                          topology_atoms).
  { eexists _, _. split; [rewrite Hdcd3; apply lookup_snoc|].
    split; [reflexivity|]. split; [reflexivity|].
    split; [rewrite Hfiles3; apply lookup_insert_eq|].
    repeat split. constructor. }
  apply (sampling_loop_keeps _ _ _ _ _ _ _ _ _ _ Hloop) in Hok.
  destruct Hok as (d & f & _ & _ & _ & Hf & _ & Hna & Hcons).
  destruct (close_keeps _ _ _ _ _ Hclose Hf Hcons) as (f' & Hf' & Hcl & Hn & Hc).
  exists f'. repeat split; try assumption; try apply Hc. congruence.
Qed.

Lemma abyu_production_consistent (topology_atoms ig c : nat) (w w' : World)
    (u : unit) :
  AbyU.production_cell md_step topology_atoms ig c w = Ret (u, w') ->
  exists f,
    files w' !! AbyU.dcd_path = Some f /\
    file_closed f = true /\
    file_natoms f = topology_atoms /\
    dcd_consistent f.
Proof.
  unfold AbyU.production_cell. intros H.
  apply bind_inv in H as (h & w1 & Hopen & H).
  unfold open in Hopen. injection Hopen as <- <-.
  apply bind_inv in H as (ph & w2 & Hstate & H).
  apply getState_inv in Hstate as ->.
  apply bind_inv in H as (dt & w2 & Hdt & H).
  apply getStepSize_inv in Hdt as ->.
  apply bind_inv in H as (dcd & w3 & Hnew & H).
  apply DCDFile_new_inv in Hnew as (f0 & Hf0 & -> & Hdcd3 & Hfiles3).
  store_simpl in Hf0. rewrite lookup_insert_eq in Hf0. injection Hf0 as <-.
  store_simpl in Hdcd3. store_simpl in Hfiles3. cbn [file_frames] in Hfiles3.
  apply bind_inv in H as (u0 & w4 & Hfirst & H).
  apply bind_inv in H as (u1 & w5 & Hloop & Hclose).
  assert (Hok : writer_ok w3 (length (dcd_files w)) AbyU.dcd_path
                          topology_atoms).
  { eexists _, _. split; [rewrite Hdcd3; apply lookup_snoc|].
    split; [reflexivity|]. split; [reflexivity|].
    split; [rewrite Hfiles3; apply lookup_insert_eq|].
    repeat split. constructor. }
  apply (writeModel_keeps _ _ _ _ _ _ _ Hfirst) in Hok.
  apply (sampling_loop_keeps _ _ _ _ _ _ _ _ _ _ Hloop) in Hok.
  destruct Hok as (d & f & _ & _ & _ & Hf & _ & Hna & Hcons).
  destruct (close_keeps _ _ _ _ _ Hclose Hf Hcons) as (f' & Hf' & Hcl & Hn & Hc).
  exists f'. repeat split; try assumption; try apply Hc. congruence.
Qed.

(** X14: whenever a notebook runs to the end, with any integrator and
    from any store, its trajectory file is closed and consistent: the
    header is for the atoms of the topology, it counts exactly the
    frames that follow, and every frame has one position per atom. *)
Theorem completed_trajectory_is_consistent (context topology_atoms : nat)
    (w w' : World) (names : nat * nat) :
  (ADP.run md_step context topology_atoms w = Ret (names, w') ->
   exists f,
     files w' !! ADP.dcd_path = Some f /\
     file_closed f = true /\
     file_natoms f = topology_atoms /\
     file_nframes f = length (file_frames f) /\
     Forall (fun frame => length frame = topology_atoms) (file_frames f)) /\
  (AbyU.run md_step context topology_atoms w = Ret (names, w') ->
   exists f,
     files w' !! AbyU.dcd_path = Some f /\
     file_closed f = true /\
     file_natoms f = topology_atoms /\
     file_nframes f = length (file_frames f) /\
     Forall (fun frame => length frame = topology_atoms) (file_frames f)).
Proof.
  split; intros H.
  - unfold ADP.run in H.
    apply bind_inv in H as (names0 & w1 & _ & H).
    apply bind_inv in H as (u & w2 & Hprod & H).
    injection H as _ <-.
    destruct (adp_production_consistent _ _ _ _ _ _ Hprod)
      as (f & Hf & Hcl & Hn & Hnf & Hall).
    exists f. rewrite Hn in Hall. repeat split; assumption.
  - unfold AbyU.run in H.
    apply bind_inv in H as (cell & w0 & _ & H).
    apply bind_inv in H as (names0 & w1 & _ & H).
    apply bind_inv in H as (u & w2 & Hprod & H).
    injection H as _ <-.
    destruct (abyu_production_consistent _ _ _ _ _ _ Hprod)
      as (f & Hf & Hcl & Hn & Hnf & Hall).
    exists f. rewrite Hn in Hall. repeat split; assumption.
Qed.

End AnyStep.

Lemma completed_trajectory_is_consistent_witness :
  (exists names w' f,
      ADP.run Example.drift 0 3 (Example.world 3) = Ret (names, w') /\
      files w' !! ADP.dcd_path = Some f /\
      file_closed f = true /\
      file_natoms f = 3%nat /\
      file_nframes f = length (file_frames f) /\
      Forall (fun frame => length frame = 3%nat) (file_frames f)) /\
  (exists names w' f,
      AbyU.run Example.drift 0 2126 (Example.world 2126) = Ret (names, w') /\
      files w' !! AbyU.dcd_path = Some f /\
      file_closed f = true /\
      file_natoms f = 2126%nat /\
      file_nframes f = length (file_frames f) /\
      Forall (fun frame => length frame = 2126%nat) (file_frames f)).
Proof.
  split.
  - destruct (RunProps.adp_run_spec Example.drift NotebookProps.drift_particles
                0 3 (Example.world 3) _ _ _
                (NotebookProps.example_world_ready 3) eq_refl)
      as (w' & Hrun & _).
    destruct (proj1 (completed_trajectory_is_consistent Example.drift 0 3
                       (Example.world 3) w' _) Hrun) as (f & Hf).
    eexists _, w', f. split; [exact Hrun|exact Hf].
  - destruct (RunProps.abyu_run_spec Example.drift
                NotebookProps.drift_particles
                0 2126 (Example.world 2126) _ _ _
                (NotebookProps.example_world_ready 2126) eq_refl)
      as (rf & w' & _ & Hrun & _).
    { cbn [Example.original_system sys_numParticles]. lia. }
    destruct (proj2 (completed_trajectory_is_consistent Example.drift 0 2126
                       (Example.world 2126) w' _) Hrun) as (f & Hf).
    eexists _, w', f. split; [exact Hrun|exact Hf].
Defined.

Section Mismatch.

Variable md_step : list Force -> gmap string R -> R -> Phase -> Phase.

Hypothesis md_step_particles :
  forall fs ps dt ph,
    length (positions (md_step fs ps dt ph)) = length (positions ph).

(** X15: a topology whose number of atoms differs from the number of
    particles of the new context stops both production cells with
    [ValueError] at the first frame: in AbyU2.ipynb before any step is
    taken, in ADP.ipynb after the first ten. *)
Theorem production_needs_matching_topology (topology_atoms ig c : nat)
    (w : World) (i : Integrator) (cx : Context) :
  integrators w !! ig = Some i ->
  ig_owner i = Some c ->
  contexts w !! c = Some cx ->
  topology_atoms <> length (positions (ctx_phase cx)) ->
  ADP.production_cell md_step topology_atoms ig c w = Raise ValueError /\
  AbyU.production_cell md_step topology_atoms ig c w = Raise ValueError.
Proof.
  intros Hi Ho Hc Hn. split.
  - unfold ADP.production_cell.
    erewrite bind_eq; [|reflexivity].
    erewrite bind_eq; cycle 1.
    { apply getStepSize_eq. store_simpl. exact Hi. }
    erewrite bind_eq; cycle 1.
    { eapply DCDFile_new_eq.
      - store_simpl. apply lookup_insert_eq.
      - reflexivity. }
    apply CellsMore.bind_raise.
    unfold sampling_loop. cbn [for_range].
    apply CellsMore.bind_raise. unfold sampling_pass.
    erewrite bind_eq; cycle 1.
    { eapply step_eq; store_simpl; eassumption. }
    erewrite bind_eq; cycle 1.
    { apply getState_eq. store_simpl. apply list_lookup_insert_eq.
      eapply lookup_lt_Some, Hc. }
    eapply writeModel_mismatch.
    + store_simpl. apply lookup_snoc.
    + cbn [dcd_topology_atoms]. unfold getPositions.
      rewrite (SamplingProps.advance_particles md_step md_step_particles).
      exact Hn.
  - unfold AbyU.production_cell.
    erewrite bind_eq; [|reflexivity].
    erewrite bind_eq; cycle 1.
    { apply getState_eq. store_simpl. exact Hc. }
    erewrite bind_eq; cycle 1.
    { apply getStepSize_eq. store_simpl. exact Hi. }
    erewrite bind_eq; cycle 1.
    { eapply DCDFile_new_eq.
      - store_simpl. apply lookup_insert_eq.
      - reflexivity. }
    apply CellsMore.bind_raise. eapply writeModel_mismatch.
    + store_simpl. apply lookup_snoc.
    + exact Hn.
Qed.

End Mismatch.

Lemma production_needs_matching_topology_witness :
  ADP.production_cell Example.drift 2 0 0 (Example.world 3) =
    Raise ValueError /\
  AbyU.production_cell Example.drift 2 0 0 (Example.world 3) =
    Raise ValueError.
Proof.
  apply (production_needs_matching_topology Example.drift
           NotebookProps.drift_particles 2 0 0 (Example.world 3)
           Example.original_integrator (Example.original_context 3)).
  - reflexivity.
  - reflexivity.
  - reflexivity.
  - cbn. lia.
Defined.

End TrajectoryProps.

(** ** Parameters and the state of a new context *)

Module ContextProps.
Import OpenMM Sampling Geometry StoreProps.

(** X17: the new context takes over the positions of the original one
    and nothing else of its state: whatever the velocities and the step
    count of the original context, in both notebooks the new context
    starts with every velocity zero and with no steps taken, on the
    platform of the original. *)
Theorem new_context_starts_at_rest (context : nat) (w : World)
    (cx0 : Context) (s : System) (i0 : Integrator) :
  dynamics_ready w context cx0 s i0 ->
  (exists names w' cx1,
      ADP.new_context_cell context w = Ret (names, w') /\
      contexts w' !! snd names = Some cx1 /\
      positions (ctx_phase cx1) = positions (ctx_phase cx0) /\
      velocities (ctx_phase cx1) = replicate (sys_numParticles s) origin /\
      ctx_stepCount cx1 = 0%nat /\
      ctx_platform cx1 = ctx_platform cx0) /\
  ((2125 < sys_numParticles s)%nat ->
   exists rf names w' cx1,
      AbyU.restraint_cell AbyU.distances = Ret (52300, rf) /\
      AbyU.new_context_cell context rf 52300 Units.r0 w = Ret (names, w') /\
      contexts w' !! snd names = Some cx1 /\
      positions (ctx_phase cx1) = positions (ctx_phase cx0) /\
      velocities (ctx_phase cx1) = replicate (sys_numParticles s) origin /\
      ctx_stepCount cx1 = 0%nat /\
      ctx_platform cx1 = ctx_platform cx0).
Proof.
  intros Hready. split.
  - destruct (SetupProps.adp_new_context_cell_spec context w cx0 s i0 Hready)
      as (w' & Hcell & _ & _ & Hctx & _).
    eexists _, w', _. split; [exact Hcell|]. cbn [snd]. split.
    { rewrite Hctx. apply lookup_snoc. }
    repeat split.
  - intros Hbig.
    destruct (RestraintProps.restraint_cell_value AbyU.distances)
      as (rf & Hrc & _ & Hg & Hb).
    destruct (SetupProps.abyu_new_context_cell_spec context w cx0 s i0 rf
                52300 _ _ Units.r0 _ Hready
                (RestraintProps.restraint_in_range _ rf Hbig Hb) Hg
                UnitsProps.r0_in_nanometres)
      as (w' & Hcell & _ & _ & Hctx & _).
    eexists rf, _, w', _. split; [exact Hrc|]. split; [exact Hcell|].
    cbn [snd]. split.
    { rewrite Hctx. apply lookup_snoc. }
    repeat split.
Qed.

Lemma warm_world_ready (n : nat) :
  dynamics_ready (Example.warm_world n) 0 (Example.warm_context n)
                 (Example.original_system n) Example.original_integrator.
Proof.
  repeat split. cbn. apply length_replicate.
Qed.

Lemma new_context_starts_at_rest_witness :
  velocities (ctx_phase (Example.warm_context 3)) =
    replicate 3 (mkVec3 1 0 0) /\
  ctx_stepCount (Example.warm_context 3) = 7%nat /\
  exists names w' cx1,
    ADP.new_context_cell 0 (Example.warm_world 3) = Ret (names, w') /\
    contexts w' !! snd names = Some cx1 /\
    positions (ctx_phase cx1) = replicate 3 (mkVec3 1 2 3) /\
    velocities (ctx_phase cx1) = replicate 3 origin /\
    ctx_stepCount cx1 = 0%nat /\
    ctx_platform cx1 = "CPU"%string.
Proof.
  split; [reflexivity|]. split; [reflexivity|].
  apply (proj1 (new_context_starts_at_rest 0 (Example.warm_world 3)
                  (Example.warm_context 3) (Example.original_system 3)
                  Example.original_integrator (warm_world_ready 3))).
Defined.

Lemma default_parameters_last (fs : list Force) (f : Force) (name : string) :
  Forall (fun g => ~ declares name g) fs ->
  default_parameters (fs ++ [f]) !! name =
  (list_to_map (force_globals f) : gmap string R) !! name.
Proof.
  intros Hfs. unfold default_parameters.
  rewrite map_app, concat_app. cbn [map concat]. rewrite app_nil_r.
  rewrite list_to_map_app. apply lookup_union_r.
  apply not_elem_of_list_to_map_1.
  induction Hfs as [|g fs Hg _ IH]; cbn [map concat]; [apply not_elem_of_nil|].
  rewrite fmap_app, not_elem_of_app. split; [exact Hg|exact IH].
Qed.

(** X18: the two [setParameter] calls of the AbyU set-up cell change
    nothing.  Whatever number [k] the first cell computed and whatever
    length [r0] is, when no force already in the system declares a
    parameter [k] or [r0], the new context gets both as defaults from
    the restraint when it is built, and after the cell its parameters
    are still the defaults of its forces. *)
Theorem abyu_setParameter_calls_restate_the_defaults (context : nat)
    (w : World) (cx0 : Context) (s : System) (i0 : Integrator) (k : R)
    (r0 : Units.Quantity) (r0_nm : Q) (rf : CustomCVForce) :
  dynamics_ready w context cx0 s i0 ->
  (2125 < sys_numParticles s)%nat ->
  Units.value_in_md_unit_system r0 = Ret r0_nm ->
  AbyU.restraint AbyU.distances k r0 = Ret rf ->
  Forall (fun g => ~ declares "k" g) (sys_forces s) ->
  Forall (fun g => ~ declares "r0" g) (sys_forces s) ->
  exists names w' cx1,
    AbyU.new_context_cell context rf k r0 w = Ret (names, w') /\
    contexts w' !! snd names = Some cx1 /\
    ctx_forces cx1 = sys_forces s ++ [CVForce rf] /\
    default_parameters (ctx_forces cx1) !! "k" = Some k /\
    default_parameters (ctx_forces cx1) !! "r0" = Some (Q2R r0_nm) /\
    ctx_parameters cx1 = default_parameters (ctx_forces cx1).
Proof.
  intros Hready Hbig Hr0 Hrf Hk Hr.
  rewrite (RestraintProps.restraint_closed_form _ _ _ _ Hr0) in Hrf.
  injection Hrf as <-.
  match goal with
  | |- context [AbyU.new_context_cell _ ?f _ _ _] => set (rf := f)
  end.
  assert (Hg : cvf_globalParameters rf = [("k", k); ("r0", Q2R r0_nm)])
    by reflexivity.
  assert (Hb : map (fun nv => cbf_bonds (snd nv)) (cvf_collectiveVariables rf) =
               [map AbyU.bond_of AbyU.distances]) by reflexivity.
  destruct (SetupProps.abyu_new_context_cell_spec context w cx0 s i0 rf
              k _ _ r0 _ Hready
              (RestraintProps.restraint_in_range _ rf Hbig Hb) Hg Hr0)
    as (w' & Hcell & _ & _ & Hctx & _).
  eexists _, w', _. split; [exact Hcell|]. cbn [snd]. split.
  { rewrite Hctx. apply lookup_snoc. }
  cbn [AbyU.fresh_context ctx_parameters ctx_forces].
  assert (Dk : default_parameters (sys_forces s ++ [CVForce rf]) !! "k" =
               Some k).
  { rewrite (default_parameters_last _ _ _ Hk). cbn [force_globals].
    rewrite Hg. cbn [list_to_map foldr curry fst snd].
    apply lookup_insert_eq. }
  assert (Dr : default_parameters (sys_forces s ++ [CVForce rf]) !! "r0" =
               Some (Q2R r0_nm)).
  { rewrite (default_parameters_last _ _ _ Hr). cbn [force_globals].
    rewrite Hg. cbn [list_to_map foldr curry fst snd].
    rewrite lookup_insert_ne by (intros ?; discriminate).
    apply lookup_insert_eq. }
  split; [reflexivity|]. split; [exact Dk|]. split; [exact Dr|].
  rewrite (insert_id _ "k" k) by exact Dk.
  apply insert_id. exact Dr.
Qed.

Lemma abyu_setParameter_calls_restate_the_defaults_witness :
  exists rf,
    AbyU.restraint AbyU.distances 7 Units.r0 = Ret rf /\
    exists names w' cx1,
      AbyU.new_context_cell 0 rf 7 Units.r0 (Example.world 2126) =
        Ret (names, w') /\
      contexts w' !! snd names = Some cx1 /\
      ctx_forces cx1 = [SireForce 0; CVForce rf] /\
      default_parameters (ctx_forces cx1) !! "k" = Some 7 /\
      default_parameters (ctx_forces cx1) !! "r0" = Some (Q2R (1 # 4)) /\
      ctx_parameters cx1 = default_parameters (ctx_forces cx1).
Proof.
  eexists. split.
  { apply (RestraintProps.restraint_closed_form AbyU.distances 7 Units.r0
             (1 # 4) UnitsProps.r0_in_nanometres). }
  apply (abyu_setParameter_calls_restate_the_defaults 0 (Example.world 2126)
           (Example.original_context 2126) (Example.original_system 2126)
           Example.original_integrator 7 Units.r0 (1 # 4)).
  - apply NotebookProps.example_world_ready.
  - cbn [Example.original_system sys_numParticles]. lia.
  - exact UnitsProps.r0_in_nanometres.
  - apply (RestraintProps.restraint_closed_form AbyU.distances 7 Units.r0
             (1 # 4) UnitsProps.r0_in_nanometres).
  - repeat constructor. intros H. apply elem_of_nil in H. exact H.
  - repeat constructor. intros H. apply elem_of_nil in H. exact H.
Defined.

End ContextProps.
